(** * Quest bot: submission lifecycle, progress aggregation, file cleanup

    A shallow embedding of the storage-facing logic of the bot
    ([src/bot.py], [src/utils.py], schema in [src/database.py]).

    - Tables are lists of rows in storage order.  The engine is SQLite
      ([sqlite:///quests.db]) and every table has an [INTEGER PRIMARY KEY],
      so a scan without [ORDER BY] visits rows in rowid order; [Query.first()]
      is the head of the filtered list, [Query.count()] its length.  A new
      row gets the rowid after the largest one in its table.
    - The ORM writes by primary key.  [session.delete] cascades along
      [Quest.tasks] and [Task.submissions] ([cascade="all, delete-orphan"]);
      [Quest.completions] has no delete cascade, so the completion rows of
      a deleted quest stay, with their foreign key set to NULL.
    - The photo directory is a finite set of existing paths; [os.remove]
      of an existing path succeeds.
    - Handlers run in a small state-and-exception monad over the world
      (database, files, trace of effects).  Sending a chat message and
      downloading a photo are effects of the trace and are taken to
      succeed. *)

From Stdlib Require Import ZArith List Bool String Ascii Lia.
From Stdlib Require Import Floats SpecFloat.
From Stdlib Require Import DecimalString DecimalZ DecimalPos.
From stdpp Require Import gmap strings.
Import ListNotations.

Local Open Scope string_scope.
Local Open Scope list_scope.
Local Open Scope Z_scope.

(** ** Python values used by [utils.format_progress_bar] *)

Module Py.

(** [float(n)] for an [int]: nearest binary64, ties to even. *)
Definition float_of_int (z : Z) : float :=
  match z with
  | Z0 => PrimFloat.zero
  | Zpos p => SF2Prim (binary_normalize prec emax (Zpos p) 0 false)
  | Zneg p =>
      PrimFloat.opp (SF2Prim (binary_normalize prec emax (Zpos p) 0 false))
  end.

(** [a / b] on two [int]s: the correctly rounded quotient.  The quotient
    is computed with at least two guard bits and a sticky bit, then
    rounded once.  [None] stands for [ZeroDivisionError] (and for
    [OverflowError] when the quotient exceeds the binary64 range). *)
Definition int_truediv (a b : Z) : option float :=
  if b =? 0 then None
  else if a =? 0 then Some PrimFloat.zero
  else
    let k := Z.max 0 (56 + Z.log2 (Z.abs b) - Z.log2 (Z.abs a)) in
    let n := Z.abs a * 2 ^ k in
    let q := n / Z.abs b in
    let sticky := if n mod Z.abs b =? 0 then 0 else 1 in
    let r :=
      SF2Prim (binary_normalize prec emax (2 * q + sticky) (- k - 1) false) in
    if PrimFloat.is_infinity r then None
    else Some (if Bool.eqb (a <? 0) (b <? 0) then r else PrimFloat.opp r).

(** [int(x)] for a [float]: truncation toward zero; [None] for a NaN or
    an infinity ([ValueError], [OverflowError]). *)
Definition int_of_float (x : float) : option Z :=
  match Prim2SF x with
  | S754_zero _ => Some 0
  | S754_finite s m e =>
      let a :=
        match e with
        | Z0 => Zpos m
        | Zpos k => Zpos m * 2 ^ Zpos k
        | Zneg k => Zpos m / 2 ^ Zpos k
        end in
      Some (if s then - a else a)
  | S754_infinity _ | S754_nan => None
  end.

(** [s * n] on a [str]: [n] copies, none when [n <= 0]. *)
Fixpoint str_repeat (s : string) (n : nat) : string :=
  match n with
  | O => ""
  | S n' => (s ++ str_repeat s n')%string
  end.

Definition str_mul (s : string) (n : Z) : string := str_repeat s (Z.to_nat n).

(** [len(s)]: strings hold UTF-8, a character starts at every byte that
    is not a continuation byte [10xxxxxx]. *)
Definition is_continuation (c : ascii) : bool :=
  let n := N_of_ascii c in (128 <=? n)%N && (n <? 192)%N.

Fixpoint len (s : string) : Z :=
  match s with
  | EmptyString => 0
  | String c s' => (if is_continuation c then 0 else 1) + len s'
  end.

(** Truth value of a [str]. *)
Definition truthy (s : string) : bool := negb (String.eqb s "").

(** [a > b] on [str]: lexicographic on code points, which on UTF-8 is the
    lexicographic order of the bytes. *)
Definition str_gt (a b : string) : bool :=
  match String.compare a b with Gt => true | _ => false end.

End Py.

(** ** [utils.format_progress_bar] *)

Definition FULL : string := "█".
Definition LIGHT : string := "░".

(** [None] is a raised exception. *)
Definition format_progress_bar (completed total length : Z) : option string :=
  if total =? 0 then Some (Py.str_mul LIGHT length)
  else
    match Py.int_truediv completed total with
    | None => None
    | Some ratio =>
        match Py.int_of_float (PrimFloat.mul ratio (Py.float_of_int 100)) with
        | None => None
        | Some percent =>
            let filled := percent / 10 in
            Some (Py.str_mul FULL filled
                  ++ Py.str_mul LIGHT (length - filled))%string
        end
    end.

Definition DEFAULT_LENGTH : Z := 10.

(** ** Schema ([src/database.py])

    One record per mapped class, fields named after the columns.  A column
    is an [option] where the code stores or tests for [None].
    [QuestCompletion.quest_id] is one of them: [Quest.completions] has no
    delete cascade, so deleting a quest makes the ORM set the foreign key
    of its completion rows to NULL.  Timestamps are clock readings. *)

Module User.
Record t := mk {
  id : Z;
  telegram_id : Z;
  username : option string;
  is_admin : bool }.
End User.

Module Quest.
Record t := mk {
  id : Z;
  title : string;
  description : string;
  image_url : option string;
  reward : string;
  required_completions : Z;
  created_at : Z;
  is_active : bool;
  created_by : Z }.
End Quest.

Module Task.
Record t := mk {
  id : Z;
  quest_id : Z;
  title : string;
  description : string;
  image_url : option string;
  points : Z;
  order : Z;
  scheduled_date : option string;
  is_completed : bool }.
End Task.

Module Submission.
Record t := mk {
  id : Z;
  task_id : Z;
  user_id : Z;
  photo_url : option string;
  comment : string;
  submitted_at : Z;
  is_approved : bool;
  approved_at : option Z }.

(** [sub.is_approved = True; sub.approved_at = datetime.now()] *)
Definition approve (now : Z) (s : t) : t :=
  mk (id s) (task_id s) (user_id s) (photo_url s) (comment s)
     (submitted_at s) true (Some now).
End Submission.

Module QuestCompletion.
Record t := mk {
  id : Z;
  quest_id : option Z;
  user_id : Z;
  completed_at : Z;
  reward_claimed : bool }.

(** The foreign key set to NULL when the parent quest is deleted. *)
Definition orphan (c : t) : t :=
  mk (id c) None (user_id c) (completed_at c) (reward_claimed c).
End QuestCompletion.

Record DB := mkDB {
  users : list User.t;
  quests : list Quest.t;
  tasks : list Task.t;
  submissions : list Submission.t;
  quest_completions : list QuestCompletion.t }.

Definition empty_db : DB := mkDB [] [] [] [] [].

(** ** Query vocabulary *)

Abbreviation filter_by := List.filter (only parsing).

(** [Query.first()] *)
Definition first {A : Type} (rows : list A) : option A :=
  match rows with
  | [] => None
  | r :: _ => Some r
  end.

(** [Query.count()] and [len] *)
Definition count {A : Type} (rows : list A) : Z := Z.of_nat (length rows).

(** [x in ids] *)
Definition mem (x : Z) (ids : list Z) : bool := existsb (Z.eqb x) ids.

Definition opt_eqb (a : option Z) (b : Z) : bool :=
  match a with
  | Some x => x =? b
  | None => false
  end.

(** The rowid SQLite gives to an inserted row: one more than the largest
    rowid in the table, 1 in an empty table. *)
Definition next_id (ids : list Z) : Z :=
  match ids with
  | [] => 1
  | i :: rest => 1 + fold_right Z.max i rest
  end.

(** ** What the active-quest view shows *)

Inductive display_state := Approved | Pending | ScheduledFuture | Available.

Record quest_view := mkView {
  view_quest : Quest.t;
  view_percent : Z;
  view_bar : string;
  view_completed_count : Z;
  view_lines : list (Task.t * display_state);
  view_buttons : list Z }.

Inductive current_quest_view :=
| AllQuestsCompleted
| CurrentQuest (v : quest_view).

(** ** The world: database, photo files, trace of effects *)

Inductive table := Users | Quests | Tasks | Submissions | QuestCompletions.
Inductive statement := INSERT | UPDATE | DELETE.

Inductive message :=
| QuestCompletedMsg (quest_title reward : string)
| ApprovedMsg (task_title : string) (completed required : Z)
| ApprovedAck
| RejectedMsg (task_title : string)
| RejectedAck
| ReportSentMsg
| NewReportMsg (task_title comment : string) (submission_id : Z)
| SubmissionErrorMsg
| AlreadyPendingMsg
| TaskPromptMsg (task_id : Z)
| CurrentQuestMsg (v : current_quest_view)
| QuestCreatedMsg
| TaskAddedMsg
| TaskUpdatedMsg
| QuestDeletedMsg
| TaskDeletedMsg (quest_title : string)
| BadDateMsg
| GenericErrorMsg.

Inductive event :=
| FsRemove (path : string)
| FsCreate (path : string)
| Sql (st : statement) (tb : table) (row_id : Z)
| Send (m : message)
| LogError.

Record world := mkWorld {
  db : DB;
  files : gset string;
  trace : list event }.

Inductive exn :=
| AttributeError
| ArithmeticError
| FileNotFoundError (path : string).

Inductive res (A : Type) :=
| Ok (a : A)
| Raise (e : exn).
Arguments Ok {A} a.
Arguments Raise {A} e.

(** A handler step: effects done before an exception stay done. *)
Definition M (A : Type) : Type := world -> res A * world.

Definition ret {A : Type} (a : A) : M A := fun w => (Ok a, w).

Definition bind {A B : Type} (m : M A) (k : A -> M B) : M B :=
  fun w =>
    match m w with
    | (Ok a, w') => k a w'
    | (Raise e, w') => (Raise e, w')
    end.

Definition raise {A : Type} (e : exn) : M A := fun w => (Raise e, w).

(** [try: m except: h] *)
Definition try_except {A : Type} (m : M A) (h : exn -> M A) : M A :=
  fun w =>
    match m w with
    | (Ok a, w') => (Ok a, w')
    | (Raise e, w') => h e w'
    end.

Declare Scope handler_scope.
Delimit Scope handler_scope with M.
Notation "x <- m ;; k" := (bind m (fun x => k))
  (at level 20, m at level 99, k at level 200, only parsing) : handler_scope.
Notation "m ;; k" := (bind m (fun _ => k))
  (at level 100, k at level 200, right associativity) : handler_scope.
Local Open Scope handler_scope.

Definition query {A : Type} (q : DB -> A) : M A := fun w => (Ok (q (db w)), w).

Definition emit (e : event) : M unit :=
  fun w => (Ok tt, mkWorld (db w) (files w) (trace w ++ [e])).

Definition send (m : message) : M unit := emit (Send m).

(** A committed write: the new database and the statements of the flush. *)
Definition commit (f : DB -> DB) (stmts : DB -> list event) : M unit :=
  fun w => (Ok tt, mkWorld (f (db w)) (files w) (trace w ++ stmts (db w))).

(** [obj.attr] on the result of [first()]: [AttributeError] on [None]. *)
Definition getattr {A : Type} (o : option A) : M A :=
  match o with
  | Some a => ret a
  | None => raise AttributeError
  end.

(** [os.path.exists] *)
Definition os_path_exists (p : string) : M bool :=
  fun w => (Ok (bool_decide (p ∈ files w)), w).

(** [os.remove]: [FileNotFoundError] on a missing path. *)
Definition os_remove (p : string) : M unit :=
  fun w =>
    if bool_decide (p ∈ files w)
    then (Ok tt, mkWorld (db w) (files w ∖ {[p]}) (trace w ++ [FsRemove p]))
    else (Raise (FileNotFoundError p), w).

(** A photo written by a successful download. *)
Definition download_photo (dest : string) : M unit :=
  fun w => (Ok tt, mkWorld (db w) ({[dest]} ∪ files w) (trace w ++ [FsCreate dest])).

(** [for x in xs: body] *)
Fixpoint for_each {A : Type} (xs : list A) (body : A -> M unit) : M unit :=
  match xs with
  | [] => ret tt
  | x :: rest => body x ;; for_each rest body
  end.

(** The guarded removal every cleanup path uses:
    [if url and os.path.exists(url): try: os.remove(url) except: on_error] *)
Definition remove_if_exists (url : option string) (on_error : M unit) : M unit :=
  match url with
  | None => ret tt
  | Some p =>
      if Py.truthy p then
        ex <- os_path_exists p ;;
        if ex then try_except (os_remove p) (fun _ => on_error) else ret tt
      else ret tt
  end.

Definition pass : M unit := ret tt.
Definition log_error : M unit := emit LogError.

(** ** [utils.validate_date]

    [datetime.strptime(s, '%Y-%m-%d')] matches
    [(\d\d\d\d)-(1[0-2]|0[1-9]|[1-9])-(3[0-1]|[1-2]\d|0[1-9]|[1-9]| [1-9])]
    at the start of [s], refuses unconverted trailing text, and builds a
    calendar date.  The model reads ASCII digits. *)

Definition digit (c : ascii) : option Z :=
  let n := Z.of_N (N_of_ascii c) in
  if (48 <=? n) && (n <=? 57) then Some (n - 48) else None.

Definition is_leap (y : Z) : bool :=
  ((y mod 4 =? 0) && negb (y mod 100 =? 0)) || (y mod 400 =? 0).

Definition days_in_month (y m : Z) : Z :=
  if m =? 2 then (if is_leap y then 29 else 28)
  else if (m =? 4) || (m =? 6) || (m =? 9) || (m =? 11) then 30
  else 31.

(** [datetime.date(y, m, d)] accepts the triple. *)
Definition valid_ymd (y m d : Z) : bool :=
  (1 <=? y) && (y <=? 9999) && (1 <=? m) && (m <=? 12)
  && (1 <=? d) && (d <=? days_in_month y m).

(** [%Y]: four digits. *)
Definition match_year (s : string) : option (Z * string) :=
  match s with
  | String a (String b (String c (String d rest))) =>
      match digit a, digit b, digit c, digit d with
      | Some x1, Some x2, Some x3, Some x4 =>
          Some (1000 * x1 + 100 * x2 + 10 * x3 + x4, rest)
      | _, _, _, _ => None
      end
  | _ => None
  end.

(** [%m]: [1[0-2]|0[1-9]|[1-9]], first alternative that matches. *)
Definition match_month (s : string) : option (Z * string) :=
  match s with
  | String a rest =>
      match digit a with
      | Some x =>
          let two :=
            match rest with
            | String b rest' =>
                match digit b with
                | Some y =>
                    if ((x =? 1) && (y <=? 2)) || ((x =? 0) && (1 <=? y))
                    then Some (10 * x + y, rest') else None
                | None => None
                end
            | EmptyString => None
            end in
          match two with
          | Some r => Some r
          | None => if 1 <=? x then Some (x, rest) else None
          end
      | None => None
      end
  | EmptyString => None
  end.

(** [%d]: [3[0-1]|[1-2]\d|0[1-9]|[1-9]| [1-9]], first alternative that
    matches. *)
Definition match_day (s : string) : option (Z * string) :=
  match s with
  | String a rest =>
      match digit a with
      | Some x =>
          let two :=
            match rest with
            | String b rest' =>
                match digit b with
                | Some y =>
                    if ((x =? 3) && (y <=? 1)) || (x =? 1) || (x =? 2)
                       || ((x =? 0) && (1 <=? y))
                    then Some (10 * x + y, rest') else None
                | None => None
                end
            | EmptyString => None
            end in
          match two with
          | Some r => Some r
          | None => if 1 <=? x then Some (x, rest) else None
          end
      | None =>
          if Ascii.eqb a " " then
            match rest with
            | String b rest' =>
                match digit b with
                | Some y => if 1 <=? y then Some (y, rest') else None
                | None => None
                end
            | EmptyString => None
            end
          else None
      end
  | EmptyString => None
  end.

Definition expect_dash (s : string) : option string :=
  match s with
  | String c rest => if Ascii.eqb c "-" then Some rest else None
  | EmptyString => None
  end.

(** The date [strptime] returns, [None] for [ValueError]. *)
Definition strptime_ymd (s : string) : option (Z * Z * Z) :=
  match match_year s with
  | Some (y, s1) =>
      match expect_dash s1 with
      | Some s2 =>
          match match_month s2 with
          | Some (m, s3) =>
              match expect_dash s3 with
              | Some s4 =>
                  match match_day s4 with
                  | Some (d, EmptyString) =>
                      if valid_ymd y m d then Some (y, m, d) else None
                  | _ => None
                  end
              | None => None
              end
          | None => None
          end
      | None => None
      end
  | None => None
  end.

Definition validate_date (date_str : string) : bool :=
  match strptime_ymd date_str with
  | Some _ => true
  | None => false
  end.

(** Calendar order on dates. *)
Definition date_lt (a b : Z * Z * Z) : bool :=
  let '(y1, m1, d1) := a in
  let '(y2, m2, d2) := b in
  (y1 <? y2) || ((y1 =? y2) && ((m1 <? m2) || ((m1 =? m2) && (d1 <? d2)))).

(** [date.isoformat()]: zero-padded [YYYY-MM-DD]. *)
Definition digit_char (d : Z) : ascii := ascii_of_N (Z.to_N (48 + d mod 10)).

Definition isoformat (dt : Z * Z * Z) : string :=
  let '(y, m, d) := dt in
  String (digit_char (y / 1000)) (String (digit_char (y / 100))
  (String (digit_char (y / 10)) (String (digit_char y)
  (String "-" (String (digit_char (m / 10)) (String (digit_char m)
  (String "-" (String (digit_char (d / 10)) (String (digit_char d)
  EmptyString))))))))).

(** ** [order_by(Task.order)], stable *)

Fixpoint insert_by_order (t : Task.t) (sorted : list Task.t) : list Task.t :=
  match sorted with
  | [] => [t]
  | x :: rest =>
      if Task.order t <=? Task.order x then t :: sorted
      else x :: insert_by_order t rest
  end.

Definition order_by_order (rows : list Task.t) : list Task.t :=
  fold_right insert_by_order [] rows.
(** ** Writes

    The ORM updates and deletes the objects it has loaded by primary key. *)

Definition delete_rows {A : Type} (key : A -> Z) (ids : list Z)
    (rows : list A) : list A :=
  filter_by (fun r => negb (mem (key r) ids)) rows.

Definition update_rows {A : Type} (key : A -> Z) (ids : list Z) (f : A -> A)
    (rows : list A) : list A :=
  map (fun r => if mem (key r) ids then f r else r) rows.

Definition set_users (f : list User.t -> list User.t) (d : DB) : DB :=
  mkDB (f (users d)) (quests d) (tasks d) (submissions d) (quest_completions d).

Definition set_quests (f : list Quest.t -> list Quest.t) (d : DB) : DB :=
  mkDB (users d) (f (quests d)) (tasks d) (submissions d) (quest_completions d).

Definition set_tasks (f : list Task.t -> list Task.t) (d : DB) : DB :=
  mkDB (users d) (quests d) (f (tasks d)) (submissions d) (quest_completions d).

Definition set_submissions (f : list Submission.t -> list Submission.t)
    (d : DB) : DB :=
  mkDB (users d) (quests d) (tasks d) (f (submissions d)) (quest_completions d).

Definition set_quest_completions
    (f : list QuestCompletion.t -> list QuestCompletion.t) (d : DB) : DB :=
  mkDB (users d) (quests d) (tasks d) (submissions d) (f (quest_completions d)).

(** Row lookups the handlers repeat. *)
Definition user_by_telegram_id (tg : Z) (d : DB) : option User.t :=
  first (filter_by (fun u => User.telegram_id u =? tg) (users d)).

Definition quest_by_id (quest_id : Z) (d : DB) : option Quest.t :=
  first (filter_by (fun q => Quest.id q =? quest_id) (quests d)).

Definition task_by_id (task_id : Z) (d : DB) : option Task.t :=
  first (filter_by (fun t => Task.id t =? task_id) (tasks d)).

Definition submission_by_id (sub_id : Z) (d : DB) : option Submission.t :=
  first (filter_by (fun s => Submission.id s =? sub_id) (submissions d)).

Definition tasks_of_quest (quest_id : Z) (d : DB) : list Task.t :=
  filter_by (fun t => Task.quest_id t =? quest_id) (tasks d).

Definition submissions_of_task (task_id : Z) (d : DB) : list Submission.t :=
  filter_by (fun s => Submission.task_id s =? task_id) (submissions d).

(** [session.delete(task)]: [Task.submissions] cascades. *)
Definition task_children (task_ids : list Z) (d : DB) : list Submission.t :=
  filter_by (fun s => mem (Submission.task_id s) task_ids) (submissions d).

Definition delete_task (task_id : Z) (d : DB) : DB :=
  let subs := map Submission.id (task_children [task_id] d) in
  set_tasks (delete_rows Task.id [task_id])
    (set_submissions (delete_rows Submission.id subs) d).

Definition delete_task_stmts (task_id : Z) (d : DB) : list event :=
  map (fun s => Sql DELETE Submissions (Submission.id s))
      (task_children [task_id] d)
  ++ [Sql DELETE Tasks task_id].

(** [session.delete(quest)]: [Quest.tasks] cascades, and through each task
    its submissions; [Quest.completions] does not cascade, the completion
    rows of the quest stay with their [quest_id] set to NULL. *)
Definition quest_orphans (quest_id : Z) (d : DB) : list QuestCompletion.t :=
  filter_by (fun c => opt_eqb (QuestCompletion.quest_id c) quest_id)
    (quest_completions d).

Definition delete_quest (quest_id : Z) (d : DB) : DB :=
  let ts := map Task.id (tasks_of_quest quest_id d) in
  let subs := map Submission.id (task_children ts d) in
  let cs := map QuestCompletion.id (quest_orphans quest_id d) in
  set_quests (delete_rows Quest.id [quest_id])
    (set_tasks (delete_rows Task.id ts)
      (set_submissions (delete_rows Submission.id subs)
        (set_quest_completions
          (update_rows QuestCompletion.id cs QuestCompletion.orphan) d))).

Definition delete_quest_stmts (quest_id : Z) (d : DB) : list event :=
  let ts := tasks_of_quest quest_id d in
  map (fun c => Sql UPDATE QuestCompletions (QuestCompletion.id c))
      (quest_orphans quest_id d)
  ++ map (fun s => Sql DELETE Submissions (Submission.id s))
         (task_children (map Task.id ts) d)
  ++ map (fun t => Sql DELETE Tasks (Task.id t)) ts
  ++ [Sql DELETE Quests quest_id].

(** ** Progress queries *)

(** The per-quest progress of the statistics views ([girl_stats],
    [show_my_stats]):
    [query(Submission).join(Task).filter(Task.quest_id == quest.id,
       Submission.user_id == user.id, Submission.is_approved == True).count()] *)
Definition joined_tasks (quest_id user_id : Z) (ts : list Task.t)
    (s : Submission.t) : list Task.t :=
  filter_by
    (fun t =>
       (Task.id t =? Submission.task_id s)
       && (Task.quest_id t =? quest_id)
       && (Submission.user_id s =? user_id)
       && Submission.is_approved s)
    ts.

Definition quest_progress (quest_id user_id : Z) (d : DB) : Z :=
  count (flat_map (joined_tasks quest_id user_id (tasks d)) (submissions d)).

(** The count the approval branch and the active-quest view use:
    [query(Submission).filter_by(user_id=..., is_approved=True).count()] *)
Definition approved_total (user_id : Z) (d : DB) : Z :=
  count
    (filter_by
       (fun s => (Submission.user_id s =? user_id) && Submission.is_approved s)
       (submissions d)).

(** [~Quest.id.in_(ids)] renders as SQL [id NOT IN (...)], a [None] of the
    Python list as NULL.  In SQL's three-valued logic [x NOT IN (..., NULL)]
    is false when [x] is listed and unknown otherwise, and WHERE keeps a
    row only when its condition is true.  [None] is unknown. *)
Definition sql_not_in (x : Z) (ids : list (option Z)) : option bool :=
  if existsb (fun i => opt_eqb i x) ids then Some false
  else if existsb (fun i => match i with None => true | Some _ => false end) ids
       then None
       else Some true.

Definition sql_where (v : option bool) : bool :=
  match v with
  | Some true => true
  | _ => false
  end.

(** One line of the active-quest view. *)
Definition task_state (completed_ids pending_ids : list Z) (today : string)
    (t : Task.t) : display_state :=
  if mem (Task.id t) completed_ids then Approved
  else if mem (Task.id t) pending_ids then Pending
  else
    match Task.scheduled_date t with
    | Some d =>
        if Py.truthy d && Py.str_gt d today then ScheduledFuture else Available
    | None => Available
    end.

Definition is_available (st : display_state) : bool :=
  match st with
  | Available => true
  | _ => false
  end.

(** ** Handlers ([src/bot.py])

    Sending a chat message is an effect of the trace and is taken to
    succeed.  One clock reading [now] serves a handler run; [today] is
    [date.today().isoformat()]. *)

Section Handlers.

Variables ADMIN_ID GIRLFRIEND_ID : Z.

(** [get_user]: fetch, or create on first contact. *)
Definition get_user (telegram_id : Z) : M User.t :=
  user <- query (user_by_telegram_id telegram_id) ;;
  match user with
  | Some u => ret u
  | None =>
      new_id <- query (fun d => next_id (map User.id (users d))) ;;
      let u := User.mk new_id telegram_id None (telegram_id =? ADMIN_ID) in
      commit (set_users (fun us => us ++ [u]))
             (fun _ => [Sql INSERT Users new_id]) ;;
      ret u
  end.

(** [cmd_start] *)
Definition cmd_start (from_id : Z) : M unit :=
  if (from_id =? ADMIN_ID) || (from_id =? GIRLFRIEND_ID)
  then _ <- get_user from_id ;; ret tt
  else ret tt.

(** The database part of [main].  (Its sweep of day-old [temp_*] files is
    left out: no handler writes such files.) *)
Definition main_init : M unit :=
  admin <- query (user_by_telegram_id ADMIN_ID) ;;
  match admin with
   | Some _ => ret tt
   | None =>
       new_id <- query (fun d => next_id (map User.id (users d))) ;;
       commit (set_users (fun us => us ++ [User.mk new_id ADMIN_ID None true]))
              (fun _ => [Sql INSERT Users new_id])
   end ;;
  girlfriend <- query (user_by_telegram_id GIRLFRIEND_ID) ;;
  match girlfriend with
  | Some _ => ret tt
  | None =>
      if negb (GIRLFRIEND_ID =? 0) then
        new_id <- query (fun d => next_id (map User.id (users d))) ;;
        commit
          (set_users (fun us => us ++ [User.mk new_id GIRLFRIEND_ID None false]))
          (fun _ => [Sql INSERT Users new_id])
      else ret tt
  end.

(** [cleanup_task_files] *)
Definition cleanup_task_files (task_id : Z) : M unit :=
  subs <- query (submissions_of_task task_id) ;;
  for_each subs
    (fun sub => remove_if_exists (Submission.photo_url sub) log_error) ;;
  task <- query (task_by_id task_id) ;;
  match task with
  | Some t => remove_if_exists (Task.image_url t) log_error
  | None => ret tt
  end.

(** [cleanup_quest_files] (the definition in [bot.py], which shadows the
    stub imported from [utils]). *)
Definition cleanup_quest_files (quest_id : Z) : M unit :=
  ts <- query (tasks_of_quest quest_id) ;;
  for_each ts (fun task => cleanup_task_files (Task.id task)) ;;
  quest <- query (quest_by_id quest_id) ;;
  match quest with
  | Some q => remove_if_exists (Quest.image_url q) log_error
  | None => ret tt
  end.

(** [confirm_delete_quest_<id>] *)
Definition confirm_delete_quest (quest_id : Z) : M unit :=
  cleanup_quest_files quest_id ;;
  quest <- query (quest_by_id quest_id) ;;
  match quest with
  | Some q =>
      commit (delete_quest (Quest.id q)) (delete_quest_stmts (Quest.id q)) ;;
      send QuestDeletedMsg
  | None => ret tt
  end.

(** [confirm_delete_task_<id>] *)
Definition confirm_delete_task (task_id : Z) : M unit :=
  cleanup_task_files task_id ;;
  task <- query (task_by_id task_id) ;;
  match task with
  | Some t =>
      let quest_id := Task.quest_id t in
      commit (delete_task (Task.id t)) (delete_task_stmts (Task.id t)) ;;
      quest <- query (quest_by_id quest_id) ;;
      q <- getattr quest ;;
      send (TaskDeletedMsg (Quest.title q))
  | None => ret tt
  end.

(** [show_current_quest]: the view it computes.  The girlfriend's user row
    is the only user it serves. *)
Definition show_current_quest (today : string) : M current_quest_view :=
  user <- query (user_by_telegram_id GIRLFRIEND_ID) ;;
  user <- getattr user ;;
  completed_quest_ids <-
    query (fun d =>
      map QuestCompletion.quest_id
        (filter_by (fun cq => QuestCompletion.user_id cq =? User.id user)
           (quest_completions d))) ;;
  quest <-
    query (fun d =>
      match completed_quest_ids with
      | _ :: _ =>
          first (filter_by
                   (fun q => Quest.is_active q
                             && sql_where (sql_not_in (Quest.id q)
                                             completed_quest_ids))
                   (quests d))
      | [] => first (filter_by Quest.is_active (quests d))
      end) ;;
  match quest with
  | None => ret AllQuestsCompleted
  | Some quest =>
      ts <- query (fun d => order_by_order (tasks_of_quest (Quest.id quest) d)) ;;
      completed_ids <-
        query (fun d =>
          map Submission.task_id
            (filter_by (fun s => (Submission.user_id s =? User.id user)
                                 && Submission.is_approved s)
               (submissions d))) ;;
      pending_ids <-
        query (fun d =>
          map Submission.task_id
            (filter_by (fun s => (Submission.user_id s =? User.id user)
                                 && negb (Submission.is_approved s))
               (submissions d))) ;;
      let completed_count := count completed_ids in
      percent <-
        (if 0 <? Quest.required_completions quest then
           match Py.int_truediv completed_count
                   (Quest.required_completions quest) with
           | Some ratio =>
               match Py.int_of_float
                       (PrimFloat.mul ratio (Py.float_of_int 100)) with
               | Some p => ret p
               | None => raise ArithmeticError
               end
           | None => raise ArithmeticError
           end
         else ret 0) ;;
      let bar := (Py.str_mul FULL (percent / 10)
                  ++ Py.str_mul LIGHT (10 - percent / 10))%string in
      let lines :=
        map (fun t => (t, task_state completed_ids pending_ids today t)) ts in
      let buttons :=
        map (fun l => Task.id (fst l))
          (filter_by (fun l => is_available (snd l)) lines) in
      ret (CurrentQuest
             (mkView quest percent bar completed_count lines buttons))
  end.

(** [approve_<id>] *)
Definition approve (sub_id now : Z) (today : string) : M unit :=
  found <- query (submission_by_id sub_id) ;;
  match found with
  | None => ret tt
  | Some sub =>
      commit
        (set_submissions
           (update_rows Submission.id [Submission.id sub]
              (Submission.approve now)))
        (fun _ => [Sql UPDATE Submissions (Submission.id sub)]) ;;
      completed <- query (approved_total (Submission.user_id sub)) ;;
      task <- query (task_by_id (Submission.task_id sub)) ;;
      task <- getattr task ;;
      quest <- query (quest_by_id (Task.quest_id task)) ;;
      quest <- getattr quest ;;
      (if Quest.required_completions quest <=? completed then
         existing <-
           query (fun d =>
             first (filter_by
                      (fun c =>
                         opt_eqb (QuestCompletion.quest_id c) (Quest.id quest)
                         && (QuestCompletion.user_id c =? Submission.user_id sub))
                      (quest_completions d))) ;;
         match existing with
         | Some _ => ret tt
         | None =>
             new_id <-
               query (fun d =>
                 next_id (map QuestCompletion.id (quest_completions d))) ;;
             commit
               (set_quest_completions
                  (fun cs =>
                     cs ++ [QuestCompletion.mk new_id (Some (Quest.id quest))
                              (Submission.user_id sub) now false]))
               (fun _ => [Sql INSERT QuestCompletions new_id]) ;;
             send (QuestCompletedMsg (Quest.title quest) (Quest.reward quest)) ;;
             _ <- show_current_quest today ;;
             ret tt
         end
       else ret tt) ;;
      send (ApprovedMsg (Task.title task) completed
              (Quest.required_completions quest)) ;;
      send ApprovedAck
  end.

(** [reject_<id>] *)
Definition reject (sub_id : Z) : M unit :=
  found <- query (submission_by_id sub_id) ;;
  match found with
  | None => ret tt
  | Some sub =>
      task <- query (task_by_id (Submission.task_id sub)) ;;
      task <- getattr task ;;
      let task_title := Task.title task in
      remove_if_exists (Submission.photo_url sub) pass ;;
      commit (set_submissions (delete_rows Submission.id [Submission.id sub]))
             (fun _ => [Sql DELETE Submissions (Submission.id sub)]) ;;
      send (RejectedMsg task_title) ;;
      send RejectedAck
  end.

(** The pending submissions [process_complete_submission] and [do_<id>]
    look for. *)
Definition pending_of (task_id user_id : Z) (d : DB) : list Submission.t :=
  filter_by
    (fun s => (Submission.task_id s =? task_id)
              && (Submission.user_id s =? user_id)
              && negb (Submission.is_approved s))
    (submissions d).

(** [do_<id>] *)
Definition do_task (task_id : Z) : M unit :=
  task <- query (task_by_id task_id) ;;
  user <- query (user_by_telegram_id GIRLFRIEND_ID) ;;
  user <- getattr user ;;
  existing <- query (fun d => first (pending_of task_id (User.id user) d)) ;;
  match existing with
  | Some _ => send AlreadyPendingMsg
  | None =>
      _ <- getattr task ;;
      send (TaskPromptMsg task_id)
  end.

(** [process_complete_submission].  The photos of the old reports are
    removed in the loop; the rows change at the commit, in one
    transaction, where the unit of work emits the INSERT of the new row
    before the DELETEs of the old ones. *)
Definition process_complete_submission (task_id : Z)
    (photo_path comment : string) (now : Z) : M unit :=
  try_except
    (task <- query (task_by_id task_id) ;;
     user <- query (user_by_telegram_id GIRLFRIEND_ID) ;;
     user <- getattr user ;;
     old_subs <- query (pending_of task_id (User.id user)) ;;
     for_each old_subs
       (fun sub => remove_if_exists (Submission.photo_url sub) pass) ;;
     new_id <- query (fun d => next_id (map Submission.id (submissions d))) ;;
     let sub :=
       Submission.mk new_id task_id (User.id user) (Some photo_path) comment
         now false None in
     commit
       (set_submissions
          (fun subs =>
             delete_rows Submission.id (map Submission.id old_subs) subs
             ++ [sub]))
       (fun _ =>
          Sql INSERT Submissions new_id
          :: map (fun s => Sql DELETE Submissions (Submission.id s)) old_subs) ;;
     send ReportSentMsg ;;
     task <- getattr task ;;
     send (NewReportMsg (Task.title task) comment new_id))
    (fun _ =>
       emit LogError ;;
       send SubmissionErrorMsg ;;
       ex <- os_path_exists photo_path ;;
       if ex then try_except (os_remove photo_path) (fun _ => pass) else ret tt).

(** [handle_photo] with a caption, or [handle_photo] then [handle_comment]:
    the photo is downloaded to [dest], then the report is filed. *)
Definition submit_report (task_id : Z) (dest comment : string) (now : Z)
    : M unit :=
  download_photo dest ;;
  process_complete_submission task_id dest comment now.

(** [quest_image] ... [quest_required]: the quest dialogue, with its
    answers. *)
Definition quest_required (from_id : Z) (title description : string)
    (image : option string) (reward : string) (required now : Z) : M unit :=
  match image with
   | Some dest => download_photo dest
   | None => ret tt
   end ;;
  user <- query (user_by_telegram_id from_id) ;;
  user <- getattr user ;;
  new_id <- query (fun d => next_id (map Quest.id (quests d))) ;;
  commit
    (set_quests
       (fun qs =>
          qs ++ [Quest.mk new_id title description image reward required now
                   true (User.id user)]))
    (fun _ => [Sql INSERT Quests new_id]) ;;
  send QuestCreatedMsg.

(** [task_image] ... [task_date]: the task dialogue.  [date_text] is
    [None] for the answer that means no date. *)
Definition task_date (quest_id : Z) (title description : string)
    (image : option string) (points : Z) (date_text : option string)
    : M unit :=
  match image with
   | Some dest => download_photo dest
   | None => ret tt
   end ;;
  if match date_text with
     | Some s => validate_date s
     | None => true
     end
  then
    task_count <- query (fun d => count (tasks_of_quest quest_id d)) ;;
    new_id <- query (fun d => next_id (map Task.id (tasks d))) ;;
    commit
      (set_tasks
         (fun ts =>
            ts ++ [Task.mk new_id quest_id title description image points
                     (task_count + 1) date_text false]))
      (fun _ => [Sql INSERT Tasks new_id]) ;;
    send TaskAddedMsg
  else send BadDateMsg.

Inductive task_edit :=
| SetTitle (text : string)
| SetDescription (text : string)
| SetPoints (points : Z)
| SetDate (date_text : option string).

Definition apply_edit (e : task_edit) (t : Task.t) : Task.t :=
  match e with
  | SetTitle s =>
      Task.mk (Task.id t) (Task.quest_id t) s (Task.description t)
        (Task.image_url t) (Task.points t) (Task.order t)
        (Task.scheduled_date t) (Task.is_completed t)
  | SetDescription s =>
      Task.mk (Task.id t) (Task.quest_id t) (Task.title t) s
        (Task.image_url t) (Task.points t) (Task.order t)
        (Task.scheduled_date t) (Task.is_completed t)
  | SetPoints p =>
      Task.mk (Task.id t) (Task.quest_id t) (Task.title t) (Task.description t)
        (Task.image_url t) p (Task.order t)
        (Task.scheduled_date t) (Task.is_completed t)
  | SetDate sd =>
      Task.mk (Task.id t) (Task.quest_id t) (Task.title t) (Task.description t)
        (Task.image_url t) (Task.points t) (Task.order t)
        sd (Task.is_completed t)
  end.

(** [edit_task_field] *)
Definition edit_task_field (task_id : Z) (e : task_edit) : M unit :=
  task <- query (task_by_id task_id) ;;
  match task with
  | None => ret tt
  | Some t =>
      if match e with
         | SetDate (Some s) => validate_date s
         | _ => true
         end
      then
        commit (set_tasks (update_rows Task.id [Task.id t] (apply_edit e)))
               (fun _ => [Sql UPDATE Tasks (Task.id t)]) ;;
        send TaskUpdatedMsg
      else send BadDateMsg
  end.

(** The callbacks of [handle_callback] that touch stored state, decoded. *)
Inductive callback :=
| Approve (sub_id : Z)
| Reject (sub_id : Z)
| ConfirmDeleteQuest (quest_id : Z)
| ConfirmDeleteTask (task_id : Z)
| Do (task_id : Z)
| ShowCurrentQuest.

(** [handle_callback]: the admin panel is tried first, then the girlfriend
    panel; any exception ends in the generic apology. *)
Definition handle_callback (user_id : Z) (c : callback) (now : Z)
    (today : string) : M unit :=
  try_except
    (if user_id =? ADMIN_ID then
       match c with
       | Approve sub_id => approve sub_id now today
       | Reject sub_id => reject sub_id
       | ConfirmDeleteQuest quest_id => confirm_delete_quest quest_id
       | ConfirmDeleteTask task_id => confirm_delete_task task_id
       | Do _ | ShowCurrentQuest => ret tt
       end
     else if user_id =? GIRLFRIEND_ID then
       match c with
       | Do task_id => do_task task_id
       | ShowCurrentQuest =>
           v <- show_current_quest today ;;
           send (CurrentQuestMsg v)
       | _ => ret tt
       end
     else ret tt)
    (fun _ => emit LogError ;; send GenericErrorMsg).

(** ** The bot as a transition system *)

Inductive op :=
| Boot
| Start (from_id : Z)
| Callback (user_id : Z) (c : callback) (now : Z) (today : string)
| SubmitReport (task_id : Z) (dest comment : string) (now : Z)
| CreateQuest (from_id : Z) (title description : string)
    (image : option string) (reward : string) (required now : Z)
| CreateTask (quest_id : Z) (title description : string)
    (image : option string) (points : Z) (date_text : option string)
| EditTask (task_id : Z) (e : task_edit).

Definition handler (o : op) : M unit :=
  match o with
  | Boot => main_init
  | Start from_id => cmd_start from_id
  | Callback user_id c now today => handle_callback user_id c now today
  | SubmitReport task_id dest comment now =>
      submit_report task_id dest comment now
  | CreateQuest from_id title description image reward required now =>
      quest_required from_id title description image reward required now
  | CreateTask quest_id title description image points date_text =>
      task_date quest_id title description image points date_text
  | EditTask task_id e => edit_task_field task_id e
  end.

(** An exception that leaves a handler is logged by the dispatcher; the
    world keeps what was done before it. *)
Definition step (o : op) (w : world) : world := snd (handler o w).

Definition run (ops : list op) (w : world) : world :=
  fold_left (fun w o => step o w) ops w.

End Handlers.

Definition initial_world : world := mkWorld empty_db ∅ [].

(** ** The database effect of each handler, as a function

    Each handler's stored effect depends on the database alone; the
    functions below state it, and [step_db_correct] proves that the
    handlers compute them. *)

(** The quest whose completion row an approval inserts, if any: read after
    the approval is committed. *)
Definition completion_due (sub : Submission.t) (d : DB) : option Quest.t :=
  match task_by_id (Submission.task_id sub) d with
  | None => None
  | Some task =>
      match quest_by_id (Task.quest_id task) d with
      | None => None
      | Some quest =>
          if Quest.required_completions quest
             <=? approved_total (Submission.user_id sub) d
          then
            match
              first (filter_by
                       (fun c =>
                          opt_eqb (QuestCompletion.quest_id c) (Quest.id quest)
                          && (QuestCompletion.user_id c
                              =? Submission.user_id sub))
                       (quest_completions d))
            with
            | Some _ => None
            | None => Some quest
            end
          else None
      end
  end.

Definition mark_approved (sub : Submission.t) (now : Z) (d : DB) : DB :=
  set_submissions
    (update_rows Submission.id [Submission.id sub] (Submission.approve now)) d.

Definition new_completion (quest : Quest.t) (sub : Submission.t) (now : Z)
    (d : DB) : QuestCompletion.t :=
  QuestCompletion.mk (next_id (map QuestCompletion.id (quest_completions d)))
    (Some (Quest.id quest)) (Submission.user_id sub) now false.

Definition approve_db (sub_id now : Z) (d : DB) : DB :=
  match submission_by_id sub_id d with
  | None => d
  | Some sub =>
      let d1 := mark_approved sub now d in
      match completion_due sub d1 with
      | None => d1
      | Some quest =>
          set_quest_completions
            (fun cs => cs ++ [new_completion quest sub now d1]) d1
      end
  end.

Definition reject_db (sub_id : Z) (d : DB) : DB :=
  match submission_by_id sub_id d with
  | None => d
  | Some sub =>
      match task_by_id (Submission.task_id sub) d with
      | None => d
      | Some _ =>
          set_submissions (delete_rows Submission.id [Submission.id sub]) d
      end
  end.

Definition confirm_delete_quest_db (quest_id : Z) (d : DB) : DB :=
  match quest_by_id quest_id d with
  | None => d
  | Some q => delete_quest (Quest.id q) d
  end.

Definition confirm_delete_task_db (task_id : Z) (d : DB) : DB :=
  match task_by_id task_id d with
  | None => d
  | Some t => delete_task (Task.id t) d
  end.

Definition new_submission (task_id user_id : Z) (photo_path comment : string)
    (now : Z) (d : DB) : Submission.t :=
  Submission.mk (next_id (map Submission.id (submissions d))) task_id user_id
    (Some photo_path) comment now false None.

Definition submit_db (girlfriend_id task_id : Z) (photo_path comment : string)
    (now : Z) (d : DB) : DB :=
  match user_by_telegram_id girlfriend_id d with
  | None => d
  | Some user =>
      set_submissions
        (fun subs =>
           delete_rows Submission.id
             (map Submission.id (pending_of task_id (User.id user) d)) subs
           ++ [new_submission task_id (User.id user) photo_path comment now d])
        d
  end.

Definition add_user (telegram_id : Z) (admin : bool) (d : DB) : DB :=
  match user_by_telegram_id telegram_id d with
  | Some _ => d
  | None =>
      set_users
        (fun us =>
           us ++ [User.mk (next_id (map User.id (users d))) telegram_id None
                    admin])
        d
  end.

Definition main_init_db (admin_id girlfriend_id : Z) (d : DB) : DB :=
  let d1 := add_user admin_id true d in
  if negb (girlfriend_id =? 0) then add_user girlfriend_id false d1 else d1.

Definition cmd_start_db (admin_id girlfriend_id from_id : Z) (d : DB) : DB :=
  if (from_id =? admin_id) || (from_id =? girlfriend_id)
  then add_user from_id (from_id =? admin_id) d
  else d.

Definition quest_required_db (from_id : Z) (title description : string)
    (image : option string) (reward : string) (required now : Z) (d : DB)
    : DB :=
  match user_by_telegram_id from_id d with
  | None => d
  | Some user =>
      set_quests
        (fun qs =>
           qs ++ [Quest.mk (next_id (map Quest.id (quests d))) title
                    description image reward required now true (User.id user)])
        d
  end.

Definition date_accepted (date_text : option string) : bool :=
  match date_text with
  | Some s => validate_date s
  | None => true
  end.

Definition task_date_db (quest_id : Z) (title description : string)
    (image : option string) (points : Z) (date_text : option string) (d : DB)
    : DB :=
  if date_accepted date_text then
    set_tasks
      (fun ts =>
         ts ++ [Task.mk (next_id (map Task.id (tasks d))) quest_id title
                  description image points
                  (count (tasks_of_quest quest_id d) + 1) date_text false])
      d
  else d.

Definition edit_accepted (e : task_edit) : bool :=
  match e with
  | SetDate date_text => date_accepted date_text
  | _ => true
  end.

Definition edit_task_field_db (task_id : Z) (e : task_edit) (d : DB) : DB :=
  match task_by_id task_id d with
  | None => d
  | Some t =>
      if edit_accepted e
      then set_tasks (update_rows Task.id [Task.id t] (apply_edit e)) d
      else d
  end.

Definition callback_db (admin_id user_id : Z) (c : callback) (now : Z)
    (d : DB) : DB :=
  if user_id =? admin_id then
    match c with
    | Approve sub_id => approve_db sub_id now d
    | Reject sub_id => reject_db sub_id d
    | ConfirmDeleteQuest quest_id => confirm_delete_quest_db quest_id d
    | ConfirmDeleteTask task_id => confirm_delete_task_db task_id d
    | Do _ | ShowCurrentQuest => d
    end
  else d.

Definition step_db (admin_id girlfriend_id : Z) (o : op) (d : DB) : DB :=
  match o with
  | Boot => main_init_db admin_id girlfriend_id d
  | Start from_id => cmd_start_db admin_id girlfriend_id from_id d
  | Callback user_id c now _ => callback_db admin_id user_id c now d
  | SubmitReport task_id dest comment now =>
      submit_db girlfriend_id task_id dest comment now d
  | CreateQuest from_id title description image reward required now =>
      quest_required_db from_id title description image reward required now d
  | CreateTask quest_id title description image points date_text =>
      task_date_db quest_id title description image points date_text d
  | EditTask task_id e => edit_task_field_db task_id e d
  end.

(** ** Predicates of the properties *)

Definition is_fs_remove (e : event) : bool :=
  match e with
  | FsRemove _ => true
  | _ => false
  end.

Definition is_sql (e : event) : bool :=
  match e with
  | Sql _ _ _ => true
  | _ => false
  end.

(** The artifact a row points to is not in storage. *)
Definition gone (url : option string) (fs : gset string) : Prop :=
  forall p, url = Some p -> Py.truthy p = true -> p ∉ fs.

(** What a cleanup may do: leave the database alone, only take files
    away, and add nothing to the trace but successful removals. *)
Definition cleans (w w' : world) : Prop :=
  db w' = db w
  /\ files w' ⊆ files w
  /\ exists evs, trace w' = trace w ++ evs
                 /\ Forall (fun e => is_fs_remove e = true) evs.

(** A computation that never raises and only cleans. *)
Definition clean {A : Type} (m : M A) : Prop :=
  forall w, (exists a, fst (m w) = Ok a) /\ cleans w (snd (m w)).

(** Every photo of the task's submissions, and the task's own image, are
    gone. *)
Definition task_files_gone (d : DB) (task_id : Z) (fs : gset string) : Prop :=
  (forall s, In s (submissions d) -> Submission.task_id s = task_id ->
             gone (Submission.photo_url s) fs)
  /\ (forall t, task_by_id task_id d = Some t -> gone (Task.image_url t) fs).

(** The completion rows of a (quest, user) pair, as the approval branch
    looks them up. *)
Definition completion_for (quest_id user_id : Z) (c : QuestCompletion.t)
    : bool :=
  opt_eqb (QuestCompletion.quest_id c) quest_id
  && (QuestCompletion.user_id c =? user_id).

Definition completions_of (quest_id user_id : Z) (d : DB)
    : list QuestCompletion.t :=
  filter_by (completion_for quest_id user_id) (quest_completions d).

(** At most one completion row per (quest, user). *)
Definition completions_unique (d : DB) : Prop :=
  forall quest_id user_id,
    (length (completions_of quest_id user_id d) <= 1)%nat.

(** At most one unapproved submission per (task, user). *)
Definition pending_unique (d : DB) : Prop :=
  forall task_id user_id, (length (pending_of task_id user_id d) <= 1)%nat.

(** The filter of [pending_of]. *)
Definition is_pending_of (task_id user_id : Z) (s : Submission.t) : bool :=
  (Submission.task_id s =? task_id) && (Submission.user_id s =? user_id)
  && negb (Submission.is_approved s).

(** The file a row's artifact column names, if it names one. *)
Definition artifact (url : option string) : gset string :=
  match url with
  | Some p => if Py.truthy p then {[p]} else ∅
  | None => ∅
  end.

(** The removal a guarded cleanup of [url] performs on the files [fs]. *)
Definition removal (url : option string) (fs : gset string) : list event :=
  match url with
  | Some p =>
      if Py.truthy p && bool_decide (p ∈ fs) then [FsRemove p] else []
  | None => []
  end.

(** Some approved submission has this id. *)
Definition approved_with_id (sub_id : Z) (d : DB) : bool :=
  existsb (fun s => (Submission.id s =? sub_id) && Submission.is_approved s)
    (submissions d).

(** The operations that take approved submissions out of the database:
    the cascades of a task or quest deletion, and the rejection of a
    submission that is already approved. *)
Definition deletes_history (admin_id : Z) (o : op) (d : DB) : bool :=
  match o with
  | Callback user_id c _ _ =>
      (user_id =? admin_id)
      && match c with
         | ConfirmDeleteQuest _ | ConfirmDeleteTask _ => true
         | Reject sub_id => approved_with_id sub_id d
         | Approve _ | Do _ | ShowCurrentQuest => false
         end
  | _ => false
  end.


(** ** Concrete runs *)

Definition ADMIN : Z := 1001.
Definition GIRL : Z := 2002.
Definition TODAY : string := "2024-12-01".

(** Two quests of two required completions each, one task in each; the
    participant has one approved report in the first quest and one pending
    report in the second. *)
Definition two_quests : list op :=
  [ Boot;
    CreateQuest ADMIN "Walks" "Evening walks" None "Cinema" 2 100;
    CreateQuest ADMIN "Books" "Read together" None "Cafe" 2 101;
    CreateTask 1 "Park" "Walk in the park" None 5 None;
    CreateTask 2 "Novel" "Read a novel" None 5 None;
    SubmitReport 1 "photos/submission_a.jpg" "done" 110;
    Callback ADMIN (Approve 1) 120 TODAY;
    SubmitReport 2 "photos/submission_b.jpg" "read" 130 ].

Definition before_second_approval : world :=
  run ADMIN GIRL two_quests initial_world.

Definition after_second_approval : world :=
  step ADMIN GIRL (Callback ADMIN (Approve 2) 140 TODAY)
    before_second_approval.

(** A quest with pictures: the quest and its task have an image, the task
    has an approved and a pending report; the task image has since
    disappeared from the photo directory. *)
Definition gallery : list op :=
  [ Boot;
    CreateQuest ADMIN "Walks" "Evening walks" (Some "photos/quest_q.jpg")
      "Cinema" 2 100;
    CreateTask 1 "Park" "Walk in the park" (Some "photos/task_t.jpg") 5 None;
    SubmitReport 1 "photos/submission_a.jpg" "done" 110;
    Callback ADMIN (Approve 1) 120 TODAY;
    SubmitReport 1 "photos/submission_b.jpg" "again" 130 ].

Definition gallery_world : world :=
  let w := run ADMIN GIRL gallery initial_world in
  mkWorld (db w) (files w ∖ {["photos/task_t.jpg"]}) (trace w).

(** Two quests of one required completion; the first is completed, then
    deleted. *)
Definition completed_then_deleted : list op :=
  [ Boot;
    CreateQuest ADMIN "Walks" "Evening walks" None "Cinema" 1 100;
    CreateQuest ADMIN "Books" "Read together" None "Cafe" 1 101;
    CreateTask 1 "Park" "Walk in the park" None 5 None;
    CreateTask 2 "Novel" "Read a novel" None 5 None;
    SubmitReport 1 "photos/submission_a.jpg" "done" 110;
    Callback ADMIN (Approve 1) 120 TODAY;
    Callback ADMIN (ConfirmDeleteQuest 1) 130 TODAY ].

Definition after_quest_deletion : world :=
  run ADMIN GIRL completed_then_deleted initial_world.

(** A task whose date was typed without zero padding. *)
Definition unpadded_date : list op :=
  [ Boot;
    CreateQuest ADMIN "Walks" "Evening walks" None "Cinema" 2 100;
    CreateTask 1 "Park" "Walk in the park" None 5 (Some "2024-2-1") ].

Definition with_unpadded_date : world :=
  run ADMIN GIRL unpadded_date initial_world.

(** One quest of two required completions with two tasks, both reported
    and approved, the second approval sent twice. *)
Definition two_tasks : list op :=
  [ Boot;
    CreateQuest ADMIN "Walks" "Evening walks" None "Cinema" 2 100;
    CreateTask 1 "Park" "Walk in the park" None 5 None;
    CreateTask 1 "River" "Walk along the river" None 5 None;
    SubmitReport 1 "photos/submission_a.jpg" "done" 110;
    Callback ADMIN (Approve 1) 120 TODAY;
    SubmitReport 2 "photos/submission_b.jpg" "done too" 130 ].

Definition one_task_approved : world := run ADMIN GIRL two_tasks initial_world.

(** ** Primary keys

    Rowids only grow along a table: rows are appended with [next_id] and
    keep their id until they are deleted. *)

Fixpoint increasing (ids : list Z) : bool :=
  match ids with
  | [] => true
  | i :: rest => forallb (fun j => i <? j) rest && increasing rest
  end.

Definition primary_keys (d : DB) : bool :=
  increasing (map User.id (users d))
  && increasing (map Quest.id (quests d))
  && increasing (map Task.id (tasks d))
  && increasing (map Submission.id (submissions d))
  && increasing (map QuestCompletion.id (quest_completions d)).

(** ** What the active-quest view is meant to compute *)

(** An active quest for which the user has no completion row. *)
Definition eligible (user_id : Z) (d : DB) (q : Quest.t) : bool :=
  Quest.is_active q
  && negb (existsb (completion_for (Quest.id q) user_id) (quest_completions d)).

(** No completion row of the user has lost its quest. *)
Definition no_orphan_completion (user_id : Z) (d : DB) : bool :=
  forallb
    (fun c =>
       negb (QuestCompletion.user_id c =? user_id)
       || match QuestCompletion.quest_id c with
          | Some _ => true
          | None => false
          end)
    (quest_completions d).

Definition has_approved (user_id : Z) (d : DB) (t : Task.t) : bool :=
  existsb
    (fun s => (Submission.user_id s =? user_id) && Submission.is_approved s
              && (Submission.task_id s =? Task.id t))
    (submissions d).

Definition has_pending (user_id : Z) (d : DB) (t : Task.t) : bool :=
  existsb
    (fun s => (Submission.user_id s =? user_id)
              && negb (Submission.is_approved s)
              && (Submission.task_id s =? Task.id t))
    (submissions d).

(** The four states in their order of precedence, the date test being the
    handler's comparison of texts. *)
Definition classify (user_id : Z) (d : DB) (today : string) (t : Task.t)
    : display_state :=
  if has_approved user_id d t then Approved
  else if has_pending user_id d t then Pending
  else
    match Task.scheduled_date t with
    | Some s =>
        if Py.truthy s && Py.str_gt s today then ScheduledFuture else Available
    | None => Available
    end.

(** Lexicographic composition of comparisons. *)
Definition lex (c k : comparison) : comparison :=
  match c with
  | Eq => k
  | _ => c
  end.

(** Dates that [isoformat] prints in ten characters. *)
Definition in_iso_range (dt : Z * Z * Z) : Prop :=
  let '(y, m, d) := dt in
  0 <= y < 10000 /\ 0 <= m < 100 /\ 0 <= d < 100.

(** ** [download_photo_with_retry]

    What an attempt does is the environment's: the download completes
    within the thirty seconds, [asyncio.wait_for] times out, or the
    download raises.  [outcome] gives it for each value of [attempt]. *)

Inductive attempt_outcome := Downloaded | TimedOut | Failed.

Inductive retry_event :=
| DownloadFile (attempt : Z)
| LogWarning (attempt : Z) (o : attempt_outcome)
| Sleep (seconds : Z).

(** The body of [for attempt in range(max_retries)] at [attempt], with
    [todo] values of the range still to come, this one included; after the
    last value the function falls through to its final [return False]. *)
Fixpoint retry_loop (outcome : Z -> attempt_outcome) (max_retries : Z)
    (todo : nat) (attempt : Z) : bool * list retry_event :=
  match todo with
  | O => (false, [])
  | S todo' =>
      match outcome attempt with
      | Downloaded => (true, [DownloadFile attempt])
      | o =>
          if attempt <? max_retries - 1 then
            let '(r, evs) :=
              retry_loop outcome max_retries todo' (attempt + 1) in
            (r, DownloadFile attempt :: LogWarning attempt o :: Sleep 2 :: evs)
          else (false, [DownloadFile attempt; LogWarning attempt o])
      end
  end.

(** [range(n)] yields [n] values from 0, none when [n <= 0]. *)
Definition download_photo_with_retry (outcome : Z -> attempt_outcome)
    (max_retries : Z) : bool * list retry_event :=
  retry_loop outcome max_retries (Z.to_nat max_retries) 0.

Definition DEFAULT_MAX_RETRIES : Z := 3.

Definition is_download (e : retry_event) : bool :=
  match e with
  | DownloadFile _ => true
  | _ => false
  end.





(** ** The users table *)

(** A row for one of the two configured accounts, with the admin flag that
    [get_user] and [main] give it. *)
Definition configured_user (admin_id girlfriend_id : Z) (u : User.t) : bool :=
  ((User.telegram_id u =? admin_id) || (User.telegram_id u =? girlfriend_id))
  && Bool.eqb (User.is_admin u) (User.telegram_id u =? admin_id).

(** The invariant of the users table. *)
Definition users_ok (admin_id girlfriend_id : Z) (d : DB) : Prop :=
  List.NoDup (map User.telegram_id (users d))
  /\ forallb (configured_user admin_id girlfriend_id) (users d) = true.

(** ** The files a task's and a quest's rows name *)

(** The photos of the task's submissions and the task's own image. *)
Definition task_artifacts (task_id : Z) (d : DB) : gset string :=
  ⋃ map (fun s => artifact (Submission.photo_url s))
      (submissions_of_task task_id d)
  ∪ match task_by_id task_id d with
    | Some t => artifact (Task.image_url t)
    | None => ∅
    end.

(** The files of the quest's tasks and the quest's own image. *)
Definition quest_artifacts (quest_id : Z) (d : DB) : gset string :=
  ⋃ map (fun t => task_artifacts (Task.id t) d) (tasks_of_quest quest_id d)
  ∪ match quest_by_id quest_id d with
    | Some q => artifact (Quest.image_url q)
    | None => ∅
    end.

(** A task added from the menu of a quest that has since been deleted,
    with an image and one report. *)
Definition stale_menu : list op :=
  [ Boot;
    CreateQuest ADMIN "Walks" "Evening walks" None "Cinema" 2 100;
    Callback ADMIN (ConfirmDeleteQuest 1) 110 TODAY;
    CreateTask 1 "Park" "Walk in the park" (Some "photos/task_t.jpg") 5 None;
    SubmitReport 1 "photos/submission_a.jpg" "done" 120 ].

Definition task_without_quest : world := run ADMIN GIRL stale_menu initial_world.

(** The task with pictures has been deleted while the participant had it
    open. *)
Definition after_task_deletion : world :=
  step ADMIN GIRL (Callback ADMIN (ConfirmDeleteTask 1) 140 TODAY)
    gallery_world.

(** ** Task numbering *)

(** The numbers [1 .. n]. *)
Definition numbered (n : nat) : list Z := map Z.of_nat (seq 1 n).

(** The tasks of every quest carry the orders 1, 2, ... in the order of
    their creation. *)
Definition orders_dense (d : DB) : Prop :=
  forall quest_id,
    map Task.order (tasks_of_quest quest_id d)
    = numbered (length (tasks_of_quest quest_id d)).

(** The admin's confirmed deletion of a task. *)
Definition deletes_task (admin_id : Z) (o : op) : bool :=
  match o with
  | Callback user_id (ConfirmDeleteTask _) _ _ => user_id =? admin_id
  | _ => false
  end.

(** Three tasks, the first two deleted, then a fourth one added. *)
Definition renumbering : list op :=
  [ Boot;
    CreateQuest ADMIN "Walks" "Evening walks" None "Cinema" 2 100;
    CreateTask 1 "Park" "Walk in the park" None 5 None;
    CreateTask 1 "River" "Walk along the river" None 5 None;
    CreateTask 1 "Hill" "Walk up the hill" None 5 None;
    Callback ADMIN (ConfirmDeleteTask 1) 110 TODAY;
    Callback ADMIN (ConfirmDeleteTask 2) 120 TODAY;
    CreateTask 1 "Lake" "Walk around the lake" None 5 None ].

(** The quest with pictures, with a second task that has no report yet. *)
Definition second_task : list op :=
  gallery ++ [CreateTask 1 "River" "Walk along the river" None 5 None].

Definition with_open_task : world := run ADMIN GIRL second_task initial_world.

(** ** [show_achievements] *)

(** [query(QuestCompletion).filter_by(user_id=...).count()] *)
Definition completed_quests (user_id : Z) (d : DB) : Z :=
  count
    (filter_by (fun c => QuestCompletion.user_id c =? user_id)
       (quest_completions d)).

(** The list of (title, description, earned). *)
Definition achievements (total_completed completed_quests : Z)
    : list (string * string * bool) :=
  [ ("🏆 Новичок", "Выполнить 1 задание", 1 <=? total_completed);
    ("⭐ Опытный", "Выполнить 10 заданий", 10 <=? total_completed);
    ("💪 Профи", "Выполнить 25 заданий", 25 <=? total_completed);
    ("👑 Легенда", "Выполнить 50 заданий", 50 <=? total_completed);
    ("🎯 Первый квест", "Завершить 1 квест", 1 <=? completed_quests);
    ("🌟 Мастер квестов", "Завершить 3 квеста", 3 <=? completed_quests) ].

Definition NL : string := String (ascii_of_nat 10) EmptyString.

(** The text of the message. *)
Definition achievements_text (l : list (string * string * bool)) : string :=
  fold_left
    (fun text a =>
       let '(title, desc, earned) := a in
       if earned : bool
       then (text ++ "✅ <b>" ++ title ++ "</b> - " ++ desc ++ NL)%string
       else (text ++ "⬜ <b>" ++ title ++ "</b> - " ++ desc ++ NL)%string)
    l ("🏆 <b>ТВОИ ДОСТИЖЕНИЯ</b>" ++ NL ++ NL)%string.

Section Views.

Variable GIRLFRIEND_ID : Z.

(** [show_achievements]: the list it computes; the message shows
    [achievements_text] of it. *)
Definition show_achievements : M (list (string * string * bool)) :=
  user <- query (user_by_telegram_id GIRLFRIEND_ID) ;;
  user <- getattr user ;;
  total_completed <- query (approved_total (User.id user)) ;;
  completed_quests <- query (completed_quests (User.id user)) ;;
  ret (achievements total_completed completed_quests).

End Views.

(** The same achievements in the same order, each one that was earned
    still earned. *)
Definition kept (l l' : list (string * string * bool)) : Prop :=
  Forall2 (fun a b => fst a = fst b /\ (snd a = true -> snd b = true)) l l'.

(** ** The progress bar on a range of counts *)

(** The bar of [completed] out of [total] has [10 * completed // total]
    full cells and is filled up to ten cells with light ones. *)
Definition bar_as_expected (completed total : Z) : bool :=
  match format_progress_bar completed total DEFAULT_LENGTH with
  | Some bar =>
      String.eqb bar
        (Py.str_mul FULL (10 * completed / total)
         ++ Py.str_mul LIGHT (10 - 10 * completed / total))%string
  | None => false
  end.

(** The numbers [0 .. n]. *)
Definition upto (n : nat) : list Z := map Z.of_nat (seq 0 (S n)).

(** Every pair [0 <= completed <= total], [1 <= total <= max_total]. *)
Definition bars_as_expected (max_total : nat) : bool :=
  forallb
    (fun t => (t =? 0) || forallb (fun c => bar_as_expected c t)
                            (upto (Z.to_nat t)))
    (upto max_total).

(** ** Python strings used by the keyboards and by [handle_callback] *)

Module PyStr.

(** [str(n)] and [f"{n}"] for an [int]: decimal, ["-"] for a negative
    number, no leading zero. *)
Definition str_of_int (n : Z) : string := NilZero.string_of_int (Z.to_int n).

(** [s.split(sep)] for a one-character separator: never empty, one part
    more than there are separators. *)
Fixpoint split (sep : ascii) (s : string) : list string :=
  match s with
  | EmptyString => [EmptyString]
  | String c rest =>
      match split sep rest with
      | part :: parts =>
          if Ascii.eqb c sep then EmptyString :: part :: parts
          else String c part :: parts
      | [] => [String c EmptyString]
      end
  end.

(** The ASCII characters [int()] strips: tab, line feed, vertical tab,
    form feed, carriage return, space. *)
Definition is_space (c : ascii) : bool :=
  let n := N_of_ascii c in (((9 <=? n) && (n <=? 13)) || (n =? 32))%N.

Fixpoint lstrip (s : string) : string :=
  match s with
  | String c rest => if is_space c then lstrip rest else s
  | EmptyString => EmptyString
  end.

Fixpoint rev_onto (s acc : string) : string :=
  match s with
  | String c rest => rev_onto rest (String c acc)
  | EmptyString => acc
  end.

Definition reverse (s : string) : string := rev_onto s EmptyString.

Definition strip (s : string) : string := reverse (lstrip (reverse (lstrip s))).

(** [int(s)] in base 10, [None] for [ValueError]: surrounding whitespace,
    an optional sign, then decimal digits, single underscores allowed
    between digits.  The model reads ASCII: Python also accepts the
    decimal digits and the spaces of other scripts. *)
Definition int_of_str (s : string) : option Z :=
  let t := strip s in
  let '(negative, body) :=
    match t with
    | String c rest =>
        if Ascii.eqb c "-" then (true, rest)
        else if Ascii.eqb c "+" then (false, rest)
        else (false, t)
    | EmptyString => (false, t)
    end in
  let groups := split "_" body in
  if forallb (fun g => negb (String.eqb g "")) groups then
    match NilEmpty.uint_of_string (String.concat "" groups) with
    | Some d => Some (if negative then - Z.of_uint d else Z.of_uint d)
    | None => None
    end
  else None.

(** [s[:n]]: the first [n] characters of a UTF-8 string. *)
Fixpoint take (n : nat) (s : string) : string :=
  match s with
  | EmptyString => EmptyString
  | String c rest =>
      if Py.is_continuation c then String c (take n rest)
      else
        match n with
        | O => EmptyString
        | S n' => String c (take n' rest)
        end
  end.

End PyStr.
(** ** Character classes *)

Fixpoint all_chars (p : ascii -> bool) (s : string) : bool :=
  match s with
  | EmptyString => true
  | String c rest => p c && all_chars p rest
  end.

Definition is_digit (c : ascii) : bool :=
  match digit c with
  | Some _ => true
  | None => false
  end.

(** [data] is none of the [literals] that [data == ...] tests for. *)
Definition differs_from (literals : list string) (data : string) : bool :=
  negb (existsb (String.eqb data) literals).
(** ** Keyboards ([src/keyboards.py], imported as [nav])

    A keyboard is the list of its buttons in the order the builder
    received them, with the row sizes given to [adjust] (none when the
    function does not call it). *)

Module nav.

Record button := mkButton {
  text : string;
  callback_data : string }.

Record markup := mkMarkup {
  buttons : list button;
  adjust : list Z }.

(** The dictionaries [quest_management_menu] and [task_management_menu]
    are given. *)
Record quest_entry := mkQuestEntry {
  quest_id : Z;
  quest_title : string;
  quest_tasks : Z }.

Record task_entry := mkTaskEntry {
  task_id : Z;
  task_title : string;
  task_completed : bool }.

Definition admin_main_menu : markup :=
  mkMarkup
    [ mkButton "📊 Статистика девушки" "girl_stats";
      mkButton "📋 Управление квестами" "manage_quests";
      mkButton "➕ Создать квест" "create_quest";
      mkButton "🏠 Главное меню" "main_menu" ]
    [1].

Definition girlfriend_main_menu : markup :=
  mkMarkup
    [ mkButton "🎯 Текущий квест" "current_quest";
      mkButton "📊 Моя статистика" "my_stats";
      mkButton "🏆 Достижения" "achievements";
      mkButton "🏠 Главное меню" "main_menu" ]
    [1].

Definition back_button (callback_data : string) : markup :=
  mkMarkup [mkButton "◀️ Назад" callback_data] [].

Definition cancel_button : markup :=
  mkMarkup [mkButton "❌ Отмена" "cancel_action"] [].

Definition quest_management_menu (quests : list quest_entry) : markup :=
  mkMarkup
    (map (fun quest =>
            mkButton
              ("📌 " ++ quest_title quest ++ " ("
               ++ PyStr.str_of_int (quest_tasks quest) ++ " заданий)")
              ("manage_quest_" ++ PyStr.str_of_int (quest_id quest)))
       quests
     ++ [ mkButton "➕ Создать новый квест" "create_quest";
          mkButton "◀️ Назад" "main_menu" ])
    [1].

Definition quest_actions_menu (quest_id : Z) : markup :=
  mkMarkup
    [ mkButton "📋 Управление заданиями"
        ("manage_quest_tasks_" ++ PyStr.str_of_int quest_id);
      mkButton "❌ Удалить квест" ("delete_quest_" ++ PyStr.str_of_int quest_id);
      mkButton "◀️ Назад" "manage_quests" ]
    [1].

Definition task_management_menu (tasks : list task_entry) (quest_id : Z)
    : markup :=
  mkMarkup
    (map (fun task =>
            let status := if task_completed task then "✅" else "📝" in
            mkButton (status ++ " " ++ PyStr.take 15 (task_title task))
              ("edit_task_" ++ PyStr.str_of_int (task_id task)))
       tasks
     ++ [ mkButton "➕ Добавить задание"
            ("add_task_" ++ PyStr.str_of_int quest_id);
          mkButton "◀️ Назад" ("quest_actions_" ++ PyStr.str_of_int quest_id) ])
    [1].

Definition task_edit_menu (task_id : Z) : markup :=
  mkMarkup
    [ mkButton "📝 Название" ("edit_title_" ++ PyStr.str_of_int task_id);
      mkButton "📄 Описание" ("edit_desc_" ++ PyStr.str_of_int task_id);
      mkButton "💰 Очки" ("edit_points_" ++ PyStr.str_of_int task_id);
      mkButton "📅 Дату" ("edit_date_" ++ PyStr.str_of_int task_id);
      mkButton "❌ Удалить задание" ("delete_task_" ++ PyStr.str_of_int task_id);
      mkButton "◀️ Назад" ("back_to_tasks_" ++ PyStr.str_of_int task_id) ]
    [2; 2; 1; 1].

Definition approve_reject_buttons (submission_id : Z) : markup :=
  mkMarkup
    [ mkButton "✅ Подтвердить" ("approve_" ++ PyStr.str_of_int submission_id);
      mkButton "❌ Отклонить" ("reject_" ++ PyStr.str_of_int submission_id) ]
    [2].

Definition confirm_delete_quest (quest_id : Z) : markup :=
  mkMarkup
    [ mkButton "✅ Да, удалить"
        ("confirm_delete_quest_" ++ PyStr.str_of_int quest_id);
      mkButton "❌ Нет, отмена" ("quest_actions_" ++ PyStr.str_of_int quest_id) ]
    [1].

Definition confirm_delete_task (task_id : Z) : markup :=
  mkMarkup
    [ mkButton "✅ Да, удалить"
        ("confirm_delete_task_" ++ PyStr.str_of_int task_id);
      mkButton "❌ Нет, отмена" ("edit_task_" ++ PyStr.str_of_int task_id) ]
    [1].

End nav.

(** The keyboards built in [bot.py] itself. *)

(** Under the statistics of the admin ([girl_stats], [refresh_stats]). *)
Definition girl_stats_keyboard : nav.markup :=
  nav.mkMarkup
    [ nav.mkButton "🔄 Обновить" "refresh_stats";
      nav.mkButton "◀️ Назад" "main_menu" ]
    [1].

(** Under [show_my_stats] and [show_achievements]. *)
Definition my_stats_keyboard : nav.markup :=
  nav.mkMarkup
    [ nav.mkButton "🔄 Обновить" "my_stats";
      nav.mkButton "◀️ Назад" "main_menu" ]
    [1].

Definition achievements_keyboard : nav.markup :=
  nav.mkMarkup
    [ nav.mkButton "🔄 Обновить" "achievements";
      nav.mkButton "◀️ Назад" "main_menu" ]
    [1].

(** Under [show_current_quest]: one [do_<id>] button per available task,
    in the order of the view. *)
Definition current_quest_keyboard (v : quest_view) : nav.markup :=
  nav.mkMarkup
    (map (fun l =>
            nav.mkButton ("📋 " ++ PyStr.take 15 (Task.title (fst l)))
              ("do_" ++ PyStr.str_of_int (Task.id (fst l))))
       (filter_by (fun l => is_available (snd l)) (view_lines v))
     ++ [ nav.mkButton "🔄 Обновить" "current_quest";
          nav.mkButton "🏠 В меню" "main_menu" ])
    [1].

(** ** The branches of [handle_callback]

    One constructor per branch of the handler, in the order of the source;
    [BadId] is the [except ValueError] of a branch whose number does not
    parse, [Unhandled] the end of the chain. *)

Module Route.

Inductive field := Title | Description | Points | Date.

Inductive t :=
| CancelAction
| MainMenu
| GirlStats
| ManageQuests
| ManageQuest (quest_id : Z)
| ManageQuestTasks (quest_id : Z)
| DeleteQuest (quest_id : Z)
| ConfirmDeleteQuest (quest_id : Z)
| EditTask (task_id : Z)
| EditField (f : field) (task_id : Z)
| DeleteTask (task_id : Z)
| ConfirmDeleteTask (task_id : Z)
| BackToTasks (task_id : Z)
| AddTask (quest_id : Z)
| CreateQuest
| Approve (sub_id : Z)
| Reject (sub_id : Z)
| QuestActions (quest_id : Z)
| CurrentQuest
| MyStats
| Achievements
| Do (task_id : Z)
| BadId (part : string)
| Unhandled.


End Route.

(** [len(parts) == len(prefix) + 1 and parts[0] == prefix[0] and ...]:
    the last part when the condition holds. *)
Fixpoint parts_after (prefix parts : list string) : option string :=
  match prefix, parts with
  | [], [last] => Some last
  | p :: prefix', x :: parts' =>
      if String.eqb x p then parts_after prefix' parts' else None
  | _, _ => None
  end.

(** [try: n = int(part); ... except ValueError: logger.error(...)] *)
Definition with_id (part : string) (branch : Z -> Route.t) : Route.t :=
  match PyStr.int_of_str part with
  | Some n => branch n
  | None => Route.BadId part
  end.

(** A chain of [elif len(parts) == ... and parts[0] == ...] tests: the
    first prefix that matches decides. *)
Fixpoint first_match (parts : list string)
    (branches : list (list string * (Z -> Route.t))) (otherwise : Route.t)
    : Route.t :=
  match branches with
  | [] => otherwise
  | (prefix, branch) :: rest =>
      match parts_after prefix parts with
      | Some part => with_id part branch
      | None => first_match parts rest otherwise
      end
  end.

(** The tests on [parts] of the admin panel, in the order of the source:
    those before the test of [create_quest], and those after it. *)
Definition admin_branches : list (list string * (Z -> Route.t)) :=
  [ (["manage"; "quest"], Route.ManageQuest);
    (["manage"; "quest"; "tasks"], Route.ManageQuestTasks);
    (["delete"; "quest"], Route.DeleteQuest);
    (["confirm"; "delete"; "quest"], Route.ConfirmDeleteQuest);
    (["edit"; "task"], Route.EditTask);
    (["edit"; "title"], Route.EditField Route.Title);
    (["edit"; "desc"], Route.EditField Route.Description);
    (["edit"; "points"], Route.EditField Route.Points);
    (["edit"; "date"], Route.EditField Route.Date);
    (["delete"; "task"], Route.DeleteTask);
    (["confirm"; "delete"; "task"], Route.ConfirmDeleteTask);
    (["back"; "to"; "tasks"], Route.BackToTasks);
    (["add"; "task"], Route.AddTask) ].

Definition late_admin_branches : list (list string * (Z -> Route.t)) :=
  [ (["approve"], Route.Approve);
    (["reject"], Route.Reject);
    (["quest"; "actions"], Route.QuestActions) ].

(** The one test on [parts] of the girlfriend panel. *)
Definition girlfriend_branches : list (list string * (Z -> Route.t)) :=
  [ (["do"], Route.Do) ].

Section Routing.

Variables ADMIN_ID GIRLFRIEND_ID : Z.

(** The branch [handle_callback] takes for [callback.data] sent by
    [user_id]. *)
Definition route (user_id : Z) (data : string) : Route.t :=
  if String.eqb data "cancel_action" then Route.CancelAction
  else if String.eqb data "main_menu" then Route.MainMenu
  else
    let parts := PyStr.split "_" data in
    if user_id =? ADMIN_ID then
      if String.eqb data "girl_stats" || String.eqb data "refresh_stats"
      then Route.GirlStats
      else if String.eqb data "manage_quests" then Route.ManageQuests
      else
        first_match parts admin_branches
          (if String.eqb data "create_quest" then Route.CreateQuest
           else first_match parts late_admin_branches Route.Unhandled)
    else if user_id =? GIRLFRIEND_ID then
      if String.eqb data "current_quest" then Route.CurrentQuest
      else if String.eqb data "my_stats" then Route.MyStats
      else if String.eqb data "achievements" then Route.Achievements
      else first_match parts girlfriend_branches Route.Unhandled
    else Route.Unhandled.


End Routing.

(** ** Statistics ([show_my_stats], [girl_stats])

    Clock readings count microseconds; [DAY] is [timedelta(days=1)].
    A day of the activity table is given by the reading of its midnight,
    [datetime(day.year, day.month, day.day)]. *)

Definition DAY : Z := 86400000000.

(** [Submission.approved_at >= start, Submission.approved_at < finish]; a
    NULL timestamp satisfies neither. *)
Definition approved_within (start finish : Z) (s : Submission.t) : bool :=
  match Submission.approved_at s with
  | Some t => (start <=? t) && (t <? finish)
  | None => false
  end.

(** The count of one day of the activity table. *)
Definition day_count (user_id day_start : Z) (d : DB) : Z :=
  count
    (filter_by
       (fun s => (Submission.user_id s =? user_id) && Submission.is_approved s
                 && approved_within day_start (day_start + DAY) s)
       (submissions d)).

(** [last_7_days], in the order of the loop: today first.  Each entry is
    the midnight of the day and its count. *)
Definition last_7_days (user_id today_start : Z) (d : DB) : list (Z * Z) :=
  map (fun i =>
         let day_start := today_start - i * DAY in
         (day_start, day_count user_id day_start d))
    [0; 1; 2; 3; 4; 5; 6].

(** [bar = "█" * count + "░" * (5 - count)] *)
Definition activity_bar (n : Z) : string :=
  (Py.str_mul FULL n ++ Py.str_mul LIGHT (5 - n))%string.

(** [query(Submission).filter_by(user_id=..., is_approved=False).count()] *)
Definition pending_total (user_id : Z) (d : DB) : Z :=
  count
    (filter_by
       (fun s => (Submission.user_id s =? user_id)
                 && negb (Submission.is_approved s))
       (submissions d)).

(** One line of the progress by quest. *)
Inductive quest_line :=
| QuestDone (title reward : string)
| QuestBar (title bar : string) (completed required : Z).

(** [for s in submissions: total_points += s.task.points] *)
Fixpoint sum_points (subs : list Submission.t) (total_points : Z) : M Z :=
  match subs with
  | [] => ret total_points
  | s :: rest =>
      task <- query (task_by_id (Submission.task_id s)) ;;
      task <- getattr task ;;
      sum_points rest (total_points + Task.points task)
  end.

(** The loop over the active quests: the per-quest count, the completion
    row, the line. *)
Fixpoint quest_lines (user_id : Z) (quests : list Quest.t)
    : M (list quest_line) :=
  match quests with
  | [] => ret []
  | quest :: rest =>
      completed <- query (quest_progress (Quest.id quest) user_id) ;;
      done <-
        query (fun d =>
          first (filter_by (completion_for (Quest.id quest) user_id)
                   (quest_completions d))) ;;
      line <-
        match done with
        | Some _ => ret (QuestDone (Quest.title quest) (Quest.reward quest))
        | None =>
            match format_progress_bar completed
                    (Quest.required_completions quest) DEFAULT_LENGTH with
            | Some bar =>
                ret (QuestBar (Quest.title quest) bar completed
                       (Quest.required_completions quest))
            | None => raise ArithmeticError
            end
        end ;;
      lines <- quest_lines user_id rest ;;
      ret (line :: lines)
  end.

(** What the participant's statistics show.  The activity table is in the
    order of the text, oldest day first, each day with its bar. *)
Record my_stats := mkMyStats {
  my_total_completed : Z;
  my_total_points : Z;
  my_total_pending : Z;
  my_activity : list (Z * string * Z);
  my_quests : list quest_line }.

(** What the admin's statistics show. *)
Record girl_stats := mkGirlStats {
  girl_username : option string;
  girl_activity : list (Z * string * Z);
  girl_total_completed : Z;
  girl_quests : list quest_line }.

Definition activity_table (days : list (Z * Z)) : list (Z * string * Z) :=
  map (fun e => (fst e, activity_bar (snd e), snd e)) (rev days).

Section Statistics.

Variable GIRLFRIEND_ID : Z.

(** [show_my_stats]; [today_start] is the midnight of [date.today()]. *)
Definition show_my_stats (today_start : Z) : M my_stats :=
  user <- query (user_by_telegram_id GIRLFRIEND_ID) ;;
  quests <- query (fun d => filter_by Quest.is_active (quests d)) ;;
  user <- getattr user ;;
  total_completed <- query (approved_total (User.id user)) ;;
  total_pending <- query (pending_total (User.id user)) ;;
  subs <-
    query (fun d =>
      filter_by (fun s => (Submission.user_id s =? User.id user)
                          && Submission.is_approved s)
        (submissions d)) ;;
  total_points <- sum_points subs 0 ;;
  days <- query (last_7_days (User.id user) today_start) ;;
  lines <- quest_lines (User.id user) quests ;;
  ret (mkMyStats total_completed total_points total_pending
         (activity_table days) lines).

(** The [girl_stats] and [refresh_stats] branch of the admin panel: [None]
    when the girlfriend has no user row. *)
Definition show_girl_stats (today_start : Z) : M (option girl_stats) :=
  girlfriend <- query (user_by_telegram_id GIRLFRIEND_ID) ;;
  match girlfriend with
  | None => ret None
  | Some girlfriend =>
      quests <- query (fun d => filter_by Quest.is_active (quests d)) ;;
      subs <-
        query (fun d =>
          filter_by (fun s => (Submission.user_id s =? User.id girlfriend)
                              && Submission.is_approved s)
            (submissions d)) ;;
      days <- query (last_7_days (User.id girlfriend) today_start) ;;
      lines <- quest_lines (User.id girlfriend) quests ;;
      ret (Some (mkGirlStats (User.username girlfriend) (activity_table days)
                   (count subs) lines))
  end.

End Statistics.

(** The approved submissions of a user with a timestamp in a range. *)
Definition approved_between (user_id start finish : Z) (d : DB) : Z :=
  count
    (filter_by
       (fun s => (Submission.user_id s =? user_id) && Submission.is_approved s
                 && approved_within start finish s)
       (submissions d)).

(** The sum of a list of counts. *)
Definition total (counts : list Z) : Z := fold_right Z.add 0 counts.

(** The truth value as a count. *)
Definition ind (b : bool) : Z := if b then 1 else 0.

(** ** The dialogues ([StatesGroup]s, [FSMContext], the message handlers)

    aiogram keeps one context per account: the state of the dialogue and
    the dictionary of the answers given so far.  A handler receives the
    context of the sender of its update ([state: FSMContext]) and reaches
    no other.  The bot is taken to be used in private chats, where the
    chat and the account coincide. *)

Module Fsm.

Inductive state :=
| QuestCreation_title
| QuestCreation_description
| QuestCreation_image
| QuestCreation_reward
| QuestCreation_required
| TaskCreation_quest_id
| TaskCreation_title
| TaskCreation_description
| TaskCreation_image
| TaskCreation_points
| TaskCreation_date
| TaskEdit_task_id
| TaskEdit_field
| TaskEdit_value
| SubmissionStates_waiting_for_photo
| SubmissionStates_waiting_for_comment
| SubmissionStates_task_id
| SubmissionStates_photo_path.

Definition index (s : state) : Z :=
  match s with
  | QuestCreation_title => 0
  | QuestCreation_description => 1
  | QuestCreation_image => 2
  | QuestCreation_reward => 3
  | QuestCreation_required => 4
  | TaskCreation_quest_id => 5
  | TaskCreation_title => 6
  | TaskCreation_description => 7
  | TaskCreation_image => 8
  | TaskCreation_points => 9
  | TaskCreation_date => 10
  | TaskEdit_task_id => 11
  | TaskEdit_field => 12
  | TaskEdit_value => 13
  | SubmissionStates_waiting_for_photo => 14
  | SubmissionStates_waiting_for_comment => 15
  | SubmissionStates_task_id => 16
  | SubmissionStates_photo_path => 17
  end.

Definition eqb (a b : state) : bool := index a =? index b.

(** The dictionary of a context, key by key: [None] for a key that is not
    in it.  [title], [description] and [reward] hold [message.text], which
    is [None] for a message without text; [image] holds the path of the
    downloaded picture or [None]; [field] holds one of the four literals
    of the edit branches. *)
Record data := mkData {
  task_id : option Z;
  photo_path : option string;
  quest_id : option Z;
  title : option (option string);
  description : option (option string);
  image : option (option string);
  reward : option (option string);
  points : option Z;
  field : option Route.field }.

Definition empty : data :=
  mkData None None None None None None None None None.

Definition set_task_id (v : Z) (d : data) : data :=
  mkData (Some v) (photo_path d) (quest_id d) (title d) (description d)
    (image d) (reward d) (points d) (field d).

Definition set_photo_path (v : string) (d : data) : data :=
  mkData (task_id d) (Some v) (quest_id d) (title d) (description d)
    (image d) (reward d) (points d) (field d).

Definition set_quest_id (v : Z) (d : data) : data :=
  mkData (task_id d) (photo_path d) (Some v) (title d) (description d)
    (image d) (reward d) (points d) (field d).

Definition set_title (v : option string) (d : data) : data :=
  mkData (task_id d) (photo_path d) (quest_id d) (Some v) (description d)
    (image d) (reward d) (points d) (field d).

Definition set_description (v : option string) (d : data) : data :=
  mkData (task_id d) (photo_path d) (quest_id d) (title d) (Some v)
    (image d) (reward d) (points d) (field d).

Definition set_image (v : option string) (d : data) : data :=
  mkData (task_id d) (photo_path d) (quest_id d) (title d) (description d)
    (Some v) (reward d) (points d) (field d).

Definition set_reward (v : option string) (d : data) : data :=
  mkData (task_id d) (photo_path d) (quest_id d) (title d) (description d)
    (image d) (Some v) (points d) (field d).

Definition set_points (v : Z) (d : data) : data :=
  mkData (task_id d) (photo_path d) (quest_id d) (title d) (description d)
    (image d) (reward d) (Some v) (field d).

Definition set_field (v : Route.field) (d : data) : data :=
  mkData (task_id d) (photo_path d) (quest_id d) (title d) (description d)
    (image d) (reward d) (points d) (Some v).

Record context := mkContext {
  current : option state;
  bag : data }.

(** The context of an account the bot has not talked to, and the context
    after [state.clear()]. *)
Definition fresh : context := mkContext None empty.

End Fsm.

Module Bot.

(** What a handler shows in the chat, where the handler model above has no
    message for it: the text by its kind, and the keyboard under it. *)
Inductive screen_text :=
| NoAccess
| Welcome
| MainMenuText
| ActionCancelled
| GirlNotFound
| GirlStatsText (s : girl_stats)
| ManageQuestsText
| QuestActionsText (quest_title : string)
| QuestTasksText (quest_title : string)
| ConfirmQuestDeletion
| TaskCard (t : Task.t)
| AskNewValue (f : Route.field)
| ConfirmTaskDeletion
| AskTaskTitle
| AskQuestTitle
| MyStatsText (s : my_stats)
| AchievementsText (text : string)
| Loading
| DownloadFailed
| AskComment
| PhotoFirst
| CommentFirst
| AskQuestDescription
| AskQuestImage
| QuestImageFailed
| AskQuestReward
| AskQuestRequired
| EnterNumber
| AskTaskDescription
| AskTaskImage
| TaskImageFailed
| AskTaskPoints
| AskTaskDate.

Record screen := mkScreen {
  chat : Z;
  body : screen_text;
  reply_markup : option nav.markup }.

(** What a handler run works on: the world of the handler model, the
    context of the sender, the screens shown so far. *)
Record local := mkLocal {
  outside : world;
  state : Fsm.context;
  shown : list screen }.

(** What ends a handler run early.  [NullColumn] marks a run that would
    store NULL in a column for which the tables above keep a value (the
    title of a quest after a photo was sent as its title): such runs are
    outside the model. *)
Inductive failure :=
| Exn (e : exn)
| KeyError (key : string)
| TypeError
| NullColumn.

Inductive outcome (A : Type) :=
| Return (a : A)
| Fail (f : failure).
Arguments Return {A} a.
Arguments Fail {A} f.

Definition H (A : Type) : Type := local -> outcome A * local.

Definition retH {A : Type} (a : A) : H A := fun l => (Return a, l).

Definition bindH {A B : Type} (m : H A) (k : A -> H B) : H B :=
  fun l =>
    match m l with
    | (Return a, l') => k a l'
    | (Fail f, l') => (Fail f, l')
    end.

Definition failH {A : Type} (f : failure) : H A := fun l => (Fail f, l).

Declare Scope dialogue_scope.
Delimit Scope dialogue_scope with H.
Notation "x <- m ;; k" := (bindH m (fun x => k))
  (at level 20, m at level 99, k at level 200, only parsing) : dialogue_scope.
Notation "m ;; k" := (bindH m (fun _ => k))
  (at level 100, k at level 200, right associativity) : dialogue_scope.
Local Open Scope dialogue_scope.

(** A step of the handler model, run on the world. *)
Definition lift {A : Type} (m : M A) : H A :=
  fun l =>
    match m (outside l) with
    | (Ok a, w) => (Return a, mkLocal w (state l) (shown l))
    | (Raise e, w) => (Fail (Exn e), mkLocal w (state l) (shown l))
    end.

(** [await state.get_data()] *)
Definition get_data : H Fsm.data := fun l => (Return (Fsm.bag (state l)), l).

(** [await state.update_data(key=value)] *)
Definition update_data (f : Fsm.data -> Fsm.data) : H unit :=
  fun l =>
    (Return tt,
     mkLocal (outside l)
       (Fsm.mkContext (Fsm.current (state l)) (f (Fsm.bag (state l))))
       (shown l)).

(** [await state.set_state(s)] *)
Definition set_state (s : Fsm.state) : H unit :=
  fun l =>
    (Return tt,
     mkLocal (outside l) (Fsm.mkContext (Some s) (Fsm.bag (state l)))
       (shown l)).

(** [await state.clear()]: no state, no data. *)
Definition clear : H unit :=
  fun l => (Return tt, mkLocal (outside l) Fsm.fresh (shown l)).

(** [message.answer] and [safe_edit_message]: the text and the keyboard
    end up in the chat of the sender. *)
Definition answer (chat : Z) (text : screen_text)
    (reply_markup : option nav.markup) : H unit :=
  fun l =>
    (Return tt,
     mkLocal (outside l) (state l)
       (shown l ++ [mkScreen chat text reply_markup])).

(** [data[key]] *)
Definition item {A : Type} (key : string) (v : option A) : H A :=
  match v with
  | Some a => retH a
  | None => failH (KeyError key)
  end.

(** A value for a column that holds no NULL here. *)
Definition not_null {A : Type} (v : option A) : H A :=
  match v with
  | Some a => retH a
  | None => failH NullColumn
  end.

(** [try: m except Exception: h] *)
Definition except_Exception (m : H unit) (h : H unit) : H unit :=
  fun l =>
    match m l with
    | (Fail NullColumn, l') => (Fail NullColumn, l')
    | (Fail _, l') => h l'
    | r => r
    end.

(** [try: m finally: f] *)
Definition finally (m : H unit) (f : H unit) : H unit :=
  fun l =>
    match m l with
    | (Return _, l') => f l'
    | (Fail e, l') =>
        match f l' with
        | (Return _, l'') => (Fail e, l'')
        | r => r
        end
    end.

(** ** Updates *)

(** What the filters [CommandStart()], [Command("menu")] and
    [Command("cancel")] of aiogram find in a message. *)
Inductive command := CmdStart | CmdMenu | CmdCancel.

Inductive content :=
| Text (text : string)
| Photo (caption : option string)
| Other.

(** [types.Message] *)
Record Message := mkMessage {
  from_user : Z;
  command_of : option command;
  content_of : content }.

Definition text (m : Message) : option string :=
  match content_of m with
  | Text s => Some s
  | _ => None
  end.

Definition caption (m : Message) : option string :=
  match content_of m with
  | Photo c => c
  | _ => None
  end.

(** [F.photo] and [if message.photo] *)
Definition photo (m : Message) : bool :=
  match content_of m with
  | Photo _ => true
  | _ => false
  end.

(** [F.text] *)
Definition F_text (m : Message) : bool :=
  match text m with
  | Some s => Py.truthy s
  | None => false
  end.

Inductive update :=
| OnMessage (m : Message)
| OnCallback (from_user : Z) (data : string).

Definition sender (u : update) : Z :=
  match u with
  | OnMessage m => from_user m
  | OnCallback user_id _ => user_id
  end.

(** What a handler run takes from outside: the clock ([now], [today] as
    [date.today().isoformat()], [today_start] as the midnight of today),
    the [uuid4()] it draws, what each download attempt does, whether a
    download that fails leaves a file behind, and what [int()] makes of a
    text with characters outside ASCII. *)
Record env := mkEnv {
  now : Z;
  today : string;
  today_start : Z;
  uuid : string;
  attempt : Z -> attempt_outcome;
  leaves_file : bool;
  int_beyond_ascii : string -> option Z }.

Definition is_ascii (c : ascii) : bool := (N_of_ascii c <? 128)%N.

(** [int(s)] for a [str]: [None] for [ValueError]. *)
Definition int (e : env) (s : string) : option Z :=
  if all_chars is_ascii s then PyStr.int_of_str s else int_beyond_ascii e s.

(** The strings [s] with [s.lower() == 'нет']: each letter in either
    case. *)
Definition NET : list string :=
  [ "нет"; "неТ"; "нЕт"; "нЕТ"; "Нет"; "НеТ"; "НЕт"; "НЕТ" ].

Definition lower_is_net (s : string) : bool := existsb (String.eqb s) NET.

(** [not task_id] for [data.get('task_id')] *)
Definition no_id (v : option Z) : bool :=
  match v with
  | Some n => n =? 0
  | None => true
  end.

(** [not photo_path] for [data.get('photo_path')] *)
Definition no_path (v : option string) : bool :=
  match v with
  | Some p => negb (Py.truthy p)
  | None => true
  end.

(** [data.get('image')] *)
Definition get_image (d : Fsm.data) : option string :=
  match Fsm.image d with
  | Some v => v
  | None => None
  end.

(** The lists that the task menu and the quest menu are built from. *)
Definition task_list (tasks : list Task.t) (d : DB) : list nav.task_entry :=
  map (fun t =>
         nav.mkTaskEntry (Task.id t) (Task.title t)
           (match first (filter_by
                           (fun s => (Submission.task_id s =? Task.id t)
                                     && Submission.is_approved s)
                           (submissions d)) with
            | Some _ => true
            | None => false
            end))
    tasks.

Definition quest_list (d : DB) : list nav.quest_entry :=
  map (fun q =>
         nav.mkQuestEntry (Quest.id q) (Quest.title q)
           (count (tasks_of_quest (Quest.id q) d)))
    (filter_by Quest.is_active (quests d)).

(** The list of the tasks of a quest, as [manage_quest_tasks_<id>] and
    [back_to_tasks_<id>] show it. *)
Definition quest_tasks_screen (quest_id : Z)
    : M (screen_text * nav.markup) :=
  (tasks <- query (fun d => order_by_order (tasks_of_quest quest_id d)) ;;
   quest <- query (quest_by_id quest_id) ;;
   entries <- query (task_list tasks) ;;
   quest <- getattr quest ;;
   ret (QuestTasksText (Quest.title quest),
        nav.task_management_menu entries quest_id))%M.

Section Handlers.

Variables ADMIN_ID GIRLFRIEND_ID : Z.

(** [nav.admin_main_menu() if user_id == ADMIN_ID else
    nav.girlfriend_main_menu()] *)
Definition main_menu (user_id : Z) : nav.markup :=
  if user_id =? ADMIN_ID then nav.admin_main_menu
  else nav.girlfriend_main_menu.

(** [cmd_start] *)
Definition cmd_start (m : Message) : H unit :=
  let user_id := from_user m in
  if negb ((user_id =? ADMIN_ID) || (user_id =? GIRLFRIEND_ID)) then
    answer user_id NoAccess None
  else
    _ <- lift (get_user ADMIN_ID user_id) ;;
    answer user_id Welcome (Some (main_menu user_id)).

(** [cmd_menu], for [/menu] and [/cancel] *)
Definition cmd_menu (m : Message) : H unit :=
  clear ;;
  answer (from_user m) MainMenuText (Some (main_menu (from_user m))).

(** The download of a photo to [dest]: the file is there after a
    successful attempt, and may be there after a failed one. *)
Definition download (e : env) (dest : string) : H bool :=
  let success :=
    fst (download_photo_with_retry (attempt e) DEFAULT_MAX_RETRIES) in
  (if success || leaves_file e then lift (download_photo dest)
   else retH tt) ;;
  retH success.

(** [process_complete_submission] *)
Definition process_complete_submission (e : env) (m : Message)
    (photo_path : string) (comment : option string) : H unit :=
  data <- get_data ;;
  finally
    (task_id <- not_null (Fsm.task_id data) ;;
     comment <- not_null comment ;;
     lift (process_complete_submission GIRLFRIEND_ID task_id photo_path
             comment (now e)))
    clear.

(** [handle_photo] *)
Definition handle_photo (e : env) (m : Message) : H unit :=
  data <- get_data ;;
  if no_id (Fsm.task_id data) then clear
  else
    answer (from_user m) Loading None ;;
    let dest := ("photos/submission_" ++ uuid e ++ ".jpg")%string in
    success <- download e dest ;;
    if negb success then
      answer (from_user m) DownloadFailed (Some nav.cancel_button)
    else
      update_data (Fsm.set_photo_path dest) ;;
      match caption m with
      | Some c =>
          if Py.truthy c then process_complete_submission e m dest (Some c)
          else
            answer (from_user m) AskComment (Some nav.cancel_button) ;;
            set_state Fsm.SubmissionStates_waiting_for_comment
      | None =>
          answer (from_user m) AskComment (Some nav.cancel_button) ;;
          set_state Fsm.SubmissionStates_waiting_for_comment
      end.

(** [handle_comment] *)
Definition handle_comment (e : env) (m : Message) : H unit :=
  data <- get_data ;;
  if no_id (Fsm.task_id data) || no_path (Fsm.photo_path data) then clear
  else
    match Fsm.photo_path data with
    | Some photo_path => process_complete_submission e m photo_path (text m)
    | None => clear
    end.

(** [handle_unexpected_text] *)
Definition handle_unexpected_text (m : Message) : H unit :=
  answer (from_user m) PhotoFirst (Some nav.cancel_button).

(** [handle_unexpected_photo] *)
Definition handle_unexpected_photo (m : Message) : H unit :=
  answer (from_user m) CommentFirst (Some nav.cancel_button).

(** [quest_title] *)
Definition quest_title (m : Message) : H unit :=
  update_data (Fsm.set_title (text m)) ;;
  answer (from_user m) AskQuestDescription (Some nav.cancel_button) ;;
  set_state Fsm.QuestCreation_description.

(** [quest_description] *)
Definition quest_description (m : Message) : H unit :=
  update_data (Fsm.set_description (text m)) ;;
  answer (from_user m) AskQuestImage (Some nav.cancel_button) ;;
  set_state Fsm.QuestCreation_image.

(** The picture of a quest or of a task: [kind] is ["quest"] or ["task"].
    [optimize_image] rewrites the file in place and swallows its errors. *)
Definition receive_image (e : env) (m : Message) (kind : string)
    (failed : screen_text) : H unit :=
  if photo m then
    let dest := ("photos/" ++ kind ++ "_" ++ uuid e ++ ".jpg")%string in
    success <- download e dest ;;
    if success then update_data (Fsm.set_image (Some dest))
    else
      update_data (Fsm.set_image None) ;;
      answer (from_user m) failed None
  else update_data (Fsm.set_image None).

(** [quest_image] *)
Definition quest_image (e : env) (m : Message) : H unit :=
  receive_image e m "quest" QuestImageFailed ;;
  answer (from_user m) AskQuestReward (Some nav.cancel_button) ;;
  set_state Fsm.QuestCreation_reward.

(** [quest_reward] *)
Definition quest_reward (m : Message) : H unit :=
  update_data (Fsm.set_reward (text m)) ;;
  answer (from_user m) AskQuestRequired (Some nav.cancel_button) ;;
  set_state Fsm.QuestCreation_required.

(** [quest_required]: [int(None)] is a [TypeError], which the handler does
    not catch. *)
Definition quest_required (e : env) (m : Message) : H unit :=
  match text m with
  | None => failH TypeError
  | Some s =>
      match int e s with
      | None => answer (from_user m) EnterNumber None
      | Some required =>
          data <- get_data ;;
          user <- lift (query (user_by_telegram_id (from_user m))) ;;
          title <- item "title" (Fsm.title data) ;;
          description <- item "description" (Fsm.description data) ;;
          reward <- item "reward" (Fsm.reward data) ;;
          user <- lift (getattr user) ;;
          title <- not_null title ;;
          description <- not_null description ;;
          reward <- not_null reward ;;
          new_id <- lift (query (fun d => next_id (map Quest.id (quests d)))) ;;
          lift
            (commit
               (set_quests
                  (fun qs =>
                     qs ++ [Quest.mk new_id title description (get_image data)
                              reward required (now e) true (User.id user)]))
               (fun _ => [Sql INSERT Quests new_id])) ;;
          lift (send QuestCreatedMsg) ;;
          clear
      end
  end.

(** [task_title] *)
Definition task_title (m : Message) : H unit :=
  update_data (Fsm.set_title (text m)) ;;
  answer (from_user m) AskTaskDescription (Some nav.cancel_button) ;;
  set_state Fsm.TaskCreation_description.

(** [task_description] *)
Definition task_description (m : Message) : H unit :=
  update_data (Fsm.set_description (text m)) ;;
  answer (from_user m) AskTaskImage (Some nav.cancel_button) ;;
  set_state Fsm.TaskCreation_image.

(** [task_image] *)
Definition task_image (e : env) (m : Message) : H unit :=
  receive_image e m "task" TaskImageFailed ;;
  answer (from_user m) AskTaskPoints (Some nav.cancel_button) ;;
  set_state Fsm.TaskCreation_points.

(** [task_points] *)
Definition task_points (e : env) (m : Message) : H unit :=
  match text m with
  | None => failH TypeError
  | Some s =>
      match int e s with
      | None => answer (from_user m) EnterNumber None
      | Some points =>
          update_data (Fsm.set_points points) ;;
          answer (from_user m) AskTaskDate (Some nav.cancel_button) ;;
          set_state Fsm.TaskCreation_date
      end
  end.

(** The second half of [task_date], from [data = await state.get_data()]
    on. *)
Definition add_task (scheduled_date : option string) : H unit :=
  data <- get_data ;;
  quest_id <- item "quest_id" (Fsm.quest_id data) ;;
  task_count <- lift (query (fun d => count (tasks_of_quest quest_id d))) ;;
  title <- item "title" (Fsm.title data) ;;
  description <- item "description" (Fsm.description data) ;;
  points <- item "points" (Fsm.points data) ;;
  title <- not_null title ;;
  description <- not_null description ;;
  new_id <- lift (query (fun d => next_id (map Task.id (tasks d)))) ;;
  lift
    (commit
       (set_tasks
          (fun ts =>
             ts ++ [Task.mk new_id quest_id title description (get_image data)
                      points (task_count + 1) scheduled_date false]))
       (fun _ => [Sql INSERT Tasks new_id])) ;;
  lift (send TaskAddedMsg) ;;
  clear.

(** [task_date]: [None.lower()] is an [AttributeError]. *)
Definition task_date (m : Message) : H unit :=
  match text m with
  | None => failH (Exn AttributeError)
  | Some s =>
      if negb (lower_is_net s) then
        if negb (validate_date s) then lift (send BadDateMsg)
        else add_task (Some s)
      else add_task None
  end.

(** What the chain of [if field == ...] of [edit_task_field] comes to:
    an assignment to the row, no assignment, or the [return] after the
    complaint. *)
Inductive edit_decision :=
| Assign (e : task_edit)
| Nothing
| Complained.

Definition decide_edit (e : env) (m : Message) (field : option Route.field)
    : H edit_decision :=
  match field with
  | Some Route.Title =>
      s <- not_null (text m) ;; retH (Assign (SetTitle s))
  | Some Route.Description =>
      s <- not_null (text m) ;; retH (Assign (SetDescription s))
  | Some Route.Points =>
      match text m with
      | None => failH TypeError
      | Some s =>
          match int e s with
          | Some points => retH (Assign (SetPoints points))
          | None =>
              answer (from_user m) EnterNumber None ;; retH Complained
          end
      end
  | Some Route.Date =>
      match text m with
      | None => failH (Exn AttributeError)
      | Some s =>
          if lower_is_net s then retH (Assign (SetDate None))
          else if validate_date s then retH (Assign (SetDate (Some s)))
          else lift (send BadDateMsg) ;; retH Complained
      end
  | None => retH Nothing
  end.

(** [edit_task_field]: the [return] of a complaint leaves the function
    before [state.clear()]. *)
Definition edit_task_field (e : env) (m : Message) : H unit :=
  data <- get_data ;;
  task <-
    lift (query (fun d =>
                   match Fsm.task_id data with
                   | Some task_id => task_by_id task_id d
                   | None => None
                   end)) ;;
  match task with
  | None => clear
  | Some t =>
      decision <- decide_edit e m (Fsm.field data) ;;
      match decision with
      | Complained => retH tt
      | Assign ed =>
          lift
            (commit
               (set_tasks (update_rows Task.id [Task.id t] (apply_edit ed)))
               (fun _ => [Sql UPDATE Tasks (Task.id t)])) ;;
          lift (send TaskUpdatedMsg) ;;
          clear
      | Nothing =>
          lift (send TaskUpdatedMsg) ;;
          clear
      end
  end.

(** The [do_<id>] branch. *)
Definition do_task (task_id : Z) : H unit :=
  task <- lift (query (task_by_id task_id)) ;;
  user <- lift (query (user_by_telegram_id GIRLFRIEND_ID)) ;;
  user <- lift (getattr user) ;;
  existing <-
    lift (query (fun d => first (pending_of task_id (User.id user) d))) ;;
  match existing with
  | Some _ => lift (send AlreadyPendingMsg)
  | None =>
      _ <- lift (getattr task) ;;
      update_data (Fsm.set_task_id task_id) ;;
      lift (send (TaskPromptMsg task_id)) ;;
      set_state Fsm.SubmissionStates_waiting_for_photo
  end.

(** The body of a branch of [handle_callback]. *)
Definition branch (e : env) (user_id : Z) (r : Route.t) : H unit :=
  match r with
  | Route.CancelAction =>
      clear ;;
      answer user_id ActionCancelled (Some (main_menu user_id))
  | Route.MainMenu =>
      clear ;;
      answer user_id MainMenuText (Some (main_menu user_id))
  | Route.GirlStats =>
      stats <- lift (show_girl_stats GIRLFRIEND_ID (today_start e)) ;;
      match stats with
      | None =>
          answer user_id GirlNotFound (Some (nav.back_button "main_menu"))
      | Some s => answer user_id (GirlStatsText s) (Some girl_stats_keyboard)
      end
  | Route.ManageQuests =>
      entries <- lift (query quest_list) ;;
      answer user_id ManageQuestsText
        (Some (nav.quest_management_menu entries))
  | Route.ManageQuest quest_id | Route.QuestActions quest_id =>
      quest <- lift (query (quest_by_id quest_id)) ;;
      match quest with
      | Some q =>
          answer user_id (QuestActionsText (Quest.title q))
            (Some (nav.quest_actions_menu quest_id))
      | None => retH tt
      end
  | Route.ManageQuestTasks quest_id =>
      s <- lift (quest_tasks_screen quest_id) ;;
      answer user_id (fst s) (Some (snd s))
  | Route.DeleteQuest quest_id =>
      answer user_id ConfirmQuestDeletion
        (Some (nav.confirm_delete_quest quest_id))
  | Route.ConfirmDeleteQuest quest_id => lift (confirm_delete_quest quest_id)
  | Route.EditTask task_id =>
      update_data (Fsm.set_task_id task_id) ;;
      task <- lift (query (task_by_id task_id)) ;;
      match task with
      | Some t => answer user_id (TaskCard t) (Some (nav.task_edit_menu task_id))
      | None => retH tt
      end
  | Route.EditField f task_id =>
      update_data (fun d => Fsm.set_field f (Fsm.set_task_id task_id d)) ;;
      answer user_id (AskNewValue f) (Some nav.cancel_button) ;;
      set_state Fsm.TaskEdit_field
  | Route.DeleteTask task_id =>
      answer user_id ConfirmTaskDeletion
        (Some (nav.confirm_delete_task task_id))
  | Route.ConfirmDeleteTask task_id => lift (confirm_delete_task task_id)
  | Route.BackToTasks task_id =>
      task <- lift (query (task_by_id task_id)) ;;
      match task with
      | Some t =>
          s <- lift (quest_tasks_screen (Task.quest_id t)) ;;
          answer user_id (fst s) (Some (snd s))
      | None => retH tt
      end
  | Route.AddTask quest_id =>
      update_data (Fsm.set_quest_id quest_id) ;;
      answer user_id AskTaskTitle (Some nav.cancel_button) ;;
      set_state Fsm.TaskCreation_title
  | Route.CreateQuest =>
      answer user_id AskQuestTitle (Some nav.cancel_button) ;;
      set_state Fsm.QuestCreation_title
  | Route.Approve sub_id =>
      lift (approve GIRLFRIEND_ID sub_id (now e) (today e))
  | Route.Reject sub_id => lift (reject sub_id)
  | Route.CurrentQuest =>
      v <- lift (show_current_quest GIRLFRIEND_ID (today e)) ;;
      lift (send (CurrentQuestMsg v))
  | Route.MyStats =>
      s <- lift (show_my_stats GIRLFRIEND_ID (today_start e)) ;;
      answer user_id (MyStatsText s) (Some my_stats_keyboard)
  | Route.Achievements =>
      l <- lift (show_achievements GIRLFRIEND_ID) ;;
      answer user_id (AchievementsText (achievements_text l))
        (Some achievements_keyboard)
  | Route.Do task_id => do_task task_id
  | Route.BadId _ => lift log_error
  | Route.Unhandled => retH tt
  end.

(** [handle_callback] *)
Definition handle_callback (e : env) (user_id : Z) (data : string) : H unit :=
  except_Exception
    (branch e user_id (route ADMIN_ID GIRLFRIEND_ID user_id data))
    (lift log_error ;;
     lift (send GenericErrorMsg)).

(** ** The dispatcher *)

Definition in_state (s : Fsm.state) (c : Fsm.context) : bool :=
  match Fsm.current c with
  | Some s' => Fsm.eqb s' s
  | None => false
  end.

Definition from_girlfriend (m : Message) : bool :=
  from_user m =? GIRLFRIEND_ID.

Definition is_command (cs : list command) (m : Message) : bool :=
  match command_of m with
  | Some c =>
      existsb (fun c' =>
                 match c, c' with
                 | CmdStart, CmdStart | CmdMenu, CmdMenu
                 | CmdCancel, CmdCancel => true
                 | _, _ => false
                 end) cs
  | None => false
  end.

(** The message handlers with their filters, in the order of their
    registration: the first one whose filters pass handles the message. *)
Definition message_handlers (e : env)
    : list ((Message -> Fsm.context -> bool) * (Message -> H unit)) :=
  [ (fun m _ => is_command [CmdStart] m, cmd_start);
    (fun m _ => is_command [CmdMenu; CmdCancel] m, cmd_menu);
    (fun m c => from_girlfriend m && photo m
                && in_state Fsm.SubmissionStates_waiting_for_photo c,
     handle_photo e);
    (fun m c => from_girlfriend m && F_text m
                && in_state Fsm.SubmissionStates_waiting_for_comment c,
     handle_comment e);
    (fun m c => from_girlfriend m && F_text m
                && in_state Fsm.SubmissionStates_waiting_for_photo c,
     handle_unexpected_text);
    (fun m c => from_girlfriend m && photo m
                && in_state Fsm.SubmissionStates_waiting_for_comment c,
     handle_unexpected_photo);
    (fun _ c => in_state Fsm.QuestCreation_title c, quest_title);
    (fun _ c => in_state Fsm.QuestCreation_description c, quest_description);
    (fun _ c => in_state Fsm.QuestCreation_image c, quest_image e);
    (fun _ c => in_state Fsm.QuestCreation_reward c, quest_reward);
    (fun _ c => in_state Fsm.QuestCreation_required c, quest_required e);
    (fun _ c => in_state Fsm.TaskCreation_title c, task_title);
    (fun _ c => in_state Fsm.TaskCreation_description c, task_description);
    (fun _ c => in_state Fsm.TaskCreation_image c, task_image e);
    (fun _ c => in_state Fsm.TaskCreation_points c, task_points e);
    (fun _ c => in_state Fsm.TaskCreation_date c, task_date);
    (fun _ c => in_state Fsm.TaskEdit_field c, edit_task_field e) ].

Definition handle_message (e : env) (m : Message) : H unit :=
  fun l =>
    match find (fun h => fst h m (state l)) (message_handlers e) with
    | Some h => snd h m l
    | None => (Return tt, l)
    end.

Definition handle (e : env) (u : update) : H unit :=
  match u with
  | OnMessage m => handle_message e m
  | OnCallback user_id data => handle_callback e user_id data
  end.

(** ** The bot with its storage *)

Record bot := mkBot {
  the_world : world;
  storage : gmap Z Fsm.context;
  screens : list screen }.

Definition context_of (user_id : Z) (b : bot) : Fsm.context :=
  default Fsm.fresh (storage b !! user_id).

(** One update: the handler runs on the context of the sender; what it
    did before an exception stays done.  [None] for a run outside the
    model. *)
Definition step (e : env) (u : update) (b : bot) : option bot :=
  let user_id := sender u in
  match handle e u (mkLocal (the_world b) (context_of user_id b) (screens b))
  with
  | (Fail NullColumn, _) => None
  | (_, l) => Some (mkBot (outside l) (<[user_id := state l]> (storage b))
                      (shown l))
  end.

Fixpoint run (us : list (env * update)) (b : bot) : option bot :=
  match us with
  | [] => Some b
  | (e, u) :: rest =>
      match step e u b with
      | Some b' => run rest b'
      | None => None
      end
  end.

(** The bot after [main] has prepared the database. *)
Definition started : bot :=
  mkBot (snd (main_init ADMIN_ID GIRLFRIEND_ID initial_world)) ∅ [].

End Handlers.

End Bot.

(** ** Predicates on the dialogues *)

(** The states of the dialogues of the admin. *)
Definition admin_state (s : Fsm.state) : bool :=
  match s with
  | Fsm.SubmissionStates_waiting_for_photo
  | Fsm.SubmissionStates_waiting_for_comment
  | Fsm.SubmissionStates_task_id
  | Fsm.SubmissionStates_photo_path => false
  | _ => true
  end.

Definition has {A : Type} (v : option A) : bool :=
  match v with
  | Some _ => true
  | None => false
  end.

(** The keys that the handlers of a state, and of the states after it,
    read from the dictionary.  The states that no handler sets have
    none that would do. *)
Definition keys_present (s : Fsm.state) (d : Fsm.data) : bool :=
  match s with
  | Fsm.QuestCreation_title => true
  | Fsm.QuestCreation_description => has (Fsm.title d)
  | Fsm.QuestCreation_image => has (Fsm.title d) && has (Fsm.description d)
  | Fsm.QuestCreation_reward =>
      has (Fsm.title d) && has (Fsm.description d) && has (Fsm.image d)
  | Fsm.QuestCreation_required =>
      has (Fsm.title d) && has (Fsm.description d) && has (Fsm.image d)
      && has (Fsm.reward d)
  | Fsm.TaskCreation_title => has (Fsm.quest_id d)
  | Fsm.TaskCreation_description => has (Fsm.quest_id d) && has (Fsm.title d)
  | Fsm.TaskCreation_image =>
      has (Fsm.quest_id d) && has (Fsm.title d) && has (Fsm.description d)
  | Fsm.TaskCreation_points =>
      has (Fsm.quest_id d) && has (Fsm.title d) && has (Fsm.description d)
      && has (Fsm.image d)
  | Fsm.TaskCreation_date =>
      has (Fsm.quest_id d) && has (Fsm.title d) && has (Fsm.description d)
      && has (Fsm.image d) && has (Fsm.points d)
  | Fsm.TaskEdit_field => has (Fsm.task_id d) && has (Fsm.field d)
  | Fsm.SubmissionStates_waiting_for_photo => has (Fsm.task_id d)
  | Fsm.SubmissionStates_waiting_for_comment =>
      has (Fsm.task_id d) && has (Fsm.photo_path d)
  | Fsm.TaskCreation_quest_id | Fsm.TaskEdit_task_id | Fsm.TaskEdit_value
  | Fsm.SubmissionStates_task_id | Fsm.SubmissionStates_photo_path => false
  end.

(** A context as the handlers leave it: in a dialogue of the admin only
    for the admin, in the report dialogue only for the girlfriend when she
    is not the admin too, and with the keys of its state. *)
Definition context_ok (admin_id girlfriend_id user_id : Z) (c : Fsm.context)
    : bool :=
  match Fsm.current c with
  | None => true
  | Some s =>
      keys_present s (Fsm.bag c)
      && (if admin_state s then user_id =? admin_id
          else (user_id =? girlfriend_id) && negb (user_id =? admin_id))
  end.

(** The database after one operation of the handler model, or the same
    database. *)
Definition db_step (admin_id girlfriend_id : Z) (d d' : DB) : Prop :=
  d' = d \/ exists o, d' = step_db admin_id girlfriend_id o d.

(** What every handler run keeps. *)
Record good (admin_id girlfriend_id user_id : Z) (l : Bot.local)
    (r : Bot.outcome unit) (l' : Bot.local) : Prop := mkGood {
  good_context :
    context_ok admin_id girlfriend_id user_id (Bot.state l) = true ->
    context_ok admin_id girlfriend_id user_id (Bot.state l') = true;
  good_db :
    db_step admin_id girlfriend_id (db (Bot.outside l)) (db (Bot.outside l'));
  good_keys :
    context_ok admin_id girlfriend_id user_id (Bot.state l) = true ->
    forall key, r <> Bot.Fail (Bot.KeyError key);
  good_stranger :
    user_id <> admin_id -> user_id <> girlfriend_id ->
    context_ok admin_id girlfriend_id user_id (Bot.state l) = true ->
    Bot.outside l' = Bot.outside l }.

(** Who reaches which branch of [handle_callback]. *)
Definition route_sender (a g u : Z) (r : Route.t) : Prop :=
  match r with
  | Route.CancelAction | Route.MainMenu | Route.Unhandled => True
  | Route.BadId _ => u = a \/ u = g
  | Route.CurrentQuest | Route.MyStats | Route.Achievements | Route.Do _ =>
      u <> a /\ u = g
  | _ => u = a
  end.

(** Three kinds of handler code: code that leaves the context as it is,
    code that leaves the database as it is, code that raises no
    [KeyError]. *)
Definition keeps_state {A : Type} (m : Bot.H A) : Prop :=
  forall l, Bot.state (snd (m l)) = Bot.state l.

Definition keeps_db {A : Type} (m : Bot.H A) : Prop :=
  forall l, db (Bot.outside (snd (m l))) = db (Bot.outside l).

Definition no_key_error {A : Type} (m : Bot.H A) : Prop :=
  forall l key, fst (m l) <> Bot.Fail (Bot.KeyError key).

(** Every context of the storage is as the handlers leave it. *)
Definition storage_ok (admin_id girlfriend_id : Z) (b : Bot.bot) : Prop :=
  forall user_id,
    context_ok admin_id girlfriend_id user_id (Bot.context_of user_id b) = true.

(** What the handler of an update runs on. *)
Definition local_of (user_id : Z) (b : Bot.bot) : Bot.local :=
  Bot.mkLocal (Bot.the_world b) (Bot.context_of user_id b) (Bot.screens b).

(** ** Sample runs of the dialogues *)

Definition sample_env : Bot.env :=
  Bot.mkEnv 1000 TODAY 0 "7f3c" (fun _ => Downloaded) false (fun _ => None).


(** ** The report dialogue *)

(** The bot with the open task of [with_open_task], nobody in a
    dialogue. *)
Definition bot_with_open_task : Bot.bot := Bot.mkBot with_open_task ∅ [].

(** A photo, with or without a caption, and a text, from the
    girlfriend. *)
Definition photo_from (user_id : Z) (caption : option string) : Bot.update :=
  Bot.OnMessage (Bot.mkMessage user_id None (Bot.Photo caption)).


(** The button of a task in the view of the current quest. *)
Definition press_do_button (user_id task_id : Z) : Bot.update :=
  Bot.OnCallback user_id ("do_" ++ PyStr.str_of_int task_id).

(** [dest] of [handle_photo] *)
Definition submission_dest (e : Bot.env) : string :=
  "photos/submission_" ++ Bot.uuid e ++ ".jpg".

(** The ways out of a dialogue: the cancel button, the menu button, the
    commands [/cancel] and [/menu]. *)
Definition ways_out (user_id : Z) : list Bot.update :=
  [ Bot.OnCallback user_id "cancel_action";
    Bot.OnCallback user_id "main_menu";
    Bot.OnMessage (Bot.mkMessage user_id (Some Bot.CmdCancel) (Bot.Text "/cancel"));
    Bot.OnMessage (Bot.mkMessage user_id (Some Bot.CmdMenu) (Bot.Text "/menu")) ].

(** ** The dialogues of the admin *)

(** A message that is no command. *)
Definition plain (user_id : Z) (c : Bot.content) : Bot.update :=
  Bot.OnMessage (Bot.mkMessage user_id None c).



(** A download that fails at every attempt. *)
Definition offline_env : Bot.env :=
  Bot.mkEnv 2000 TODAY 0 "9a1e" (fun _ => TimedOut) true (fun _ => None).

(** The admin creates a quest with a picture that fails to download, and
    a task in it. *)
Definition quest_and_task_dialogues : list (Bot.env * Bot.update) :=
  [ (sample_env, Bot.OnCallback ADMIN "create_quest");
    (sample_env, plain ADMIN (Bot.Text "Week one"));
    (sample_env, plain ADMIN (Bot.Text "Seven small things"));
    (offline_env, plain ADMIN (Bot.Photo None));
    (sample_env, plain ADMIN (Bot.Text "Cinema"));
    (sample_env, plain ADMIN (Bot.Text " 3 "));
    (sample_env, Bot.OnCallback ADMIN "add_task_1");
    (sample_env, plain ADMIN (Bot.Text "Park"));
    (sample_env, plain ADMIN (Bot.Text "Walk in the park"));
    (sample_env, plain ADMIN (Bot.Photo (Some "the park")));
    (sample_env, plain ADMIN (Bot.Text "5"));
    (sample_env, plain ADMIN (Bot.Text "Нет")) ].

(** ** The edit dialogue *)

(** The data of the four buttons of [task_edit_menu] that open it. *)
Definition edit_prefix (f : Route.field) : string :=
  match f with
  | Route.Title => "edit_title_"
  | Route.Description => "edit_desc_"
  | Route.Points => "edit_points_"
  | Route.Date => "edit_date_"
  end.

Definition edit_button (f : Route.field) (task_id : Z) : string :=
  edit_prefix f ++ PyStr.str_of_int task_id.


(** * Properties *)

(** ** Tactics *)

Ltac munfold :=
  unfold bind, query, commit, getattr, ret, raise, send, emit, try_except,
    pass, log_error, os_path_exists, os_remove in *.

Lemma cleans_refl w : cleans w w.
Proof.
  repeat split; [set_solver|]. exists []. rewrite app_nil_r. auto.
Qed.

Lemma cleans_trans w1 w2 w3 : cleans w1 w2 -> cleans w2 w3 -> cleans w1 w3.
Proof.
  intros (Hd1 & Hf1 & e1 & Ht1 & He1) (Hd2 & Hf2 & e2 & Ht2 & He2).
  repeat split.
  - congruence.
  - set_solver.
  - exists (e1 ++ e2). rewrite Ht2, Ht1, app_assoc. split; [reflexivity|].
    apply Forall_app; auto.
Qed.

Lemma gone_mono url fs fs' : gone url fs -> fs' ⊆ fs -> gone url fs'.
Proof.
  unfold gone. intros Hg Hs p Hp Ht. specialize (Hg p Hp Ht). set_solver.
Qed.

Lemma clean_ret {A} (a : A) : clean (ret a).
Proof. intros w. split; [eexists; reflexivity | apply cleans_refl]. Qed.

Lemma clean_query {A} (q : DB -> A) : clean (query q).
Proof. intros w. split; [eexists; reflexivity | apply cleans_refl]. Qed.

Lemma clean_bind {A B} (m : M A) (k : A -> M B) :
  clean m -> (forall a, clean (k a)) -> clean (bind m k).
Proof.
  intros Hm Hk w. unfold bind.
  destruct (Hm w) as [[a Ha] Hc]. destruct (m w) as [[a'|e] w1]; cbn in *; [|discriminate].
  destruct (Hk a' w1) as [Hok Hc']. split; [assumption|].
  eapply cleans_trans; eassumption.
Qed.

Lemma clean_for_each {A} (body : A -> M unit) (xs : list A) :
  (forall x, clean (body x)) -> clean (for_each xs body).
Proof.
  intros Hb. induction xs as [|x xs IH]; cbn.
  - apply clean_ret.
  - apply clean_bind; auto.
Qed.

Lemma remove_if_exists_clean url h : clean (remove_if_exists url h).
Proof.
  intros w. unfold remove_if_exists.
  destruct url as [p|]; [|apply clean_ret].
  destruct (Py.truthy p); [|apply clean_ret].
  munfold. cbn. destruct (bool_decide (p ∈ files w)) eqn:E; cbn.
  - rewrite E. cbn. split; [eauto|]. repeat split; cbn.
    + intros x Hx. apply elem_of_difference in Hx. tauto.
    + exists [FsRemove p]. split; auto.
  - split; [eauto | apply cleans_refl].
Qed.

Lemma remove_if_exists_gone url h w :
  gone url (files (snd (remove_if_exists url h w))).
Proof.
  unfold remove_if_exists, gone. intros p -> Ht. rewrite Ht.
  munfold. cbn. destruct (bool_decide (p ∈ files w)) eqn:E; cbn.
  - rewrite E. cbn. intros Hx. apply elem_of_difference in Hx.
    destruct Hx as [_ Hx]. apply Hx, elem_of_singleton. reflexivity.
  - apply bool_decide_eq_false in E. exact E.
Qed.

Lemma for_each_gone {A} (body : A -> M unit) (G : A -> gset string -> Prop)
    (xs : list A) :
  (forall x, clean (body x)) ->
  (forall x fs fs', G x fs -> fs' ⊆ fs -> G x fs') ->
  forall d,
  (forall x w, db w = d -> G x (files (snd (body x w)))) ->
  forall w, db w = d ->
  forall x, In x xs -> G x (files (snd (for_each xs body w))).
Proof.
  intros Hc Hmono d Hb. induction xs as [|y ys IH]; intros w Hd x Hin; [destruct Hin|].
  cbn. unfold bind.
  destruct (Hc y w) as [[a Ha] Hcl]. specialize (Hb y w Hd).
  destruct (body y w) as [[a'|e] w1]; cbn in *; [|discriminate].
  pose proof (clean_for_each body ys Hc w1) as [_ Hcl2].
  destruct Hin as [->|Hin].
  - eapply Hmono; [exact Hb|]. apply Hcl2.
  - apply IH; [|assumption]. destruct Hcl as [-> _]. exact Hd.
Qed.

Lemma cleanup_task_files_clean task_id : clean (cleanup_task_files task_id).
Proof.
  unfold cleanup_task_files.
  apply clean_bind; [apply clean_query|]. intros subs.
  apply clean_bind.
  { apply clean_for_each. intros. apply remove_if_exists_clean. }
  intros _. apply clean_bind; [apply clean_query|]. intros [t|].
  - apply remove_if_exists_clean.
  - apply clean_ret.
Qed.

Lemma cleanup_task_files_gone task_id w :
  task_files_gone (db w) task_id (files (snd (cleanup_task_files task_id w))).
Proof.
  unfold cleanup_task_files, bind at 1, query at 1. cbn.
  set (body := fun sub : Submission.t => remove_if_exists (Submission.photo_url sub) log_error).
  pose proof (clean_for_each body (submissions_of_task task_id (db w))
                (fun x => remove_if_exists_clean _ _) w) as [[a Ha] Hcl].
  pose proof (for_each_gone body (fun s fs => gone (Submission.photo_url s) fs)
                (submissions_of_task task_id (db w))
                (fun x => remove_if_exists_clean _ _)
                (fun x fs fs' => gone_mono _ fs fs') (db w)
                (fun x w0 _ => remove_if_exists_gone _ _ w0) w eq_refl) as Hg.
  unfold bind. destruct (for_each _ body w) as [[[]|e] w1]; cbn in *; [|discriminate].
  unfold query. cbn. destruct Hcl as (Hd & Hf & _). rewrite Hd.
  assert (Hcl2 : cleans w1 (snd (match task_by_id task_id (db w) with
           | Some t => remove_if_exists (Task.image_url t) log_error
           | None => ret tt end w1))).
  { destruct (task_by_id task_id (db w)); [apply remove_if_exists_clean | apply clean_ret]. }
  split.
  - intros s Hs Ht. eapply gone_mono; [apply Hg|apply Hcl2].
    unfold submissions_of_task. apply filter_In. split; [assumption|]. apply Z.eqb_eq. assumption.
  - intros t Ht. rewrite Ht. apply remove_if_exists_gone.
Qed.

Lemma cleanup_quest_files_clean quest_id : clean (cleanup_quest_files quest_id).
Proof.
  unfold cleanup_quest_files.
  apply clean_bind; [apply clean_query|]. intros ts.
  apply clean_bind.
  { apply clean_for_each. intros. apply cleanup_task_files_clean. }
  intros _. apply clean_bind; [apply clean_query|]. intros [q|].
  - apply remove_if_exists_clean.
  - apply clean_ret.
Qed.

Lemma task_files_gone_mono d task_id fs fs' :
  task_files_gone d task_id fs -> fs' ⊆ fs -> task_files_gone d task_id fs'.
Proof.
  intros [Hs Ht] Hsub. split.
  - intros s Hin Heq. eapply gone_mono; eauto.
  - intros t Heq. eapply gone_mono; eauto.
Qed.

Lemma cleanup_quest_files_gone quest_id w :
  let fs := files (snd (cleanup_quest_files quest_id w)) in
  (forall t, In t (tasks (db w)) -> Task.quest_id t = quest_id ->
             task_files_gone (db w) (Task.id t) fs)
  /\ (forall q, quest_by_id quest_id (db w) = Some q ->
                gone (Quest.image_url q) fs).
Proof.
  unfold cleanup_quest_files, bind at 1, query at 1. cbn.
  set (body := fun task : Task.t => cleanup_task_files (Task.id task)).
  pose proof (clean_for_each body (tasks_of_quest quest_id (db w))
                (fun x => cleanup_task_files_clean _) w) as [[a Ha] Hcl].
  assert (Hb : forall (x : Task.t) (w0 : world), db w0 = db w ->
            task_files_gone (db w) (Task.id x) (files (snd (body x w0)))).
  { intros x w0 Hw0. rewrite <- Hw0. apply cleanup_task_files_gone. }
  pose proof (for_each_gone body
                (fun t fs => task_files_gone (db w) (Task.id t) fs)
                (tasks_of_quest quest_id (db w))
                (fun x => cleanup_task_files_clean _)
                (fun x fs fs' => task_files_gone_mono _ _ fs fs') (db w)
                Hb w eq_refl) as Hg.
  clear Hb.
  unfold bind. destruct (for_each _ body w) as [[[]|e] w1]; cbn in *;
    [|discriminate].
  unfold query. cbn. destruct Hcl as (Hd & Hf & _). rewrite Hd.
  assert (Hcl2 : cleans w1 (snd (match quest_by_id quest_id (db w) with
           | Some q => remove_if_exists (Quest.image_url q) log_error
           | None => ret tt end w1))).
  { destruct (quest_by_id quest_id (db w));
      [apply remove_if_exists_clean | apply clean_ret]. }
  split.
  - intros t Hin Hq. eapply task_files_gone_mono; [|apply Hcl2].
    apply Hg. unfold tasks_of_quest. apply filter_In. split; [assumption|].
    apply Z.eqb_eq. assumption.
  - intros q Hq. rewrite Hq. apply remove_if_exists_gone.
Qed.

(** ** Lists and lookups *)

Lemma mem_In x ids : mem x ids = true <-> In x ids.
Proof.
  unfold mem. rewrite existsb_exists. split.
  - intros (y & Hy & Heq). apply Z.eqb_eq in Heq. subst. assumption.
  - intros Hin. exists x. split; [assumption | apply Z.eqb_refl].
Qed.

Lemma first_None {A} (l : list A) : first l = None <-> l = [].
Proof. destruct l; cbn; split; congruence. Qed.

Lemma first_In {A} (l : list A) x : first l = Some x -> In x l.
Proof. destruct l; cbn; [discriminate|]. intros [= ->]. left. reflexivity. Qed.

Lemma first_filter_In {A} (p : A -> bool) l x :
  first (filter_by p l) = Some x -> In x l /\ p x = true.
Proof. intros H. apply first_In in H. apply filter_In in H. exact H. Qed.

Lemma filter_nil_iff {A} (p : A -> bool) l :
  filter_by p l = [] <-> forall x, In x l -> p x = false.
Proof.
  induction l as [|a l IH]; cbn.
  - split; [intros _ x []|reflexivity].
  - destruct (p a) eqn:E; split.
    + discriminate.
    + intros H. specialize (H a (or_introl eq_refl)). congruence.
    + intros H x [->|Hin]; [assumption|]. apply IH; assumption.
    + intros H. apply IH. intros x Hx. apply H. right. assumption.
Qed.

(** A primary key finds its row. *)
Lemma first_by_key {A} (key : A -> Z) (l : list A) (x : A) :
  List.NoDup (map key l) -> In x l ->
  first (filter_by (fun r => key r =? key x) l) = Some x.
Proof.
  induction l as [|a l IH]; cbn; intros Hnd Hin; [destruct Hin|].
  inversion Hnd as [|? ? Hnotin Hnd']; subst.
  destruct Hin as [->|Hin].
  - rewrite Z.eqb_refl. reflexivity.
  - destruct (key a =? key x) eqn:E.
    + apply Z.eqb_eq in E. exfalso. apply Hnotin. rewrite E.
      apply in_map. assumption.
    + apply IH; assumption.
Qed.

Lemma task_by_id_self d t :
  List.NoDup (map Task.id (tasks d)) -> In t (tasks d) ->
  task_by_id (Task.id t) d = Some t.
Proof. intros. unfold task_by_id. apply (first_by_key Task.id); assumption. Qed.

(** ** Deleting a quest *)

Lemma delete_quest_stmts_sql quest_id d :
  Forall (fun e => is_sql e = true) (delete_quest_stmts quest_id d).
Proof.
  unfold delete_quest_stmts. rewrite !Forall_app.
  repeat split;
    try (apply List.Forall_forall; intros e He; apply in_map_iff in He;
         destruct He as (? & <- & _); reflexivity).
  constructor; [reflexivity | constructor].
Qed.

Lemma delete_quest_no_quest quest_id d :
  quest_by_id quest_id (delete_quest quest_id d) = None.
Proof.
  unfold quest_by_id. apply first_None, filter_nil_iff. cbn.
  intros q Hq. unfold delete_rows in Hq. apply filter_In in Hq.
  destruct Hq as [_ Hq]. cbn in Hq. rewrite orb_false_r in Hq.
  apply negb_true_iff in Hq. exact Hq.
Qed.

Lemma delete_quest_no_tasks quest_id d :
  tasks_of_quest quest_id (delete_quest quest_id d) = [].
Proof.
  unfold tasks_of_quest. apply filter_nil_iff. cbn.
  intros t Ht. unfold delete_rows in Ht. apply filter_In in Ht.
  destruct Ht as [Hin Hm]. apply negb_true_iff in Hm.
  destruct (Task.quest_id t =? quest_id) eqn:E; [|reflexivity].
  exfalso. apply not_true_iff_false in Hm. apply Hm, mem_In, in_map.
  apply filter_In. split; assumption.
Qed.

Lemma delete_quest_no_submissions quest_id d t :
  In t (tasks d) -> Task.quest_id t = quest_id ->
  submissions_of_task (Task.id t) (delete_quest quest_id d) = [].
Proof.
  intros Hin Hq. unfold submissions_of_task. apply filter_nil_iff. cbn.
  intros s Hs. unfold delete_rows in Hs. apply filter_In in Hs.
  destruct Hs as [Hs Hm]. apply negb_true_iff in Hm.
  destruct (Submission.task_id s =? Task.id t) eqn:E; [|reflexivity].
  exfalso. apply not_true_iff_false in Hm. apply Hm, mem_In, in_map.
  unfold task_children. apply filter_In. split; [assumption|].
  apply mem_In. apply Z.eqb_eq in E. rewrite E. apply in_map.
  apply filter_In. split; [assumption | apply Z.eqb_eq; assumption].
Qed.

(** Rows of other quests stay. *)
Lemma delete_quest_keeps quest_id d :
  (forall q, In q (quests d) -> Quest.id q <> quest_id ->
             In q (quests (delete_quest quest_id d)))
  /\ (forall t, In t (tasks d) -> Task.quest_id t <> quest_id ->
                List.NoDup (map Task.id (tasks d)) ->
                In t (tasks (delete_quest quest_id d)))
  /\ users (delete_quest quest_id d) = users d.
Proof.
  repeat split; cbn.
  - intros q Hin Hne. apply filter_In. split; [assumption|]. cbn.
    rewrite orb_false_r. apply negb_true_iff, Z.eqb_neq. assumption.
  - intros t Hin Hne Hnd. apply filter_In. split; [assumption|].
    apply negb_true_iff, not_true_iff_false. intros Hm. apply mem_In in Hm.
    apply in_map_iff in Hm. destruct Hm as (t' & Hid & Ht').
    apply filter_In in Ht'. destruct Ht' as [Hin' Hq'].
    assert (t' = t).
    { pose proof (first_by_key Task.id _ _ Hnd Hin) as H1.
      pose proof (first_by_key Task.id _ _ Hnd Hin') as H2.
      rewrite Hid in H2. congruence. }
    subst t'. apply Z.eqb_eq in Hq'. contradiction.
Qed.

Lemma quest_by_id_id quest_id d q :
  quest_by_id quest_id d = Some q -> Quest.id q = quest_id.
Proof.
  intros H. apply first_filter_In in H. destruct H as [_ H].
  apply Z.eqb_eq. exact H.
Qed.

Lemma confirm_delete_quest_run quest_id w :
  confirm_delete_quest quest_id w
  = let w1 := snd (cleanup_quest_files quest_id w) in
    match quest_by_id quest_id (db w) with
    | Some q =>
        (Ok tt,
         mkWorld (delete_quest (Quest.id q) (db w)) (files w1)
           ((trace w1 ++ delete_quest_stmts (Quest.id q) (db w))
            ++ [Send QuestDeletedMsg]))
    | None => (Ok tt, w1)
    end.
Proof.
  pose proof (cleanup_quest_files_clean quest_id w) as [[a Ha] Hcl].
  unfold confirm_delete_quest, bind at 1.
  destruct (cleanup_quest_files quest_id w) as [[[]|e] w1]; cbn in Ha, Hcl;
    [|discriminate].
  destruct Hcl as (Hd & _). munfold. cbn. rewrite Hd.
  destruct (quest_by_id quest_id (db w)); cbn; rewrite ?Hd; reflexivity.
Qed.

(** C6.  Confirming the deletion of an existing quest never raises,
    whatever files exist or are missing.  Afterwards the photo of every
    submission of every task of the quest, every such task's image and the
    quest's image are out of storage; the trace is a run of successful
    file removals, then the SQL statements of the delete, then the
    acknowledgement, with no error logged; the quest row, its task rows and
    their submission rows are no longer in the database. *)
Theorem confirm_delete_quest_correct (quest_id : Z) (q : Quest.t) (w : world) :
  quest_by_id quest_id (db w) = Some q ->
  List.NoDup (map Task.id (tasks (db w))) ->
  let r := confirm_delete_quest quest_id w in
  let w' := snd r in
  fst r = Ok tt
  /\ (forall t, In t (tasks (db w)) -> Task.quest_id t = quest_id ->
        gone (Task.image_url t) (files w')
        /\ forall s, In s (submissions (db w)) ->
                     Submission.task_id s = Task.id t ->
                     gone (Submission.photo_url s) (files w'))
  /\ gone (Quest.image_url q) (files w')
  /\ (exists removals,
        trace w' = trace w ++ removals ++ delete_quest_stmts quest_id (db w)
                   ++ [Send QuestDeletedMsg]
        /\ Forall (fun e => is_fs_remove e = true) removals
        /\ Forall (fun e => is_sql e = true)
             (delete_quest_stmts quest_id (db w)))
  /\ db w' = delete_quest quest_id (db w)
  /\ quest_by_id quest_id (db w') = None
  /\ tasks_of_quest quest_id (db w') = []
  /\ (forall t, In t (tasks (db w)) -> Task.quest_id t = quest_id ->
        submissions_of_task (Task.id t) (db w') = []).
Proof.
  intros Hq Hnd r w'. subst r w'.
  pose proof (quest_by_id_id _ _ _ Hq) as Hid.
  pose proof (cleanup_quest_files_clean quest_id w) as [_ Hcl].
  pose proof (cleanup_quest_files_gone quest_id w) as [Hgt Hgq].
  rewrite confirm_delete_quest_run, Hq.
  cbn -[cleanup_quest_files delete_quest delete_quest_stmts]. rewrite Hid.
  destruct Hcl as (Hd & Hf & evs & Ht & Hevs).
  split; [reflexivity|].
  split.
  { intros t Hin Hqt. destruct (Hgt t Hin Hqt) as [Hs Hi]. split.
    - apply Hi. apply task_by_id_self; assumption.
    - intros s Hs1 Hs2. apply Hs; assumption. }
  split; [apply Hgq; assumption|].
  split.
  { exists evs. rewrite Ht. rewrite <- !app_assoc. split; [reflexivity|].
    split; [assumption | apply delete_quest_stmts_sql]. }
  split; [reflexivity|].
  split; [apply delete_quest_no_quest|].
  split; [apply delete_quest_no_tasks|].
  intros t Hin Hqt. apply delete_quest_no_submissions; assumption.
Qed.

(** ** What each handler does to the database *)

Lemma remove_if_exists_run url h w :
  remove_if_exists url h w
  = (Ok tt,
     match url with
     | Some p =>
         if Py.truthy p && bool_decide (p ∈ files w)
         then mkWorld (db w) (files w ∖ {[p]}) (trace w ++ [FsRemove p])
         else w
     | None => w
     end).
Proof.
  unfold remove_if_exists. destruct url as [p|]; [|reflexivity].
  destruct (Py.truthy p); [|reflexivity].
  munfold. cbn. destruct (bool_decide (p ∈ files w)) eqn:E; cbn;
    [rewrite E|]; reflexivity.
Qed.

Lemma show_current_quest_reads girlfriend_id today w :
  snd (show_current_quest girlfriend_id today w) = w.
Proof.
  unfold show_current_quest. munfold. cbn.
  destruct (user_by_telegram_id girlfriend_id (db w)) as [u|]; cbn;
    [|reflexivity].
  match goal with
  | |- context [match ?x with _ :: _ => _ | [] => _ end] => destruct x
  end.
  all: match goal with
       | |- context [first ?x] => destruct (first x)
       end; cbn; try reflexivity.
  all: destruct (0 <? _); cbn; try reflexivity.
  all: destruct (Py.int_truediv _ _); cbn; try reflexivity.
  all: destruct (Py.int_of_float _); cbn; reflexivity.
Qed.

Lemma approve_effect girlfriend_id sub_id now today w :
  db (snd (approve girlfriend_id sub_id now today w))
  = approve_db sub_id now (db w)
  /\ files (snd (approve girlfriend_id sub_id now today w)) = files w.
Proof.
  unfold approve, approve_db, completion_due, mark_approved, new_completion.
  munfold. cbn -[show_current_quest].
  destruct (submission_by_id sub_id (db w)) as [sub|];
    cbn -[show_current_quest]; [|auto].
  destruct (task_by_id _ _) as [task|]; cbn -[show_current_quest]; [|auto].
  destruct (quest_by_id _ _) as [quest|]; cbn -[show_current_quest]; [|auto].
  destruct (_ <=? _); cbn -[show_current_quest]; [|auto].
  destruct (first _); cbn -[show_current_quest]; [auto|].
  match goal with
  | |- context [show_current_quest ?g ?t ?w] =>
      pose proof (show_current_quest_reads g t w) as Hr;
      destruct (show_current_quest g t w) as [[v|e] w']
  end; cbn in *; subst; cbn; auto.
Qed.

Lemma reject_run sub_id w :
  reject sub_id w
  = match submission_by_id sub_id (db w) with
    | None => (Ok tt, w)
    | Some sub =>
        match task_by_id (Submission.task_id sub) (db w) with
        | None => (Raise AttributeError, w)
        | Some task =>
            let w1 := snd (remove_if_exists (Submission.photo_url sub) pass w) in
            (Ok tt,
             mkWorld
               (set_submissions
                  (delete_rows Submission.id [Submission.id sub]) (db w))
               (files w1)
               (trace w1
                ++ [Sql DELETE Submissions (Submission.id sub);
                    Send (RejectedMsg (Task.title task)); Send RejectedAck]))
        end
    end.
Proof.
  unfold reject, bind at 1, query at 1. cbn.
  destruct (submission_by_id sub_id (db w)) as [sub|]; [|reflexivity].
  unfold bind at 1, query at 1. cbn.
  destruct (task_by_id _ _) as [task|]; [|reflexivity].
  cbn. unfold bind at 1. rewrite remove_if_exists_run. cbn.
  munfold. cbn.
  destruct (Submission.photo_url sub) as [p|]; cbn.
  - destruct (Py.truthy p && bool_decide (p ∈ files w)); cbn;
      rewrite <- !app_assoc; reflexivity.
  - rewrite <- !app_assoc. reflexivity.
Qed.

Lemma reject_db_correct sub_id w :
  db (snd (reject sub_id w)) = reject_db sub_id (db w).
Proof.
  rewrite reject_run. unfold reject_db.
  destruct (submission_by_id sub_id (db w)) as [sub|]; [|reflexivity].
  destruct (task_by_id _ _); reflexivity.
Qed.

Lemma confirm_delete_quest_db_correct quest_id w :
  db (snd (confirm_delete_quest quest_id w))
  = confirm_delete_quest_db quest_id (db w).
Proof.
  rewrite confirm_delete_quest_run. unfold confirm_delete_quest_db.
  cbn -[cleanup_quest_files delete_quest delete_quest_stmts].
  destruct (quest_by_id quest_id (db w)); cbn -[cleanup_quest_files delete_quest];
    [reflexivity|].
  apply (cleanup_quest_files_clean quest_id w).
Qed.

Lemma confirm_delete_task_db_correct task_id w :
  db (snd (confirm_delete_task task_id w))
  = confirm_delete_task_db task_id (db w).
Proof.
  pose proof (cleanup_task_files_clean task_id w) as [[a Ha] Hcl].
  unfold confirm_delete_task, confirm_delete_task_db, bind at 1.
  destruct (cleanup_task_files task_id w) as [[[]|e] w1]; cbn in Ha, Hcl;
    [|discriminate].
  destruct Hcl as (Hd & _). munfold. cbn. rewrite Hd.
  destruct (task_by_id task_id (db w)) as [t|]; cbn; [|assumption].
  rewrite Hd. destruct (quest_by_id _ _); reflexivity.
Qed.

Lemma process_complete_submission_effect girlfriend_id task_id photo_path
    comment now w :
  let w' :=
    snd (process_complete_submission girlfriend_id task_id photo_path comment
           now w) in
  db w' = submit_db girlfriend_id task_id photo_path comment now (db w)
  /\ files w' ⊆ files w
  /\ forall user, user_by_telegram_id girlfriend_id (db w) = Some user ->
       forall s, In s (pending_of task_id (User.id user) (db w)) ->
                 gone (Submission.photo_url s) (files w').
Proof.
  intros w'. subst w'.
  remember (process_complete_submission girlfriend_id task_id photo_path
              comment now w) as r eqn:Hr.
  unfold submit_db, new_submission.
  unfold process_complete_submission, try_except at 1, bind at 1,
    query at 1 in Hr.
  cbn in Hr. unfold bind at 1, query at 1 in Hr. cbn in Hr.
  destruct (user_by_telegram_id girlfriend_id (db w)) as [user|]; cbn in Hr.
  2:{ munfold. cbn in Hr.
      destruct (bool_decide (photo_path ∈ files w)) eqn:E; cbn in Hr.
      - rewrite E in Hr. subst r. cbn. repeat split; [|discriminate].
        intros x Hx. apply elem_of_difference in Hx. tauto.
      - subst r. cbn. repeat split; [reflexivity | discriminate]. }
  unfold bind at 1, query at 1 in Hr. cbn in Hr. unfold bind at 1 in Hr.
  set (body := fun sub : Submission.t =>
                 remove_if_exists (Submission.photo_url sub) pass) in Hr.
  pose proof (clean_for_each body (pending_of task_id (User.id user) (db w))
                (fun x => remove_if_exists_clean _ _) w) as [[a Ha] Hcl].
  pose proof (for_each_gone body (fun s fs => gone (Submission.photo_url s) fs)
                (pending_of task_id (User.id user) (db w))
                (fun x => remove_if_exists_clean _ _)
                (fun x fs fs' => gone_mono _ fs fs') (db w)
                (fun x w0 _ => remove_if_exists_gone _ _ w0) w eq_refl) as Hg.
  destruct (for_each _ body w) as [[[]|e] w1]; cbn in Ha, Hcl, Hg;
    [|discriminate].
  destruct Hcl as (Hd & Hf & _).
  munfold. cbn in Hr. rewrite Hd in Hr.
  destruct (task_by_id task_id (db w)) as [task|]; cbn in Hr.
  - subst r. cbn. repeat split; [assumption|].
    intros u [= <-] s Hs. apply Hg. assumption.
  - destruct (bool_decide (photo_path ∈ files w1)) eqn:E; cbn in Hr.
    + rewrite E in Hr. subst r. cbn. repeat split.
      * intros x Hx. apply elem_of_difference in Hx. apply Hf. tauto.
      * intros u [= <-] s Hs. eapply gone_mono; [apply Hg; assumption|].
        intros x Hx. apply elem_of_difference in Hx. tauto.
    + subst r. cbn. repeat split; [assumption|].
      intros u [= <-] s Hs. apply Hg. assumption.
Qed.

Lemma get_user_db admin_id telegram_id w :
  db (snd (get_user admin_id telegram_id w))
  = add_user telegram_id (telegram_id =? admin_id) (db w).
Proof.
  unfold get_user, add_user. munfold. cbn.
  destruct (user_by_telegram_id telegram_id (db w)); reflexivity.
Qed.

Lemma cmd_start_db_correct admin_id girlfriend_id from_id w :
  db (snd (cmd_start admin_id girlfriend_id from_id w))
  = cmd_start_db admin_id girlfriend_id from_id (db w).
Proof.
  unfold cmd_start, cmd_start_db.
  destruct ((from_id =? admin_id) || (from_id =? girlfriend_id));
    [|reflexivity].
  pose proof (get_user_db admin_id from_id w) as Hg.
  unfold bind. destruct (get_user admin_id from_id w) as [[u|e] w1];
    cbn in *; assumption.
Qed.

Lemma main_init_db_correct admin_id girlfriend_id w :
  db (snd (main_init admin_id girlfriend_id w))
  = main_init_db admin_id girlfriend_id (db w).
Proof.
  unfold main_init, main_init_db, add_user. munfold. cbn.
  destruct (user_by_telegram_id admin_id (db w)); cbn;
    match goal with
    | |- context [user_by_telegram_id girlfriend_id ?d] =>
        destruct (user_by_telegram_id girlfriend_id d)
    end; cbn; destruct (girlfriend_id =? 0); reflexivity.
Qed.

Lemma quest_required_db_correct from_id title description image reward
    required now w :
  db (snd (quest_required from_id title description image reward required
             now w))
  = quest_required_db from_id title description image reward required now
      (db w).
Proof.
  unfold quest_required, quest_required_db, download_photo. munfold.
  destruct image as [img|]; cbn;
    destruct (user_by_telegram_id from_id (db w));
    reflexivity.
Qed.

Lemma task_date_db_correct quest_id title description image points
    date_text w :
  db (snd (task_date quest_id title description image points date_text w))
  = task_date_db quest_id title description image points date_text (db w).
Proof.
  unfold task_date, task_date_db, date_accepted, download_photo. munfold.
  destruct image as [img|]; cbn; destruct date_text as [txt|]; cbn;
    try destruct (validate_date txt); reflexivity.
Qed.

Lemma edit_task_field_db_correct task_id e w :
  db (snd (edit_task_field task_id e w)) = edit_task_field_db task_id e (db w).
Proof.
  unfold edit_task_field, edit_task_field_db, edit_accepted, date_accepted.
  munfold. cbn. destruct (task_by_id task_id (db w)); [|reflexivity].
  destruct e as [| | |[txt|]]; cbn; try destruct (validate_date txt);
    reflexivity.
Qed.

Lemma do_task_reads girlfriend_id task_id w :
  db (snd (do_task girlfriend_id task_id w)) = db w.
Proof.
  unfold do_task. munfold. cbn.
  destruct (user_by_telegram_id girlfriend_id (db w)); cbn; [|reflexivity].
  destruct (first _); cbn; [reflexivity|].
  destruct (task_by_id task_id (db w)); reflexivity.
Qed.

Lemma try_except_log_db (m : M unit) w :
  db (snd (try_except m (fun _ => emit LogError ;; send GenericErrorMsg) w))
  = db (snd (m w)).
Proof. munfold. destruct (m w) as [[a|e] w1]; reflexivity. Qed.

Lemma handle_callback_db_correct admin_id girlfriend_id user_id c now today w :
  db (snd (handle_callback admin_id girlfriend_id user_id c now today w))
  = callback_db admin_id user_id c now (db w).
Proof.
  unfold handle_callback, callback_db. rewrite try_except_log_db.
  destruct (user_id =? admin_id).
  - destruct c; try reflexivity.
    + apply approve_effect.
    + apply reject_db_correct.
    + apply confirm_delete_quest_db_correct.
    + apply confirm_delete_task_db_correct.
  - destruct (user_id =? girlfriend_id); [|reflexivity].
    destruct c; try reflexivity.
    + apply do_task_reads.
    + pose proof (show_current_quest_reads girlfriend_id today w) as Hr.
      unfold bind. destruct (show_current_quest girlfriend_id today w)
        as [[v|e] w1]; cbn in *; subst; reflexivity.
Qed.

Lemma submit_report_db_correct girlfriend_id task_id dest comment now w :
  db (snd (submit_report girlfriend_id task_id dest comment now w))
  = submit_db girlfriend_id task_id dest comment now (db w).
Proof.
  unfold submit_report, bind, download_photo.
  match goal with
  | |- context [process_complete_submission ?g ?t ?p ?c ?n ?w0] =>
      pose proof (process_complete_submission_effect g t p c n w0) as [Hd _];
      destruct (process_complete_submission g t p c n w0) as [r w1]
  end.
  cbn in *. assumption.
Qed.

(** The handlers compute [step_db]. *)
Theorem step_db_correct admin_id girlfriend_id o w :
  db (step admin_id girlfriend_id o w) = step_db admin_id girlfriend_id o (db w).
Proof.
  unfold step. destruct o; cbn [handler step_db].
  - apply main_init_db_correct.
  - apply cmd_start_db_correct.
  - apply handle_callback_db_correct.
  - apply submit_report_db_correct.
  - apply quest_required_db_correct.
  - apply task_date_db_correct.
  - apply edit_task_field_db_correct.
Qed.

Lemma run_db_correct admin_id girlfriend_id ops w :
  db (run admin_id girlfriend_id ops w)
  = fold_left (fun d o => step_db admin_id girlfriend_id o d) ops (db w).
Proof.
  unfold run. revert w.
  induction ops as [|o ops IH]; intros w; cbn; [reflexivity|].
  rewrite IH, step_db_correct. reflexivity.
Qed.

(** ** Counting under the three kinds of write *)

Lemma filter_length_le {A} (p : A -> bool) l :
  (length (filter_by p l) <= length l)%nat.
Proof.
  induction l as [|a l IH]; cbn; [lia|]. destruct (p a); cbn; lia.
Qed.

(** Deleting rows cannot add matches. *)
Lemma filter_delete_length {A} (p q : A -> bool) l :
  (length (filter_by p (filter_by q l)) <= length (filter_by p l))%nat.
Proof.
  induction l as [|a l IH]; cbn; [lia|].
  destruct (q a), (p a) eqn:E; cbn; rewrite ?E; cbn; lia.
Qed.

(** Updating rows cannot add matches when no update creates one. *)
Lemma filter_update_length {A} (p : A -> bool) (f : A -> A) l :
  (forall x, p (f x) = true -> p x = true) ->
  (length (filter_by p (map f l)) <= length (filter_by p l))%nat.
Proof.
  intros Hf. induction l as [|a l IH]; cbn; [lia|].
  destruct (p (f a)) eqn:E.
  - rewrite (Hf a E). cbn. lia.
  - destruct (p a); cbn; lia.
Qed.

Lemma fold_max_upper rest i x :
  In x (i :: rest) -> x <= fold_right Z.max i rest.
Proof.
  induction rest as [|j rest IH]; cbn.
  - intros [->|[]]. lia.
  - intros [->|[->|Hin]].
    + specialize (IH (or_introl eq_refl)). lia.
    + lia.
    + specialize (IH (or_intror Hin)). lia.
Qed.

Lemma next_id_fresh ids x : In x ids -> x < next_id ids.
Proof.
  destruct ids as [|i rest]; [intros []|]. intros Hin.
  apply fold_max_upper in Hin. unfold next_id. lia.
Qed.

(** ** At most one completion per quest and user *)

Lemma approve_db_completions sub_id now d :
  quest_completions (approve_db sub_id now d) = quest_completions d
  \/ exists sub quest,
       submission_by_id sub_id d = Some sub
       /\ completion_due sub (mark_approved sub now d) = Some quest
       /\ completions_of (Quest.id quest) (Submission.user_id sub) d = []
       /\ quest_completions (approve_db sub_id now d)
          = quest_completions d
            ++ [new_completion quest sub now (mark_approved sub now d)].
Proof.
  unfold approve_db. destruct (submission_by_id sub_id d) as [sub|]; [|auto].
  cbn. destruct (completion_due sub _) as [quest|] eqn:Hdue; [|auto].
  right. exists sub, quest.
  split; [reflexivity|]. split; [exact Hdue|]. split; [|reflexivity].
  unfold completion_due in Hdue.
  destruct (task_by_id _ _); [|discriminate].
  destruct (quest_by_id _ _) as [q|]; [|discriminate].
  destruct (_ <=? _); [|discriminate].
  destruct (first _) eqn:Hf; [discriminate|].
  injection Hdue as <-. apply first_None in Hf. exact Hf.
Qed.

Lemma approve_db_completions_unique sub_id now d :
  completions_unique d -> completions_unique (approve_db sub_id now d).
Proof.
  intros Hu q u. unfold completions_of.
  destruct (approve_db_completions sub_id now d)
    as [->|(sub & quest & _ & _ & Hnone & ->)]; [apply Hu|].
  rewrite List.filter_app, List.length_app. cbn.
  destruct (completion_for q u _) eqn:E; cbn.
  - unfold completion_for, new_completion in E. cbn in E.
    apply andb_true_iff in E. destruct E as [E1 E2].
    apply Z.eqb_eq in E1, E2. subst q u.
    unfold completions_of in Hnone. rewrite Hnone. cbn. lia.
  - specialize (Hu q u). unfold completions_of in Hu. lia.
Qed.

Lemma delete_quest_completions_unique quest_id d :
  completions_unique d -> completions_unique (delete_quest quest_id d).
Proof.
  intros Hu q u. specialize (Hu q u). unfold completions_of in *. cbn.
  unfold update_rows. etransitivity; [apply filter_update_length|exact Hu].
  intros c. destruct (mem _ _); [|auto]. cbn. discriminate.
Qed.

Lemma step_db_completions_unique admin_id girlfriend_id o d :
  completions_unique d -> completions_unique (step_db admin_id girlfriend_id o d).
Proof.
  intros Hu. destruct o; cbn.
  - unfold main_init_db, add_user.
    destruct (user_by_telegram_id admin_id d); cbn;
      destruct (negb _); try assumption;
      match goal with
      | |- context [user_by_telegram_id girlfriend_id ?x] =>
          destruct (user_by_telegram_id girlfriend_id x)
      end; assumption.
  - unfold cmd_start_db, add_user. destruct (_ || _); [|assumption].
    destruct (user_by_telegram_id _ _); assumption.
  - unfold callback_db. destruct (_ =? _); [|assumption].
    destruct c; try assumption.
    + apply approve_db_completions_unique. assumption.
    + unfold reject_db. destruct (submission_by_id _ _); [|assumption].
      destruct (task_by_id _ _); assumption.
    + unfold confirm_delete_quest_db. destruct (quest_by_id _ _); [|assumption].
      apply delete_quest_completions_unique. assumption.
    + unfold confirm_delete_task_db. destruct (task_by_id _ _); assumption.
  - unfold submit_db. destruct (user_by_telegram_id _ _); assumption.
  - unfold quest_required_db. destruct (user_by_telegram_id _ _); assumption.
  - unfold task_date_db. destruct (date_accepted _); assumption.
  - unfold edit_task_field_db. destruct (task_by_id _ _); [|assumption].
    destruct (edit_accepted _); assumption.
Qed.

(** C2.  From any database with at most one completion row per (quest,
    user), every sequence of operations of the bot (approvals repeated at
    will, the same submission id included) leads to a database with at
    most one completion row per pair.  The approval branch is a
    check-then-insert: it leaves the completion table as it is, or appends
    one row for a pair that had none. *)
Theorem completion_recorded_at_most_once (admin_id girlfriend_id : Z)
    (w : world) :
  completions_unique (db w) ->
  (forall ops, completions_unique (db (run admin_id girlfriend_id ops w)))
  /\ (forall sub_id now today,
        let d' := db (snd (approve girlfriend_id sub_id now today w)) in
        quest_completions d' = quest_completions (db w)
        \/ exists c quest_id,
             quest_completions d' = quest_completions (db w) ++ [c]
             /\ QuestCompletion.quest_id c = Some quest_id
             /\ completions_of quest_id (QuestCompletion.user_id c) (db w) = []).
Proof.
  intros Hu. split.
  - intros ops. rewrite run_db_correct. revert Hu. generalize (db w).
    induction ops as [|o ops IH]; intros d Hd; cbn; [assumption|].
    apply IH, step_db_completions_unique, Hd.
  - intros sub_id now today d'. subst d'.
    destruct (approve_effect girlfriend_id sub_id now today w) as [-> _].
    destruct (approve_db_completions sub_id now (db w))
      as [->|(sub & quest & _ & _ & Hnone & ->)]; [auto|].
    right. eexists. exists (Quest.id quest).
    split; [reflexivity|]. split; [reflexivity | exact Hnone].
Qed.

(** ** At most one pending submission per task and user *)

Lemma delete_rows_pending_unique ids d :
  pending_unique d ->
  pending_unique (set_submissions (delete_rows Submission.id ids) d).
Proof.
  intros Hu t u. specialize (Hu t u). unfold pending_of in *. cbn.
  unfold delete_rows. etransitivity; [apply filter_delete_length | exact Hu].
Qed.

Lemma mark_approved_pending_unique sub now d :
  pending_unique d -> pending_unique (mark_approved sub now d).
Proof.
  intros Hu t u. specialize (Hu t u). unfold pending_of in *. cbn.
  unfold update_rows. etransitivity; [apply filter_update_length | exact Hu].
  intros s. destruct (mem _ _); [|auto]. cbn.
  rewrite andb_false_r. discriminate.
Qed.

Lemma approve_db_pending_unique sub_id now d :
  pending_unique d -> pending_unique (approve_db sub_id now d).
Proof.
  intros Hu. unfold approve_db.
  destruct (submission_by_id sub_id d) as [sub|]; [|assumption].
  cbn. pose proof (mark_approved_pending_unique sub now d Hu) as Hm.
  destruct (completion_due _ _) as [quest|]; [|assumption].
  intros tid uid. apply (Hm tid uid).
Qed.

Lemma delete_quest_pending_unique quest_id d :
  pending_unique d -> pending_unique (delete_quest quest_id d).
Proof.
  intros Hu t u. specialize (Hu t u). unfold pending_of in *. cbn.
  unfold delete_rows. etransitivity; [apply filter_delete_length | exact Hu].
Qed.

Lemma delete_task_pending_unique task_id d :
  pending_unique d -> pending_unique (delete_task task_id d).
Proof.
  intros Hu t u. specialize (Hu t u). unfold pending_of in *. cbn.
  unfold delete_rows. etransitivity; [apply filter_delete_length | exact Hu].
Qed.

(** After the supersession no pending row of the pair is left but the new
    one. *)
Lemma superseded_none task_id user_id d :
  filter_by (is_pending_of task_id user_id)
    (delete_rows Submission.id
       (map Submission.id (pending_of task_id user_id d)) (submissions d))
  = [].
Proof.
  apply filter_nil_iff. intros s Hs. unfold delete_rows in Hs.
  apply filter_In in Hs. destruct Hs as [Hin Hm].
  apply negb_true_iff in Hm.
  destruct (is_pending_of task_id user_id s) eqn:E; [|reflexivity].
  exfalso. apply not_true_iff_false in Hm. apply Hm, mem_In, in_map.
  unfold pending_of. apply filter_In. split; assumption.
Qed.

Lemma submit_db_pending girlfriend_id task_id photo_path comment now d user :
  user_by_telegram_id girlfriend_id d = Some user ->
  pending_of task_id (User.id user)
    (submit_db girlfriend_id task_id photo_path comment now d)
  = [new_submission task_id (User.id user) photo_path comment now d].
Proof.
  intros Hu. unfold submit_db. rewrite Hu. unfold pending_of at 1. cbn.
  rewrite List.filter_app.
  change (fun s : Submission.t =>
            (Submission.task_id s =? task_id)
            && (Submission.user_id s =? User.id user)
            && negb (Submission.is_approved s))
    with (is_pending_of task_id (User.id user)).
  rewrite superseded_none. unfold is_pending_of, new_submission.
  cbn -[Z.eqb next_id]. rewrite !Z.eqb_refl. reflexivity.
Qed.

Lemma submit_db_pending_unique girlfriend_id task_id photo_path comment now d :
  pending_unique d ->
  pending_unique (submit_db girlfriend_id task_id photo_path comment now d).
Proof.
  intros Hu t u.
  destruct (user_by_telegram_id girlfriend_id d) as [user|] eqn:Huser.
  2:{ unfold submit_db. rewrite Huser. apply Hu. }
  destruct ((t =? task_id) && (u =? User.id user)) eqn:E.
  - apply andb_true_iff in E. destruct E as [E1 E2].
    apply Z.eqb_eq in E1, E2. subst t u.
    rewrite (submit_db_pending _ _ _ _ _ _ _ Huser). cbn. lia.
  - unfold submit_db. rewrite Huser. unfold pending_of at 1. cbn.
    rewrite List.filter_app, List.length_app. cbn -[Z.eqb next_id].
    rewrite (Z.eqb_sym task_id t), (Z.eqb_sym (User.id user) u), E. cbn.
    rewrite Nat.add_0_r. specialize (Hu t u). unfold pending_of in Hu.
    unfold delete_rows. etransitivity; [apply filter_delete_length | exact Hu].
Qed.

Lemma step_db_pending_unique admin_id girlfriend_id o d :
  pending_unique d -> pending_unique (step_db admin_id girlfriend_id o d).
Proof.
  intros Hu. destruct o; cbn.
  - unfold main_init_db, add_user.
    destruct (user_by_telegram_id admin_id d); cbn;
      destruct (negb _); try assumption;
      match goal with
      | |- context [user_by_telegram_id girlfriend_id ?x] =>
          destruct (user_by_telegram_id girlfriend_id x)
      end; assumption.
  - unfold cmd_start_db, add_user. destruct (_ || _); [|assumption].
    destruct (user_by_telegram_id _ _); assumption.
  - unfold callback_db. destruct (_ =? _); [|assumption].
    destruct c; try assumption.
    + apply approve_db_pending_unique. assumption.
    + unfold reject_db. destruct (submission_by_id _ _); [|assumption].
      destruct (task_by_id _ _); [|assumption].
      apply delete_rows_pending_unique. assumption.
    + unfold confirm_delete_quest_db. destruct (quest_by_id _ _); [|assumption].
      apply delete_quest_pending_unique. assumption.
    + unfold confirm_delete_task_db. destruct (task_by_id _ _); [|assumption].
      apply delete_task_pending_unique. assumption.
  - apply submit_db_pending_unique. assumption.
  - unfold quest_required_db. destruct (user_by_telegram_id _ _); assumption.
  - unfold task_date_db. destruct (date_accepted _); assumption.
  - unfold edit_task_field_db. destruct (task_by_id _ _); [|assumption].
    destruct (edit_accepted _); assumption.
Qed.


(** ** The frame of an approval *)

Lemma map_ext_id {A} (f : A -> A) l :
  (forall x, In x l -> f x = x) -> map f l = l.
Proof.
  induction l as [|a l IH]; cbn; intros H; [reflexivity|].
  rewrite H by (left; reflexivity). rewrite IH; [reflexivity|].
  intros x Hx. apply H. right. assumption.
Qed.

Lemma submission_by_id_id sub_id d sub :
  submission_by_id sub_id d = Some sub -> Submission.id sub = sub_id.
Proof.
  intros H. apply first_filter_In in H. destruct H as [_ H].
  apply Z.eqb_eq. exact H.
Qed.

Lemma approve_db_submissions sub_id now d :
  submissions (approve_db sub_id now d)
  = map (fun s => if Submission.id s =? sub_id
                  then Submission.approve now s else s)
      (submissions d).
Proof.
  unfold approve_db. destruct (submission_by_id sub_id d) as [sub|] eqn:Hs.
  - apply submission_by_id_id in Hs.
    assert (Hsub : submissions (mark_approved sub now d)
                   = map (fun s => if Submission.id s =? sub_id
                                   then Submission.approve now s else s)
                       (submissions d)).
    { cbn. unfold update_rows. apply map_ext. intros s. cbn.
      rewrite Hs, orb_false_r. reflexivity. }
    cbn zeta. destruct (completion_due _ _); cbn; exact Hsub.
  - symmetry. apply map_ext_id. intros s Hin.
    unfold submission_by_id in Hs. apply first_None in Hs.
    rewrite (proj1 (filter_nil_iff _ _) Hs s Hin). reflexivity.
Qed.

Lemma approve_db_frame sub_id now d :
  users (approve_db sub_id now d) = users d
  /\ quests (approve_db sub_id now d) = quests d
  /\ tasks (approve_db sub_id now d) = tasks d.
Proof.
  unfold approve_db. destruct (submission_by_id sub_id d); [|auto].
  cbn. destruct (completion_due _ _); cbn; auto.
Qed.

(** C10.  An approval leaves the user, quest and task tables as they
    are; in the submission table it rewrites the rows with the approved id
    and only their [is_approved] and [approved_at] fields, every other row
    staying as it is, in place; it leaves the completion table as it is or
    appends one row to it; it leaves the stored files as they are. *)
Theorem approve_changes_only_the_submission (girlfriend_id sub_id now : Z)
    (today : string) (w : world) :
  let w' := snd (approve girlfriend_id sub_id now today w) in
  users (db w') = users (db w)
  /\ quests (db w') = quests (db w)
  /\ tasks (db w') = tasks (db w)
  /\ submissions (db w')
     = map (fun s =>
              if Submission.id s =? sub_id
              then Submission.mk (Submission.id s) (Submission.task_id s)
                     (Submission.user_id s) (Submission.photo_url s)
                     (Submission.comment s) (Submission.submitted_at s)
                     true (Some now)
              else s)
         (submissions (db w))
  /\ (quest_completions (db w') = quest_completions (db w)
      \/ exists c, quest_completions (db w') = quest_completions (db w) ++ [c])
  /\ files w' = files w.
Proof.
  intros w'. subst w'.
  destruct (approve_effect girlfriend_id sub_id now today w) as [-> ->].
  destruct (approve_db_frame sub_id now (db w)) as (-> & -> & ->).
  rewrite approve_db_submissions.
  repeat (split; [reflexivity|]). split; [|reflexivity].
  destruct (approve_db_completions sub_id now (db w))
    as [->|(sub & quest & _ & _ & _ & ->)]; [left; reflexivity|].
  right. eexists. reflexivity.
Qed.

(** ** Progress under writes *)


Lemma flat_map_delete_length {A B} (g : A -> list B) (keep : A -> bool) l :
  (forall x, In x l -> keep x = false -> g x = []) ->
  length (flat_map g (filter_by keep l)) = length (flat_map g l).
Proof.
  induction l as [|a l IH]; cbn; intros H; [reflexivity|].
  assert (IH' : length (flat_map g (filter_by keep l))
                = length (flat_map g l)).
  { apply IH. intros x Hx. apply H. right. assumption. }
  destruct (keep a) eqn:E; cbn; rewrite !List.length_app.
  - lia.
  - rewrite (H a (or_introl eq_refl) E). cbn. lia.
Qed.

Lemma filter_imp_length {A} (p p' : A -> bool) l :
  (forall x, p x = true -> p' x = true) ->
  (length (filter_by p l) <= length (filter_by p' l))%nat.
Proof.
  intros H. induction l as [|a l IH]; cbn; [lia|].
  destruct (p a) eqn:E.
  - rewrite (H a E). cbn. lia.
  - destruct (p' a); cbn; lia.
Qed.

Lemma joined_tasks_unapproved q u ts s :
  Submission.is_approved s = false -> joined_tasks q u ts s = [].
Proof.
  intros H. unfold joined_tasks. apply filter_nil_iff. intros t _.
  rewrite H. apply andb_false_r.
Qed.

(** The row a primary key names is the only row with that key. *)
Lemma same_key_same_row {A} (key : A -> Z) (l : list A) (x y : A) :
  List.NoDup (map key l) -> In x l -> In y l -> key x = key y -> x = y.
Proof.
  intros Hnd Hx Hy Hk.
  pose proof (first_by_key key l x Hnd Hx) as H1.
  pose proof (first_by_key key l y Hnd Hy) as H2.
  rewrite Hk in H1. congruence.
Qed.

Lemma progress_delete_unapproved q u ids d :
  List.NoDup (map Submission.id (submissions d)) ->
  (forall s, In s (submissions d) -> In (Submission.id s) ids ->
             Submission.is_approved s = false) ->
  quest_progress q u (set_submissions (delete_rows Submission.id ids) d)
  = quest_progress q u d.
Proof.
  intros Hnd Hp. unfold quest_progress, count. cbn. f_equal.
  unfold delete_rows. apply flat_map_delete_length.
  intros s Hin Hk. apply negb_false_iff, mem_In in Hk.
  apply joined_tasks_unapproved. apply Hp; assumption.
Qed.

(** ** Rejecting a submission *)

Lemma remove_if_exists_files url h w :
  files (snd (remove_if_exists url h w)) = files w ∖ artifact url
  /\ trace (snd (remove_if_exists url h w)) = trace w ++ removal url (files w)
  /\ db (snd (remove_if_exists url h w)) = db w.
Proof.
  rewrite remove_if_exists_run. unfold artifact, removal. cbn.
  destruct url as [p|]; cbn.
  - destruct (Py.truthy p); cbn.
    + destruct (bool_decide (p ∈ files w)) eqn:E; cbn.
      * auto.
      * apply bool_decide_eq_false in E. rewrite app_nil_r.
        repeat split. symmetry. apply difference_disjoint_L.
        apply disjoint_singleton_r. exact E.
    + rewrite app_nil_r, difference_empty_L. auto.
  - rewrite app_nil_r, difference_empty_L. auto.
Qed.

Lemma delete_one_row (l : list Submission.t) (sub : Submission.t) :
  List.NoDup (map Submission.id l) -> In sub l ->
  forall s, In s (delete_rows Submission.id [Submission.id sub] l)
            <-> In s l /\ s <> sub.
Proof.
  intros Hnd Hsub s. unfold delete_rows. rewrite filter_In. cbn.
  rewrite orb_false_r, negb_true_iff, Z.eqb_neq. split.
  - intros [Hin Hne]. split; [assumption|]. intros ->. apply Hne. reflexivity.
  - intros [Hin Hne]. split; [assumption|]. intros Hk. apply Hne.
    apply (same_key_same_row Submission.id l); assumption.
Qed.

(** C5 (amended).  In a database whose submission ids are unique,
    rejecting an existing submission whose task row exists never raises;
    it deletes that row and no other, takes the row's photo out of storage
    and no other file, removes the file before it deletes the row, and
    leaves the user, quest, task and completion tables as they are.  When
    the rejected submission is unapproved, every per-quest approved count
    is unchanged as well. *)
Theorem reject_deletes_row_and_artifact (sub_id : Z) (sub : Submission.t)
    (task : Task.t) (w : world) :
  submission_by_id sub_id (db w) = Some sub ->
  task_by_id (Submission.task_id sub) (db w) = Some task ->
  List.NoDup (map Submission.id (submissions (db w))) ->
  let r := reject sub_id w in
  let w' := snd r in
  fst r = Ok tt
  /\ (forall s, In s (submissions (db w'))
                <-> In s (submissions (db w)) /\ s <> sub)
  /\ files w' = files w ∖ artifact (Submission.photo_url sub)
  /\ trace w'
     = trace w ++ removal (Submission.photo_url sub) (files w)
       ++ [Sql DELETE Submissions sub_id;
           Send (RejectedMsg (Task.title task)); Send RejectedAck]
  /\ users (db w') = users (db w)
  /\ quests (db w') = quests (db w)
  /\ tasks (db w') = tasks (db w)
  /\ quest_completions (db w') = quest_completions (db w)
  /\ (Submission.is_approved sub = false ->
      forall quest_id user_id,
        quest_progress quest_id user_id (db w')
        = quest_progress quest_id user_id (db w)).
Proof.
  intros Hsub Htask Hnd r w'. subst r w'.
  pose proof (submission_by_id_id _ _ _ Hsub) as Hid.
  pose proof (first_filter_In _ _ _ Hsub) as [Hin _].
  rewrite reject_run, Hsub, Htask.
  destruct (remove_if_exists_files (Submission.photo_url sub) pass w)
    as (Hf & Ht & _).
  cbn -[remove_if_exists delete_rows]. rewrite Hf, Ht, Hid.
  split; [reflexivity|].
  split; [rewrite <- Hid; apply delete_one_row; assumption|].
  split; [reflexivity|].
  split; [rewrite <- app_assoc; reflexivity|].
  repeat (split; [reflexivity|]).
  intros Hpending q u. rewrite <- Hid.
  apply progress_delete_unapproved; [assumption|].
  intros s Hs [Hk|[]].
  rewrite (same_key_same_row Submission.id _ s sub Hnd Hs Hin);
    [assumption | congruence].
Qed.

(** ** Progress never decreases without a deletion *)


Lemma filter_map_length_eq {A} (p : A -> bool) (f : A -> A) l :
  (forall x, p (f x) = p x) ->
  length (filter_by p (map f l)) = length (filter_by p l).
Proof.
  intros H. induction l as [|a l IH]; cbn; [reflexivity|].
  rewrite H. destruct (p a); cbn; rewrite IH; reflexivity.
Qed.













(** ** Primary keys stay unique and ordered *)

Lemma increasing_cons i rest :
  increasing (i :: rest) = true
  <-> (forall j, In j rest -> i < j) /\ increasing rest = true.
Proof.
  cbn. rewrite andb_true_iff, forallb_forall. split.
  - intros [H1 H2]. split; [|assumption]. intros j Hj. apply Z.ltb_lt. auto.
  - intros [H1 H2]. split; [|assumption]. intros j Hj. apply Z.ltb_lt. auto.
Qed.

Lemma increasing_NoDup ids : increasing ids = true -> List.NoDup ids.
Proof.
  induction ids as [|i rest IH]; intros H; [constructor|].
  apply increasing_cons in H. destruct H as [Hlt Hrest].
  constructor; [|auto]. intros Hin. specialize (Hlt i Hin). lia.
Qed.

Lemma increasing_app ids y :
  increasing ids = true -> (forall x, In x ids -> x < y) ->
  increasing (ids ++ [y]) = true.
Proof.
  induction ids as [|i rest IH]; intros H Hy; [reflexivity|].
  apply increasing_cons in H. destruct H as [Hlt Hrest].
  change ((i :: rest) ++ [y]) with (i :: (rest ++ [y])).
  apply increasing_cons. split.
  - intros j Hj. apply in_app_or in Hj. destruct Hj as [Hj|[<-|[]]].
    + auto.
    + apply Hy. left. reflexivity.
  - apply IH; [assumption|]. intros x Hx. apply Hy. right. assumption.
Qed.

Lemma increasing_insert {A} (key : A -> Z) (l : list A) (x : A) :
  key x = next_id (map key l) ->
  increasing (map key l) = true -> increasing (map key (l ++ [x])) = true.
Proof.
  intros Hk H. rewrite map_app. cbn. apply increasing_app; [assumption|].
  intros i Hi. rewrite Hk. apply next_id_fresh. assumption.
Qed.

Lemma increasing_delete {A} (key : A -> Z) (p : A -> bool) (l : list A) :
  increasing (map key l) = true ->
  increasing (map key (filter_by p l)) = true.
Proof.
  induction l as [|a l IH]; intros H; [reflexivity|].
  cbn in H. change (increasing (key a :: map key l) = true) in H.
  apply increasing_cons in H. destruct H as [Hlt Hrest]. cbn.
  destruct (p a); [|auto].
  cbn [map]. apply increasing_cons. split; [|auto].
  intros j Hj. apply Hlt. apply in_map_iff in Hj.
  destruct Hj as (x & <- & Hx). apply filter_In in Hx.
  apply in_map. apply Hx.
Qed.

Lemma increasing_update {A} (key : A -> Z) (ids : list Z) (f : A -> A)
    (l : list A) :
  (forall x, key (f x) = key x) ->
  increasing (map key l) = true ->
  increasing (map key (update_rows key ids f l)) = true.
Proof.
  intros Hf H. unfold update_rows. rewrite map_map.
  erewrite map_ext; [exact H|]. intros x. cbn.
  destruct (mem _ _); [apply Hf | reflexivity].
Qed.

(** In a table in rowid order, [first()] returns the matching row of
    lowest id. *)
Lemma first_is_lowest {A} (key : A -> Z) (p : A -> bool) (l : list A) x :
  increasing (map key l) = true ->
  first (filter_by p l) = Some x ->
  forall y, In y l -> p y = true -> key x <= key y.
Proof.
  induction l as [|a l IH]; intros H Hf y Hy Hp; [destruct Hy|].
  cbn in H. change (increasing (key a :: map key l) = true) in H.
  apply increasing_cons in H. destruct H as [Hlt Hrest].
  cbn in Hf. destruct (p a) eqn:E.
  - injection Hf as <-. destruct Hy as [->|Hy]; [lia|].
    specialize (Hlt (key y) (in_map key _ _ Hy)). lia.
  - destruct Hy as [->|Hy]; [congruence|]. eapply IH; eauto.
Qed.

Lemma primary_keys_iff d :
  primary_keys d = true
  <-> increasing (map User.id (users d)) = true
      /\ increasing (map Quest.id (quests d)) = true
      /\ increasing (map Task.id (tasks d)) = true
      /\ increasing (map Submission.id (submissions d)) = true
      /\ increasing (map QuestCompletion.id (quest_completions d)) = true.
Proof. unfold primary_keys. rewrite !andb_true_iff. tauto. Qed.

Lemma add_user_primary_keys telegram_id admin d :
  primary_keys d = true -> primary_keys (add_user telegram_id admin d) = true.
Proof.
  intros H. unfold add_user.
  destruct (user_by_telegram_id telegram_id d); [assumption|].
  apply primary_keys_iff in H. destruct H as (Hu & Hq & Ht & Hs & Hc).
  apply primary_keys_iff. cbn -[next_id]. repeat split; try assumption.
  apply increasing_insert; [reflexivity | assumption].
Qed.

Lemma approve_db_primary_keys sub_id now d :
  primary_keys d = true -> primary_keys (approve_db sub_id now d) = true.
Proof.
  intros H. unfold approve_db.
  destruct (submission_by_id sub_id d) as [sub|]; [|assumption].
  apply primary_keys_iff in H. destruct H as (Hu & Hq & Ht & Hs & Hc).
  assert (Hs' : increasing
                  (map Submission.id (submissions (mark_approved sub now d)))
                = true).
  { cbn. apply increasing_update; [reflexivity | assumption]. }
  cbn zeta. destruct (completion_due _ _) as [quest|];
    apply primary_keys_iff; cbn -[next_id mark_approved];
    repeat split; try assumption.
  apply increasing_insert; [reflexivity | assumption].
Qed.

Lemma delete_quest_primary_keys quest_id d :
  primary_keys d = true -> primary_keys (delete_quest quest_id d) = true.
Proof.
  intros H. apply primary_keys_iff in H.
  destruct H as (Hu & Hq & Ht & Hs & Hc).
  apply primary_keys_iff. cbn. unfold delete_rows.
  repeat split; try assumption; try (apply increasing_delete; assumption).
  apply increasing_update; [reflexivity | assumption].
Qed.

Lemma delete_task_primary_keys task_id d :
  primary_keys d = true -> primary_keys (delete_task task_id d) = true.
Proof.
  intros H. apply primary_keys_iff in H.
  destruct H as (Hu & Hq & Ht & Hs & Hc).
  apply primary_keys_iff. cbn. unfold delete_rows.
  repeat split; try assumption; apply increasing_delete; assumption.
Qed.

Lemma submit_db_primary_keys girlfriend_id task_id photo_path comment now d :
  primary_keys d = true ->
  primary_keys (submit_db girlfriend_id task_id photo_path comment now d)
  = true.
Proof.
  intros H. unfold submit_db.
  destruct (user_by_telegram_id girlfriend_id d) as [user|]; [|assumption].
  apply primary_keys_iff in H. destruct H as (Hu & Hq & Ht & Hs & Hc).
  apply primary_keys_iff. cbn -[next_id]. repeat split; try assumption.
  rewrite map_app. cbn -[next_id]. apply increasing_app.
  - unfold delete_rows. apply increasing_delete. assumption.
  - intros x Hx. apply next_id_fresh. apply in_map_iff in Hx.
    destruct Hx as (s & <- & Hs'). unfold delete_rows in Hs'.
    apply filter_In in Hs'. apply in_map, Hs'.
Qed.

Lemma step_db_primary_keys admin_id girlfriend_id o d :
  primary_keys d = true ->
  primary_keys (step_db admin_id girlfriend_id o d) = true.
Proof.
  intros H. destruct o; cbn -[next_id].
  - unfold main_init_db. destruct (negb _);
      repeat apply add_user_primary_keys; assumption.
  - unfold cmd_start_db. destruct (_ || _);
      [apply add_user_primary_keys|]; assumption.
  - unfold callback_db. destruct (_ =? _); [|assumption].
    destruct c; try assumption.
    + apply approve_db_primary_keys. assumption.
    + unfold reject_db. destruct (submission_by_id _ _); [|assumption].
      destruct (task_by_id _ _); [|assumption].
      apply primary_keys_iff in H. destruct H as (Hu & Hq & Ht & Hs & Hc).
      apply primary_keys_iff. cbn. unfold delete_rows.
      repeat split; try assumption. apply increasing_delete. assumption.
    + unfold confirm_delete_quest_db. destruct (quest_by_id _ _); [|assumption].
      apply delete_quest_primary_keys. assumption.
    + unfold confirm_delete_task_db. destruct (task_by_id _ _); [|assumption].
      apply delete_task_primary_keys. assumption.
  - apply submit_db_primary_keys. assumption.
  - unfold quest_required_db.
    destruct (user_by_telegram_id _ _); [|assumption].
    apply primary_keys_iff in H. destruct H as (Hu & Hq & Ht & Hs & Hc).
    apply primary_keys_iff. cbn -[next_id]. repeat split; try assumption.
    apply increasing_insert; [reflexivity | assumption].
  - unfold task_date_db. destruct (date_accepted _); [|assumption].
    apply primary_keys_iff in H. destruct H as (Hu & Hq & Ht & Hs & Hc).
    apply primary_keys_iff. cbn -[next_id]. repeat split; try assumption.
    apply increasing_insert; [reflexivity | assumption].
  - unfold edit_task_field_db. destruct (task_by_id _ _); [|assumption].
    destruct (edit_accepted _); [|assumption].
    apply primary_keys_iff in H. destruct H as (Hu & Hq & Ht & Hs & Hc).
    apply primary_keys_iff. cbn. repeat split; try assumption.
    apply increasing_update; [|assumption].
    intros x. destruct e; reflexivity.
Qed.

(** Every state the bot reaches from the empty database has its tables in
    rowid order, with unique primary keys. *)
Theorem reachable_primary_keys admin_id girlfriend_id ops :
  let d := db (run admin_id girlfriend_id ops initial_world) in
  primary_keys d = true
  /\ List.NoDup (map Task.id (tasks d))
  /\ List.NoDup (map Submission.id (submissions d)).
Proof.
  intros d.
  assert (H : primary_keys d = true).
  { subst d. rewrite run_db_correct.
    assert (H0 : primary_keys (db initial_world) = true) by reflexivity.
    revert H0. generalize (db initial_world).
    induction ops as [|o ops IH]; intros d0 H0; cbn; [assumption|].
    apply IH, step_db_primary_keys, H0. }
  split; [assumption|].
  apply primary_keys_iff in H. destruct H as (_ & _ & Ht & Hs & _).
  split; apply increasing_NoDup; assumption.
Qed.

(** ** The active-quest view *)

Lemma existsb_map {A B} (f : A -> B) (p : B -> bool) l :
  existsb p (map f l) = existsb (fun x => p (f x)) l.
Proof.
  induction l as [|a l IH]; cbn; [reflexivity|]. rewrite IH. reflexivity.
Qed.

Lemma existsb_filter {A} (p q : A -> bool) l :
  existsb p (filter_by q l) = existsb (fun x => q x && p x) l.
Proof.
  induction l as [|a l IH]; cbn; [reflexivity|].
  destruct (q a); cbn; rewrite IH; reflexivity.
Qed.

Lemma existsb_ext {A} (p q : A -> bool) l :
  (forall x, p x = q x) -> existsb p l = existsb q l.
Proof.
  intros H. induction l as [|a l IH]; cbn; [reflexivity|].
  rewrite H, IH. reflexivity.
Qed.

Lemma existsb_false {A} (p : A -> bool) l :
  (forall x, In x l -> p x = false) -> existsb p l = false.
Proof.
  intros H. apply not_true_iff_false. rewrite existsb_exists.
  intros (x & Hx & Hp). rewrite (H x Hx) in Hp. discriminate.
Qed.

(** Without orphaned completion rows, the WHERE clause of the selection
    keeps exactly the eligible quests. *)
Lemma selection_filter user_id d q :
  no_orphan_completion user_id d = true ->
  let ids :=
    map QuestCompletion.quest_id
      (filter_by (fun cq => QuestCompletion.user_id cq =? user_id)
         (quest_completions d)) in
  Quest.is_active q && sql_where (sql_not_in (Quest.id q) ids)
  = eligible user_id d q.
Proof.
  intros Hno ids. unfold eligible, sql_not_in. f_equal.
  assert (E1 : existsb (fun i => opt_eqb i (Quest.id q)) ids
               = existsb (completion_for (Quest.id q) user_id)
                   (quest_completions d)).
  { subst ids. rewrite existsb_map, existsb_filter.
    apply existsb_ext. intros c. unfold completion_for. apply andb_comm. }
  assert (E2 : existsb (fun i : option Z =>
                          match i with None => true | Some _ => false end)
                 ids = false).
  { subst ids. rewrite existsb_map, existsb_filter. apply existsb_false.
    intros c Hc. unfold no_orphan_completion in Hno.
    rewrite forallb_forall in Hno. specialize (Hno c Hc).
    destruct (QuestCompletion.user_id c =? user_id); cbn in *; [|reflexivity].
    destruct (QuestCompletion.quest_id c); [reflexivity | discriminate]. }
  rewrite E1, E2. clear E1 E2.
  destruct (existsb (completion_for (Quest.id q) user_id) _); reflexivity.
Qed.

Lemma eligible_without_completions user_id d q :
  filter_by (fun cq => QuestCompletion.user_id cq =? user_id)
    (quest_completions d) = [] ->
  eligible user_id d q = Quest.is_active q.
Proof.
  intros H. unfold eligible. rewrite existsb_false; [apply andb_true_r|].
  intros c Hc. unfold completion_for.
  rewrite (proj1 (filter_nil_iff _ _) H c Hc). apply andb_false_r.
Qed.

Lemma task_state_classify user_id d today t :
  task_state
    (map Submission.task_id
       (filter_by (fun s => (Submission.user_id s =? user_id)
                            && Submission.is_approved s)
          (submissions d)))
    (map Submission.task_id
       (filter_by (fun s => (Submission.user_id s =? user_id)
                            && negb (Submission.is_approved s))
          (submissions d)))
    today t
  = classify user_id d today t.
Proof.
  unfold task_state, classify, mem, has_approved, has_pending.
  rewrite !existsb_map, !existsb_filter.
  rewrite (existsb_ext
             (fun s => (Submission.user_id s =? user_id)
                       && Submission.is_approved s
                       && (Task.id t =? Submission.task_id s))
             (fun s => (Submission.user_id s =? user_id)
                       && Submission.is_approved s
                       && (Submission.task_id s =? Task.id t)))
    by (intros s; rewrite (Z.eqb_sym (Task.id t)); reflexivity).
  rewrite (existsb_ext
             (fun s => (Submission.user_id s =? user_id)
                       && negb (Submission.is_approved s)
                       && (Task.id t =? Submission.task_id s))
             (fun s => (Submission.user_id s =? user_id)
                       && negb (Submission.is_approved s)
                       && (Submission.task_id s =? Task.id t)))
    by (intros s; rewrite (Z.eqb_sym (Task.id t)); reflexivity).
  reflexivity.
Qed.

(** What [show_current_quest] shows when the participant's row exists and
    none of her completion rows is orphaned: the first eligible quest in
    storage order, every task of that quest in its classified state, and a
    button for exactly the available ones; or the end of the quests when
    none is eligible. *)
Theorem show_current_quest_view girlfriend_id today w user :
  user_by_telegram_id girlfriend_id (db w) = Some user ->
  no_orphan_completion (User.id user) (db w) = true ->
  let d := db w in
  let uid := User.id user in
  match fst (show_current_quest girlfriend_id today w) with
  | Ok AllQuestsCompleted =>
      forall q, In q (quests d) -> eligible uid d q = false
  | Ok (CurrentQuest v) =>
      first (filter_by (eligible uid d) (quests d)) = Some (view_quest v)
      /\ view_lines v
         = map (fun t => (t, classify uid d today t))
             (order_by_order (tasks_of_quest (Quest.id (view_quest v)) d))
      /\ view_buttons v
         = map (fun l => Task.id (fst l))
             (filter_by (fun l => is_available (snd l)) (view_lines v))
  | Raise e => e = ArithmeticError
  end.
Proof.
  intros Hu Hno d uid.
  assert (Hq : forall ids,
            ids = map QuestCompletion.quest_id
                    (filter_by (fun cq => QuestCompletion.user_id cq =? uid)
                       (quest_completions d)) ->
            match ids with
            | _ :: _ =>
                first (filter_by
                         (fun q => Quest.is_active q
                                   && sql_where (sql_not_in (Quest.id q) ids))
                         (quests d))
            | [] => first (filter_by Quest.is_active (quests d))
            end = first (filter_by (eligible uid d) (quests d))).
  { intros ids Hids. destruct ids as [|i ids'].
    - f_equal. apply filter_ext. intros q. symmetry.
      apply eligible_without_completions.
      symmetry in Hids. apply map_eq_nil in Hids. exact Hids.
    - f_equal. apply filter_ext. intros q. rewrite Hids.
      apply selection_filter. assumption. }
  assert (Hl : forall ts,
             map (fun t => (t, task_state
                     (map Submission.task_id
                        (filter_by (fun s => (Submission.user_id s =? uid)
                                             && Submission.is_approved s)
                           (submissions d)))
                     (map Submission.task_id
                        (filter_by (fun s => (Submission.user_id s =? uid)
                                             && negb (Submission.is_approved s))
                           (submissions d)))
                     today t)) ts
             = map (fun t => (t, classify uid d today t)) ts).
  { intros ts. apply map_ext. intros t. apply f_equal, task_state_classify. }
  subst d uid. unfold show_current_quest. munfold. cbn. rewrite Hu. cbn.
  rewrite (Hq _ eq_refl).
  destruct (first (filter_by (eligible (User.id user) (db w)) (quests (db w))))
    as [quest|] eqn:Hf; cbn.
  - destruct (0 <? Quest.required_completions quest); cbn.
    + destruct (Py.int_truediv _ _); cbn; [|reflexivity].
      destruct (Py.int_of_float _); cbn; [|reflexivity].
      rewrite Hl. repeat split.
    + rewrite Hl. repeat split.
  - intros q Hin. apply first_None in Hf.
    apply (proj1 (filter_nil_iff _ _) Hf q Hin).
Qed.

(** In rowid order the quest shown is the eligible quest of lowest id. *)
Corollary show_current_quest_lowest girlfriend_id today w user v :
  user_by_telegram_id girlfriend_id (db w) = Some user ->
  no_orphan_completion (User.id user) (db w) = true ->
  primary_keys (db w) = true ->
  fst (show_current_quest girlfriend_id today w) = Ok (CurrentQuest v) ->
  In (view_quest v) (quests (db w))
  /\ eligible (User.id user) (db w) (view_quest v) = true
  /\ forall q, In q (quests (db w)) ->
               eligible (User.id user) (db w) q = true ->
               Quest.id (view_quest v) <= Quest.id q.
Proof.
  intros Hu Hno Hk Hv.
  pose proof (show_current_quest_view girlfriend_id today w user Hu Hno) as H.
  cbn zeta in H. rewrite Hv in H. destruct H as (Hf & _).
  destruct (first_filter_In _ _ _ Hf) as [Hin He].
  split; [assumption|]. split; [assumption|].
  apply primary_keys_iff in Hk. destruct Hk as (_ & Hq & _).
  intros q Hq' He'.
  exact (first_is_lowest Quest.id _ _ _ Hq Hf q Hq' He').
Qed.

(** ** Zero-padded dates compare as dates *)

Lemma lex_assoc a b c : lex (lex a b) c = lex a (lex b c).
Proof. destruct a; reflexivity. Qed.

Lemma string_compare_cons c1 s1 c2 s2 :
  String.compare (String c1 s1) (String c2 s2)
  = lex (Ascii.compare c1 c2) (String.compare s1 s2).
Proof. cbn. destruct (Ascii.compare c1 c2); reflexivity. Qed.

Lemma digit_char_compare a b :
  Ascii.compare (digit_char a) (digit_char b) = (a mod 10 ?= b mod 10).
Proof.
  unfold digit_char.
  pose proof (Z.mod_pos_bound a 10 ltac:(lia)) as Ha.
  pose proof (Z.mod_pos_bound b 10 ltac:(lia)) as Hb.
  generalize dependent (a mod 10). generalize dependent (b mod 10).
  intros y Hy x Hx.
  assert (Ex : x = 0 \/ x = 1 \/ x = 2 \/ x = 3 \/ x = 4 \/ x = 5 \/ x = 6
               \/ x = 7 \/ x = 8 \/ x = 9) by lia.
  assert (Ey : y = 0 \/ y = 1 \/ y = 2 \/ y = 3 \/ y = 4 \/ y = 5 \/ y = 6
               \/ y = 7 \/ y = 8 \/ y = 9) by lia.
  repeat (destruct Ex as [->|Ex]); try subst x;
    repeat (destruct Ey as [->|Ey]); try subst y; reflexivity.
Qed.

Lemma four_digits_compare y y' :
  0 <= y < 10000 -> 0 <= y' < 10000 ->
  lex ((y / 1000) mod 10 ?= (y' / 1000) mod 10)
    (lex ((y / 100) mod 10 ?= (y' / 100) mod 10)
       (lex ((y / 10) mod 10 ?= (y' / 10) mod 10) (y mod 10 ?= y' mod 10)))
  = (y ?= y').
Proof.
  intros Hy Hy'. symmetry.
  destruct (Z.compare_spec ((y / 1000) mod 10) ((y' / 1000) mod 10));
    cbn [lex];
    [ destruct (Z.compare_spec ((y / 100) mod 10) ((y' / 100) mod 10));
      cbn [lex];
      [ destruct (Z.compare_spec ((y / 10) mod 10) ((y' / 10) mod 10));
        cbn [lex];
        [ destruct (Z.compare_spec (y mod 10) (y' mod 10)) | | ] | | ] | | ];
    first [ apply Z.compare_eq_iff | apply Z.compare_lt_iff
          | apply Z.compare_gt_iff ];
    Z.div_mod_to_equations; lia.
Qed.

Lemma two_digits_compare m m' :
  0 <= m < 100 -> 0 <= m' < 100 ->
  lex ((m / 10) mod 10 ?= (m' / 10) mod 10) (m mod 10 ?= m' mod 10)
  = (m ?= m').
Proof.
  intros Hm Hm'. symmetry.
  destruct (Z.compare_spec ((m / 10) mod 10) ((m' / 10) mod 10)); cbn [lex];
    [ destruct (Z.compare_spec (m mod 10) (m' mod 10)) | | ];
    first [ apply Z.compare_eq_iff | apply Z.compare_lt_iff
          | apply Z.compare_gt_iff ];
    Z.div_mod_to_equations; lia.
Qed.

Lemma isoformat_compare a b :
  in_iso_range a -> in_iso_range b ->
  String.compare (isoformat a) (isoformat b)
  = lex (fst (fst a) ?= fst (fst b))
      (lex (snd (fst a) ?= snd (fst b)) (snd a ?= snd b)).
Proof.
  destruct a as [[y m] d], b as [[y' m'] d'].
  intros (Hy & Hm & Hd) (Hy' & Hm' & Hd'). unfold isoformat.
  rewrite !string_compare_cons, !digit_char_compare. cbn [String.compare fst snd].
  change (Ascii.compare "-" "-") with Eq. cbn [lex].
  rewrite <- (four_digits_compare y y' Hy Hy').
  rewrite <- (two_digits_compare m m' Hm Hm').
  rewrite <- (two_digits_compare d d' Hd Hd').
  rewrite !lex_assoc.
  destruct (_ ?= _); cbn [lex]; try reflexivity.
  destruct (_ ?= _); cbn [lex]; try reflexivity.
  destruct (_ ?= _); cbn [lex]; try reflexivity.
  destruct (_ ?= _); cbn [lex]; try reflexivity.
  destruct (_ ?= _); cbn [lex]; try reflexivity.
  destruct (_ ?= _); cbn [lex]; try reflexivity.
  destruct (_ ?= _); cbn [lex]; try reflexivity.
  destruct (_ ?= _); reflexivity.
Qed.

(** On zero-padded dates the handler's comparison of texts is the
    calendar order. *)
Theorem iso_text_order a b :
  in_iso_range a -> in_iso_range b ->
  Py.str_gt (isoformat a) (isoformat b) = date_lt b a.
Proof.
  intros Ha Hb. unfold Py.str_gt. rewrite isoformat_compare by assumption.
  destruct a as [[y m] d], b as [[y' m'] d']. cbn [fst snd]. unfold date_lt.
  destruct (Z.compare_spec y y'); cbn [lex].
  - subst y'. rewrite Z.ltb_irrefl, Z.eqb_refl. cbn.
    destruct (Z.compare_spec m m'); cbn [lex].
    + subst m'. rewrite Z.ltb_irrefl, Z.eqb_refl. cbn.
      destruct (Z.compare_spec d d'); symmetry;
        [apply Z.ltb_ge | apply Z.ltb_ge | apply Z.ltb_lt]; lia.
    + symmetry. apply orb_false_iff. split; [apply Z.ltb_ge; lia|].
      apply andb_false_iff. left. apply Z.eqb_neq. lia.
    + symmetry. apply orb_true_iff. left. apply Z.ltb_lt. lia.
  - symmetry. apply orb_false_iff. split; [apply Z.ltb_ge; lia|].
    apply andb_false_iff. left. apply Z.eqb_neq. lia.
  - symmetry. apply orb_true_iff. left. apply Z.ltb_lt. lia.
Qed.

(** With a zero-padded stored date, a task without submission of the
    participant is shown as scheduled for the future exactly when its date
    is strictly after today's. *)
Corollary classify_padded_date user_id d t sd td :
  in_iso_range sd -> in_iso_range td ->
  Task.scheduled_date t = Some (isoformat sd) ->
  has_approved user_id d t = false -> has_pending user_id d t = false ->
  classify user_id d (isoformat td) t
  = if date_lt td sd then ScheduledFuture else Available.
Proof.
  intros Hs Ht Hd Ha Hp. unfold classify. rewrite Ha, Hp, Hd.
  rewrite iso_text_order by assumption.
  destruct sd as [[y m] dd]. reflexivity.
Qed.

(** ** The guard of the "do" button *)

(** With an unapproved report of the participant on the task, [do_<id>]
    answers that one is already waiting and starts no dialogue. *)
Lemma do_task_refused_when_pending girlfriend_id task_id w user s :
  user_by_telegram_id girlfriend_id (db w) = Some user ->
  In s (pending_of task_id (User.id user) (db w)) ->
  do_task girlfriend_id task_id w
  = (Ok tt, mkWorld (db w) (files w) (trace w ++ [Send AlreadyPendingMsg])).
Proof.
  intros Hu Hs. unfold do_task. munfold. cbn. rewrite Hu. cbn.
  destruct (pending_of task_id (User.id user) (db w)) as [|p l];
    [destruct Hs | reflexivity].
Qed.

(** ** From the empty database *)

Corollary reachable_completions_unique admin_id girlfriend_id ops :
  completions_unique (db (run admin_id girlfriend_id ops initial_world)).
Proof.
  rewrite run_db_correct.
  assert (H0 : completions_unique (db initial_world)).
  { intros q u. cbn. lia. }
  revert H0. generalize (db initial_world).
  induction ops as [|o ops IH]; intros d Hd; cbn; [assumption|].
  apply IH, step_db_completions_unique, Hd.
Qed.

Corollary reachable_pending_unique admin_id girlfriend_id ops :
  pending_unique (db (run admin_id girlfriend_id ops initial_world)).
Proof.
  rewrite run_db_correct.
  assert (H0 : pending_unique (db initial_world)).
  { intros t u. cbn. lia. }
  revert H0. generalize (db initial_world).
  induction ops as [|o ops IH]; intros d Hd; cbn; [assumption|].
  apply IH, step_db_pending_unique, Hd.
Qed.

(** The end-to-end run: after the first approval the count is 1 and there
    is no completion row; after the second the count is 2 and there is
    one; a repeated second approval sends its messages again and adds no
    row. *)
Example end_to_end_two_tasks :
  let approve_b := Callback ADMIN (Approve 2) 140 TODAY in
  let w1 := one_task_approved in
  let w2 := step ADMIN GIRL approve_b w1 in
  let w3 := step ADMIN GIRL approve_b w2 in
  quest_progress 1 2 (db w1) = 1
  /\ quest_completions (db w1) = []
  /\ quest_progress 1 2 (db w2) = 2
  /\ quest_completions (db w2) = [QuestCompletion.mk 1 (Some 1) 2 140 false]
  /\ quest_completions (db w3) = quest_completions (db w2)
  /\ count (filter_by
              (fun e => match e with
                        | Send (QuestCompletedMsg _ _) => true
                        | _ => false
                        end)
              (trace w3)) = 1
  /\ count (filter_by
              (fun e => match e with
                        | Send (ApprovedMsg _ _ _) => true
                        | _ => false
                        end)
              (trace w3)) = 3.
Proof. repeat split; vm_compute; reflexivity. Qed.

Example validate_date_examples :
  validate_date "2024-02-29" = true /\ validate_date "2023-02-29" = false
  /\ validate_date "2024-2-1" = true /\ validate_date "2024-12-01" = true
  /\ validate_date "2024-13-01" = false /\ validate_date "2024-1-311" = false
  /\ validate_date "0000-01-01" = false /\ validate_date "2024-01-35" = false
  /\ validate_date "2024-01- 5" = true /\ validate_date "2024-1-5 " = false
  /\ isoformat (2024, 12, 1) = "2024-12-01"
  /\ isoformat (987, 2, 28) = "0987-02-28".
Proof. repeat split; vm_compute; reflexivity. Qed.

(** ** The approval threshold counts every quest *)

(** The insertion rule of the approval branch. *)
Lemma completion_due_iff sub d quest :
  completion_due sub d = Some quest
  <-> exists task,
        task_by_id (Submission.task_id sub) d = Some task
        /\ quest_by_id (Task.quest_id task) d = Some quest
        /\ Quest.required_completions quest
           <= approved_total (Submission.user_id sub) d
        /\ completions_of (Quest.id quest) (Submission.user_id sub) d = [].
Proof.
  unfold completion_due, completions_of. split.
  - destruct (task_by_id _ _) as [task|]; [|discriminate].
    destruct (quest_by_id _ _) as [q|] eqn:Hq; [|discriminate].
    destruct (_ <=? _) eqn:Hle; [|discriminate].
    destruct (first _) eqn:Hf; [discriminate|].
    intros [= <-]. exists task. rewrite Hq.
    split; [reflexivity|]. split; [reflexivity|].
    split; [apply Z.leb_le, Hle | apply first_None, Hf].
  - intros (task & -> & -> & Hle & Hnone).
    apply Z.leb_le in Hle. rewrite Hle.
    change (fun c : QuestCompletion.t =>
              opt_eqb (QuestCompletion.quest_id c) (Quest.id quest)
              && (QuestCompletion.user_id c =? Submission.user_id sub))
      with (completion_for (Quest.id quest) (Submission.user_id sub)).
    rewrite Hnone. reflexivity.
Qed.

(** C1 (the code against the claim).  The participant (user row 2) has one
    approved report in quest 1 and a pending report for the only task of
    quest 2; both quests require two completions.  Approving the pending
    report inserts the completion row of quest 2, although the
    participant's approved count for quest 2, as the statistics views
    compute it, is 1: the branch compares the participant's approved
    submissions over all quests, 2, with the threshold. *)
Theorem approval_counts_submissions_of_every_quest :
  submission_by_id 2 (db before_second_approval)
  = Some (Submission.mk 2 2 2 (Some "photos/submission_b.jpg") "read" 130
            false None)
  /\ option_map Quest.required_completions
       (quest_by_id 2 (db after_second_approval)) = Some 2
  /\ completions_of 2 2 (db before_second_approval) = []
  /\ quest_progress 2 2 (db after_second_approval) = 1
  /\ approved_total 2 (db after_second_approval) = 2
  /\ completions_of 2 2 (db after_second_approval)
     = [QuestCompletion.mk 1 (Some 2) 2 140 false].
Proof. repeat split; vm_compute; reflexivity. Qed.

(** ** Deletions take approved submissions away *)


(** C5 (counterexample).  Submission 1 exists and is approved; the
    participant's approved count for quest 1 is 1 before it is rejected
    and 0 afterwards. *)
Lemma rejecting_an_approved_submission_lowers_progress :
  option_map Submission.is_approved
    (submission_by_id 1 (db before_second_approval)) = Some true
  /\ fst (reject 1 before_second_approval) = Ok tt
  /\ quest_progress 1 2 (db before_second_approval) = 1
  /\ quest_progress 1 2 (db (snd (reject 1 before_second_approval))) = 0.
Proof. repeat split; vm_compute; reflexivity. Qed.

(** ** A deleted quest hides the remaining ones *)

(** C8 (the code against the claim).  After the participant completed
    quest 1 and the administrator deleted it, quest 2 is active and the
    participant has no completion row for it; the completion row left from
    quest 1 has a NULL quest, and the selection reports that every quest
    is completed. *)
Theorem deleted_quest_hides_eligible_quest :
  map (fun q => (Quest.id q, Quest.is_active q))
    (quests (db after_quest_deletion)) = [(2, true)]
  /\ completions_of 2 2 (db after_quest_deletion) = []
  /\ map (fun c => (QuestCompletion.quest_id c, QuestCompletion.user_id c))
       (quest_completions (db after_quest_deletion)) = [(None, 2)]
  /\ show_current_quest GIRL TODAY after_quest_deletion
     = (Ok AllQuestsCompleted, after_quest_deletion).
Proof.
  repeat split; vm_compute; reflexivity.
Qed.

(** ** Dates are compared as text *)

(** C9 (the code against the claim).  The date "2024-2-1" passes
    [validate_date] and is stored as typed.  On 2024-12-01 the task has no
    submission and its date, 1 February 2024, is in the past; the view
    shows it as scheduled for the future and offers no button for it. *)
Theorem unpadded_date_shown_as_future :
  validate_date "2024-2-1" = true
  /\ map Task.scheduled_date (tasks (db with_unpadded_date))
     = [Some "2024-2-1"]
  /\ submissions (db with_unpadded_date) = []
  /\ strptime_ymd "2024-2-1" = Some (2024, 2, 1)
  /\ isoformat (2024, 12, 1) = TODAY
  /\ date_lt (2024, 2, 1) (2024, 12, 1) = true
  /\ match fst (show_current_quest GIRL TODAY with_unpadded_date) with
     | Ok (CurrentQuest v) =>
         map snd (view_lines v) = [ScheduledFuture] /\ view_buttons v = []
     | _ => False
     end.
Proof. repeat split; vm_compute; reflexivity. Qed.

(** ** The theorems at concrete states *)

Lemma completions_unique_short d :
  (length (quest_completions d) <= 1)%nat -> completions_unique d.
Proof.
  intros H q u. unfold completions_of.
  etransitivity; [apply filter_length_le | exact H].
Qed.


Ltac distinct_ids :=
  vm_compute;
  repeat (constructor; [cbn; intuition discriminate|]);
  constructor.

(** After the completion of quest 2: three more approvals, two of them
    of the submission that completed the quest. *)
Lemma completion_recorded_at_most_once_witness :
  completions_unique (db after_second_approval)
  /\ completions_unique
       (db (run ADMIN GIRL
              [Callback ADMIN (Approve 2) 150 TODAY;
               Callback ADMIN (Approve 2) 160 TODAY;
               Callback ADMIN (Approve 1) 170 TODAY]
              after_second_approval)).
Proof.
  assert (H : completions_unique (db after_second_approval)).
  { apply completions_unique_short. vm_compute. apply le_n. }
  split; [exact H|].
  exact (proj1 (completion_recorded_at_most_once ADMIN GIRL
                  after_second_approval H) _).
Defined.



(** The rejection of the pending submission 2. *)
Lemma reject_deletes_row_and_artifact_witness :
  submission_by_id 2 (db before_second_approval)
  = Some (Submission.mk 2 2 2 (Some "photos/submission_b.jpg") "read" 130
            false None)
  /\ task_by_id 2 (db before_second_approval)
     = Some (Task.mk 2 2 "Novel" "Read a novel" None 5 1 None false)
  /\ List.NoDup (map Submission.id (submissions (db before_second_approval)))
  /\ fst (reject 2 before_second_approval) = Ok tt
  /\ files (snd (reject 2 before_second_approval))
     = files before_second_approval ∖ {["photos/submission_b.jpg"]}
  /\ quest_completions (db (snd (reject 2 before_second_approval)))
     = quest_completions (db before_second_approval)
  /\ quest_progress 1 2 (db (snd (reject 2 before_second_approval)))
     = quest_progress 1 2 (db before_second_approval).
Proof.
  assert (S : submission_by_id 2 (db before_second_approval)
              = Some (Submission.mk 2 2 2 (Some "photos/submission_b.jpg")
                        "read" 130 false None)).
  { vm_compute. reflexivity. }
  assert (T : task_by_id 2 (db before_second_approval)
              = Some (Task.mk 2 2 "Novel" "Read a novel" None 5 1 None false)).
  { vm_compute. reflexivity. }
  assert (H : List.NoDup
                (map Submission.id (submissions (db before_second_approval)))).
  { distinct_ids. }
  destruct (reject_deletes_row_and_artifact 2 _ _ before_second_approval
              S T H) as (Hok & _ & Hf & _ & _ & _ & _ & Hc & Hp).
  split; [exact S|]. split; [exact T|]. split; [exact H|].
  split; [exact Hok|]. split; [exact Hf|]. split; [exact Hc|].
  exact (Hp eq_refl 1 2).
Defined.

(** The deletion of the quest with pictures, the task image missing. *)
Lemma confirm_delete_quest_correct_witness :
  quest_by_id 1 (db gallery_world)
  = Some (Quest.mk 1 "Walks" "Evening walks" (Some "photos/quest_q.jpg")
            "Cinema" 2 100 true 1)
  /\ List.NoDup (map Task.id (tasks (db gallery_world)))
  /\ ("photos/task_t.jpg" ∉ files gallery_world)
  /\ fst (confirm_delete_quest 1 gallery_world) = Ok tt
  /\ gone (Some "photos/quest_q.jpg")
       (files (snd (confirm_delete_quest 1 gallery_world)))
  /\ quest_by_id 1 (db (snd (confirm_delete_quest 1 gallery_world))) = None
  /\ tasks_of_quest 1 (db (snd (confirm_delete_quest 1 gallery_world))) = [].
Proof.
  assert (Q : quest_by_id 1 (db gallery_world)
              = Some (Quest.mk 1 "Walks" "Evening walks"
                        (Some "photos/quest_q.jpg") "Cinema" 2 100 true 1)).
  { vm_compute. reflexivity. }
  assert (H : List.NoDup (map Task.id (tasks (db gallery_world)))).
  { distinct_ids. }
  destruct (confirm_delete_quest_correct 1 _ gallery_world Q H)
    as (Hok & _ & Hq & _ & _ & Hnq & Hnt & _).
  split; [exact Q|]. split; [exact H|].
  split.
  { apply (bool_decide_eq_false_1 ("photos/task_t.jpg" ∈ files gallery_world)).
    vm_compute. reflexivity. }
  split; [exact Hok|]. split; [exact Hq|]. split; [exact Hnq | exact Hnt].
Defined.
(** ** The progress bar *)

(** C7.  With the default length, [format_progress_bar(3, 10)] is the
    ten-character bar of three filled segments followed by seven empty
    ones, and [format_progress_bar(0, 0)] returns (no exception) the
    ten-character all-empty bar. *)
Theorem format_progress_bar_spec_cases :
  format_progress_bar 3 10 DEFAULT_LENGTH = Some "███░░░░░░░"
  /\ format_progress_bar 3 10 DEFAULT_LENGTH
     = Some (Py.str_repeat FULL 3 ++ Py.str_repeat LIGHT 7)%string
  /\ Py.len "███░░░░░░░" = 10
  /\ format_progress_bar 0 0 DEFAULT_LENGTH = Some "░░░░░░░░░░"
  /\ format_progress_bar 0 0 DEFAULT_LENGTH = Some (Py.str_repeat LIGHT 10)
  /\ Py.len "░░░░░░░░░░" = 10.
Proof. repeat split; vm_compute; reflexivity. Qed.

(** ** Retried downloads *)

Lemma retry_loop_success outcome n todo a :
  fst (retry_loop outcome n todo a) = true ->
  exists k, a <= k < a + Z.of_nat todo /\ outcome k = Downloaded.
Proof.
  revert a. induction todo as [|todo IH]; intros a; cbn -[Z.of_nat]; [discriminate|].
  destruct (outcome a) eqn:E.
  - intros _. exists a. split; [lia | assumption].
  - destruct (a <? n - 1); [|discriminate].
    destruct (retry_loop outcome n todo (a + 1)) as [r evs] eqn:Er. cbn.
    intros ->. destruct (IH (a + 1)) as (k & Hk & Ho); [rewrite Er; reflexivity|].
    exists k. split; [lia | assumption].
  - destruct (a <? n - 1); [|discriminate].
    destruct (retry_loop outcome n todo (a + 1)) as [r evs] eqn:Er. cbn.
    intros ->. destruct (IH (a + 1)) as (k & Hk & Ho); [rewrite Er; reflexivity|].
    exists k. split; [lia | assumption].
Qed.

Lemma retry_loop_finds outcome n todo a k :
  a + Z.of_nat todo = n -> a <= k < n -> outcome k = Downloaded ->
  fst (retry_loop outcome n todo a) = true.
Proof.
  revert a. induction todo as [|todo IH]; intros a Hn Hk Ho; [lia|].
  cbn -[Z.of_nat]. destruct (outcome a) eqn:E; [reflexivity| |].
  all: assert (a <> k) by congruence.
  all: destruct (a <? n - 1) eqn:El; [|apply Z.ltb_ge in El; lia].
  all: specialize (IH (a + 1)).
  all: destruct (retry_loop outcome n todo (a + 1)) as [r evs]; cbn in *.
  all: apply IH; [lia | lia | assumption].
Qed.

(** X1.  [download_photo_with_retry] reports success exactly when one of
    the attempts [0 .. max_retries - 1] completes; with no retries allowed
    ([max_retries <= 0]) it reports failure without trying. *)
Theorem download_succeeds_iff_some_attempt_does (outcome : Z -> attempt_outcome)
    (max_retries : Z) :
  fst (download_photo_with_retry outcome max_retries) = true
  <-> exists k, 0 <= k < max_retries /\ outcome k = Downloaded.
Proof.
  unfold download_photo_with_retry. split.
  - intros H. apply retry_loop_success in H. destruct H as (k & Hk & Ho).
    exists k. split; [lia | assumption].
  - intros (k & Hk & Ho). apply (retry_loop_finds outcome max_retries _ 0 k);
      [lia | lia | assumption].
Qed.



(** ** Invariants of reachable states *)

Lemma run_db_invariant (P : DB -> Prop) admin_id girlfriend_id :
  P empty_db ->
  (forall o d, P d -> P (step_db admin_id girlfriend_id o d)) ->
  forall ops, P (db (run admin_id girlfriend_id ops initial_world)).
Proof.
  intros H0 Hstep ops. rewrite run_db_correct.
  change (db initial_world) with empty_db.
  revert H0. generalize empty_db.
  induction ops as [|o ops IH]; intros d Hd; cbn; [assumption|].
  apply IH, Hstep, Hd.
Qed.

(** ** The users table *)

Lemma user_by_telegram_id_None tg d :
  user_by_telegram_id tg d = None ->
  ~ In tg (map User.telegram_id (users d)).
Proof.
  intros H Hin. apply first_None in H.
  apply in_map_iff in Hin. destruct Hin as (u & Hu & Hin).
  pose proof (proj1 (filter_nil_iff _ _) H u Hin) as Hf. cbn in Hf.
  rewrite Hu, Z.eqb_refl in Hf. discriminate.
Qed.

Lemma add_user_users_ok admin_id girlfriend_id tg admin d :
  (tg = admin_id \/ tg = girlfriend_id) ->
  (user_by_telegram_id tg d = None -> admin = (tg =? admin_id)) ->
  users_ok admin_id girlfriend_id d ->
  users_ok admin_id girlfriend_id (add_user tg admin d).
Proof.
  intros Htg Hadm [Hnd Hall]. unfold add_user.
  destruct (user_by_telegram_id tg d) eqn:E; [split; assumption|].
  specialize (Hadm eq_refl). split; cbn -[next_id].
  - rewrite map_app. cbn. apply List.NoDup_app; [assumption | |].
    + repeat constructor. intros [].
    + intros x Hx [<-|[]]. apply (user_by_telegram_id_None _ _ E). assumption.
  - rewrite forallb_app, Hall. cbn -[next_id]. unfold configured_user.
    cbn -[next_id]. rewrite Hadm, eqb_reflx, !andb_true_r.
    destruct Htg as [->| ->]; rewrite Z.eqb_refl; auto using orb_true_r.
Qed.

Lemma add_user_found tg admin d :
  user_by_telegram_id tg (add_user tg admin d) <> None.
Proof.
  unfold add_user. destruct (user_by_telegram_id tg d) eqn:E; [congruence|].
  unfold user_by_telegram_id. cbn -[next_id].
  rewrite List.filter_app. cbn -[next_id]. rewrite Z.eqb_refl.
  destruct (filter_by _ (users d)); discriminate.
Qed.

Lemma step_db_users_ok admin_id girlfriend_id o d :
  users_ok admin_id girlfriend_id d ->
  users_ok admin_id girlfriend_id (step_db admin_id girlfriend_id o d).
Proof.
  intros H. destruct o; cbn -[next_id].
  - unfold main_init_db.
    assert (H1 : users_ok admin_id girlfriend_id (add_user admin_id true d)).
    { apply add_user_users_ok; [auto | | assumption].
      intros _. rewrite Z.eqb_refl. reflexivity. }
    destruct (negb _); [|assumption].
    apply add_user_users_ok; [auto | | assumption].
    intros Hnone. destruct (girlfriend_id =? admin_id) eqn:E; [|reflexivity].
    apply Z.eqb_eq in E. subst girlfriend_id.
    exfalso. exact (add_user_found _ _ _ Hnone).
  - unfold cmd_start_db.
    destruct (from_id =? admin_id) eqn:Ea; cbn.
    + apply Z.eqb_eq in Ea. subst.
      apply add_user_users_ok; [auto | | assumption].
      intros _. rewrite Z.eqb_refl. reflexivity.
    + destruct (from_id =? girlfriend_id) eqn:Eg; [|assumption].
      apply Z.eqb_eq in Eg. subst.
      apply add_user_users_ok; [auto | | assumption].
      intros _. rewrite Ea. reflexivity.
  - unfold callback_db. destruct (_ =? _); [|assumption].
    destruct c; try assumption.
    + unfold approve_db. destruct (submission_by_id _ _); [|assumption].
      cbn zeta. destruct (completion_due _ _); exact H.
    + unfold reject_db. destruct (submission_by_id _ _); [|assumption].
      destruct (task_by_id _ _); exact H.
    + unfold confirm_delete_quest_db. destruct (quest_by_id _ _); exact H.
    + unfold confirm_delete_task_db. destruct (task_by_id _ _); exact H.
  - unfold submit_db. destruct (user_by_telegram_id _ _); exact H.
  - unfold quest_required_db. destruct (user_by_telegram_id _ _); exact H.
  - unfold task_date_db. destruct (date_accepted _); exact H.
  - unfold edit_task_field_db. destruct (task_by_id _ _); [|assumption].
    destruct (edit_accepted _); exact H.
Qed.

(** X3.  In every state the bot reaches from the empty database the users
    table holds at most two rows, no two with the same [telegram_id] (the
    column's [unique] constraint never fires); every row belongs to the
    configured admin or girlfriend account, and its [is_admin] flag is set
    exactly on the admin's row. *)
Theorem reachable_users_are_the_configured_accounts
    (admin_id girlfriend_id : Z) (ops : list op) :
  let d := db (run admin_id girlfriend_id ops initial_world) in
  List.NoDup (map User.telegram_id (users d))
  /\ forallb (configured_user admin_id girlfriend_id) (users d) = true
  /\ (length (users d) <= 2)%nat.
Proof.
  intros d.
  assert (H : users_ok admin_id girlfriend_id d).
  { subst d. apply run_db_invariant.
    - split; [constructor | reflexivity].
    - intros o d0. apply step_db_users_ok. }
  destruct H as [Hnd Hall]. split; [assumption|]. split; [assumption|].
  rewrite <- (length_map User.telegram_id).
  change 2%nat with (length [admin_id; girlfriend_id]).
  apply NoDup_incl_length; [assumption|].
  intros tg Hin. apply in_map_iff in Hin. destruct Hin as (u & <- & Hu).
  rewrite forallb_forall in Hall. specialize (Hall u Hu).
  unfold configured_user in Hall. apply andb_true_iff in Hall.
  destruct Hall as [Hor _]. apply orb_true_iff in Hor.
  destruct Hor as [E|E]; apply Z.eqb_eq in E; rewrite E; cbn; auto.
Qed.

(** ** What the cleanups remove *)

Lemma clean_unit (m : M unit) w : clean m -> fst (m w) = Ok tt.
Proof. intros H. destruct (H w) as [[[] Ha] _]. exact Ha. Qed.

Lemma for_each_files {A} (body : A -> M unit) (F : A -> DB -> gset string)
    (xs : list A) :
  (forall x, clean (body x)) ->
  (forall x w, files (snd (body x w)) = files w ∖ F x (db w)) ->
  forall w,
    files (snd (for_each xs body w))
    = files w ∖ ⋃ map (fun x => F x (db w)) xs.
Proof.
  intros Hc Hb. induction xs as [|y ys IH]; intros w; cbn.
  - rewrite difference_empty_L. reflexivity.
  - unfold bind. pose proof (clean_unit _ w (Hc y)) as Hok.
    destruct (Hc y w) as [_ (Hd & _)]. specialize (Hb y w).
    destruct (body y w) as [[[]|e] w1]; cbn in *; [|discriminate].
    rewrite IH, Hb, Hd. apply difference_difference_l_L.
Qed.

Lemma cleanup_task_files_files task_id w :
  files (snd (cleanup_task_files task_id w))
  = files w ∖ task_artifacts task_id (db w).
Proof.
  unfold cleanup_task_files, task_artifacts, bind at 1, query at 1. cbn.
  set (body := fun sub : Submission.t =>
                 remove_if_exists (Submission.photo_url sub) log_error).
  assert (Hc : forall x, clean (body x))
    by (intros x; apply remove_if_exists_clean).
  pose proof (for_each_files body (fun s _ => artifact (Submission.photo_url s))
                (submissions_of_task task_id (db w)) Hc
                (fun x w0 => proj1 (remove_if_exists_files _ _ w0)) w) as Hf.
  pose proof (clean_unit _ w (clean_for_each body
                (submissions_of_task task_id (db w)) Hc)) as Hok.
  destruct (clean_for_each body (submissions_of_task task_id (db w)) Hc w)
    as [_ (Hd & _)].
  unfold bind. destruct (for_each _ body w) as [[[]|e] w1]; cbn in *;
    [|discriminate].
  unfold query. cbn. rewrite Hd.
  destruct (task_by_id task_id (db w)) as [t|]; cbn.
  - destruct (remove_if_exists_files (Task.image_url t) log_error w1)
      as (-> & _). rewrite Hf. apply difference_difference_l_L.
  - rewrite Hf, union_empty_r_L. reflexivity.
Qed.

Lemma cleanup_quest_files_files quest_id w :
  files (snd (cleanup_quest_files quest_id w))
  = files w ∖ quest_artifacts quest_id (db w).
Proof.
  unfold cleanup_quest_files, quest_artifacts, bind at 1, query at 1. cbn.
  set (body := fun task : Task.t => cleanup_task_files (Task.id task)).
  assert (Hc : forall x, clean (body x))
    by (intros x; apply cleanup_task_files_clean).
  pose proof (for_each_files body (fun t d => task_artifacts (Task.id t) d)
                (tasks_of_quest quest_id (db w)) Hc
                (fun x w0 => cleanup_task_files_files _ w0) w) as Hf.
  pose proof (clean_unit _ w (clean_for_each body
                (tasks_of_quest quest_id (db w)) Hc)) as Hok.
  destruct (clean_for_each body (tasks_of_quest quest_id (db w)) Hc w)
    as [_ (Hd & _)].
  unfold bind. destruct (for_each _ body w) as [[[]|e] w1]; cbn in *;
    [|discriminate].
  unfold query. cbn. rewrite Hd.
  destruct (quest_by_id quest_id (db w)) as [q|]; cbn.
  - destruct (remove_if_exists_files (Quest.image_url q) log_error w1)
      as (-> & _). rewrite Hf. apply difference_difference_l_L.
  - rewrite Hf, union_empty_r_L. reflexivity.
Qed.

(** X4.  [cleanup_quest_files] never raises, whatever files exist or are
    missing, and leaves the database alone.  It takes out of the photo
    directory exactly the files that the rows of the quest name (the
    photos of the submissions of its tasks, the images of its tasks, its
    own image), so a file that no such row names is still there
    afterwards; all it adds to the trace are successful removals. *)
Theorem cleanup_quest_files_removes_exactly_the_quest_artifacts
    (quest_id : Z) (w : world) :
  let r := cleanup_quest_files quest_id w in
  fst r = Ok tt
  /\ db (snd r) = db w
  /\ files (snd r) = files w ∖ quest_artifacts quest_id (db w)
  /\ exists removals,
       trace (snd r) = trace w ++ removals
       /\ Forall (fun e => is_fs_remove e = true) removals.
Proof.
  cbn zeta. split; [apply clean_unit, cleanup_quest_files_clean|].
  destruct (cleanup_quest_files_clean quest_id w) as [_ (Hd & _ & Ht)].
  split; [assumption|]. split; [apply cleanup_quest_files_files | exact Ht].
Qed.

(** ** Deleting a task *)

Lemma task_by_id_id task_id d t :
  task_by_id task_id d = Some t -> Task.id t = task_id.
Proof.
  intros H. apply first_filter_In in H. destruct H as [_ H].
  apply Z.eqb_eq. exact H.
Qed.

Lemma confirm_delete_task_run task_id w :
  confirm_delete_task task_id w
  = let w1 := snd (cleanup_task_files task_id w) in
    match task_by_id task_id (db w) with
    | Some t =>
        let d' := delete_task (Task.id t) (db w) in
        let tr := trace w1 ++ delete_task_stmts (Task.id t) (db w) in
        match quest_by_id (Task.quest_id t) d' with
        | Some q =>
            (Ok tt,
             mkWorld d' (files w1) (tr ++ [Send (TaskDeletedMsg (Quest.title q))]))
        | None => (Raise AttributeError, mkWorld d' (files w1) tr)
        end
    | None => (Ok tt, w1)
    end.
Proof.
  pose proof (clean_unit _ w (cleanup_task_files_clean task_id)) as Hok.
  destruct (cleanup_task_files_clean task_id w) as [_ (Hd & _)].
  unfold confirm_delete_task, bind at 1.
  destruct (cleanup_task_files task_id w) as [[[]|e] w1]; cbn in Hok, Hd;
    [|discriminate].
  munfold. cbn. rewrite Hd.
  destruct (task_by_id task_id (db w)) as [t|]; cbn; [|reflexivity].
  rewrite Hd. destruct (quest_by_id _ _); reflexivity.
Qed.

Lemma delete_task_stmts_sql task_id d :
  Forall (fun e => is_sql e = true) (delete_task_stmts task_id d).
Proof.
  unfold delete_task_stmts. rewrite Forall_app. split.
  - apply List.Forall_forall. intros e He. apply in_map_iff in He.
    destruct He as (? & <- & _). reflexivity.
  - constructor; [reflexivity | constructor].
Qed.

Lemma delete_task_no_task task_id d :
  task_by_id task_id (delete_task task_id d) = None.
Proof.
  unfold task_by_id. apply first_None, filter_nil_iff. cbn.
  intros t Ht. unfold delete_rows in Ht. apply filter_In in Ht.
  destruct Ht as [_ Ht]. cbn in Ht. rewrite orb_false_r in Ht.
  apply negb_true_iff in Ht. exact Ht.
Qed.

Lemma delete_task_no_submissions task_id d :
  submissions_of_task task_id (delete_task task_id d) = [].
Proof.
  unfold submissions_of_task. apply filter_nil_iff. cbn.
  intros s Hs. unfold delete_rows in Hs. apply filter_In in Hs.
  destruct Hs as [Hs Hm]. apply negb_true_iff in Hm.
  destruct (Submission.task_id s =? task_id) eqn:E; [|reflexivity].
  exfalso. apply not_true_iff_false in Hm. apply Hm, mem_In, in_map.
  unfold task_children. apply filter_In. split; [assumption|].
  cbn. rewrite E. reflexivity.
Qed.

(** Rows of other tasks stay. *)
Lemma delete_task_keeps task_id d :
  (forall t, In t (tasks d) -> Task.id t <> task_id ->
             In t (tasks (delete_task task_id d)))
  /\ (forall s, In s (submissions d) -> Submission.task_id s <> task_id ->
                List.NoDup (map Submission.id (submissions d)) ->
                In s (submissions (delete_task task_id d))).
Proof.
  split; cbn.
  - intros t Hin Hne. apply filter_In. split; [assumption|]. cbn.
    rewrite orb_false_r. apply negb_true_iff, Z.eqb_neq. assumption.
  - intros s Hin Hne Hnd. apply filter_In. split; [assumption|].
    apply negb_true_iff, not_true_iff_false. intros Hm. apply mem_In in Hm.
    apply in_map_iff in Hm. destruct Hm as (s' & Hid & Hs').
    apply filter_In in Hs'. destruct Hs' as [Hin' Hq'].
    rewrite (same_key_same_row Submission.id _ s' s Hnd Hin' Hin Hid) in Hq'.
    cbn in Hq'. rewrite orb_false_r in Hq'. apply Z.eqb_eq in Hq'.
    contradiction.
Qed.

(** X5.  Confirming the deletion of an existing task whose quest exists
    never raises, whatever files exist or are missing.  It takes out of
    the photo directory exactly the photos of the task's submissions and
    the task's image; the trace is a run of successful file removals, then
    the SQL statements of the delete, then the acknowledgement that names
    the quest; the task row and its submission rows are gone from the
    database, the rows of other tasks stay, and the users, quests and
    quest completions are as before. *)
Theorem confirm_delete_task_correct (task_id : Z) (t : Task.t) (q : Quest.t)
    (w : world) :
  task_by_id task_id (db w) = Some t ->
  quest_by_id (Task.quest_id t) (db w) = Some q ->
  List.NoDup (map Submission.id (submissions (db w))) ->
  let r := confirm_delete_task task_id w in
  let w' := snd r in
  fst r = Ok tt
  /\ files w' = files w ∖ task_artifacts task_id (db w)
  /\ (exists removals,
        trace w' = trace w ++ removals ++ delete_task_stmts task_id (db w)
                   ++ [Send (TaskDeletedMsg (Quest.title q))]
        /\ Forall (fun e => is_fs_remove e = true) removals
        /\ Forall (fun e => is_sql e = true)
             (delete_task_stmts task_id (db w)))
  /\ db w' = delete_task task_id (db w)
  /\ task_by_id task_id (db w') = None
  /\ submissions_of_task task_id (db w') = []
  /\ (forall t', In t' (tasks (db w)) -> Task.id t' <> task_id ->
                 In t' (tasks (db w')))
  /\ (forall s, In s (submissions (db w)) -> Submission.task_id s <> task_id ->
                In s (submissions (db w')))
  /\ users (db w') = users (db w)
  /\ quests (db w') = quests (db w)
  /\ quest_completions (db w') = quest_completions (db w).
Proof.
  intros Ht Hq Hnd r w'. subst r w'.
  pose proof (task_by_id_id _ _ _ Ht) as Hid.
  destruct (cleanup_task_files_clean task_id w) as [_ (Hd & _ & evs & Htr & Hevs)].
  pose proof (cleanup_task_files_files task_id w) as Hf.
  rewrite confirm_delete_task_run, Ht.
  cbn -[cleanup_task_files delete_task delete_task_stmts]. rewrite Hid.
  change (quests (delete_task task_id (db w))) with (quests (db w)) in *.
  assert (Hq' : quest_by_id (Task.quest_id t) (delete_task task_id (db w))
                = Some q) by exact Hq.
  rewrite Hq'. cbn -[cleanup_task_files delete_task delete_task_stmts].
  split; [reflexivity|].
  split; [assumption|].
  split.
  { exists evs. rewrite Htr, <- !app_assoc. split; [reflexivity|].
    split; [assumption | apply delete_task_stmts_sql]. }
  split; [reflexivity|].
  split; [apply delete_task_no_task|].
  split; [apply delete_task_no_submissions|].
  destruct (delete_task_keeps task_id (db w)) as [Hkt Hks].
  split; [assumption|].
  split; [intros s Hs Hne; apply Hks; assumption|].
  repeat split.
Qed.

(** The deletion of the task with pictures, its image missing. *)
Lemma confirm_delete_task_correct_witness :
  task_by_id 1 (db gallery_world)
  = Some (Task.mk 1 1 "Park" "Walk in the park" (Some "photos/task_t.jpg") 5 1
            None false)
  /\ quest_by_id 1 (db gallery_world)
     = Some (Quest.mk 1 "Walks" "Evening walks" (Some "photos/quest_q.jpg")
               "Cinema" 2 100 true 1)
  /\ List.NoDup (map Submission.id (submissions (db gallery_world)))
  /\ fst (confirm_delete_task 1 gallery_world) = Ok tt
  /\ files (snd (confirm_delete_task 1 gallery_world))
     = files gallery_world ∖ task_artifacts 1 (db gallery_world)
  /\ task_by_id 1 (db (snd (confirm_delete_task 1 gallery_world))) = None
  /\ submissions_of_task 1 (db (snd (confirm_delete_task 1 gallery_world)))
     = [].
Proof.
  assert (T : task_by_id 1 (db gallery_world)
              = Some (Task.mk 1 1 "Park" "Walk in the park"
                        (Some "photos/task_t.jpg") 5 1 None false)).
  { vm_compute. reflexivity. }
  assert (Q : quest_by_id 1 (db gallery_world)
              = Some (Quest.mk 1 "Walks" "Evening walks"
                        (Some "photos/quest_q.jpg") "Cinema" 2 100 true 1)).
  { vm_compute. reflexivity. }
  assert (H : List.NoDup (map Submission.id (submissions (db gallery_world)))).
  { distinct_ids. }
  destruct (confirm_delete_task_correct 1 _ _ gallery_world T Q H)
    as (Hok & Hf & _ & _ & Hnt & Hns & _).
  split; [exact T|]. split; [exact Q|]. split; [exact H|].
  split; [exact Hok|]. split; [exact Hf|]. split; [exact Hnt | exact Hns].
Defined.

(** X6.  When the task's quest row is missing (the task was added from a
    stale menu of a quest since deleted), the admin's confirmation still
    removes the files and commits the deletion of the task and of its
    submissions; the handler then fails on [quest.title], so instead of
    the acknowledgement the error is logged and the admin is sent the
    generic apology. *)
Theorem confirm_delete_task_without_quest_deletes_then_apologises
    (admin_id girlfriend_id task_id now : Z) (today : string) (t : Task.t)
    (w : world) :
  task_by_id task_id (db w) = Some t ->
  quest_by_id (Task.quest_id t) (db w) = None ->
  let r := handle_callback admin_id girlfriend_id admin_id
             (ConfirmDeleteTask task_id) now today w in
  let w' := snd r in
  fst r = Ok tt
  /\ db w' = delete_task task_id (db w)
  /\ task_by_id task_id (db w') = None
  /\ submissions_of_task task_id (db w') = []
  /\ files w' = files w ∖ task_artifacts task_id (db w)
  /\ exists removals,
       trace w' = trace w ++ removals ++ delete_task_stmts task_id (db w)
                  ++ [LogError; Send GenericErrorMsg]
       /\ Forall (fun e => is_fs_remove e = true) removals.
Proof.
  intros Ht Hq r w'. subst r w'.
  pose proof (task_by_id_id _ _ _ Ht) as Hid.
  destruct (cleanup_task_files_clean task_id w) as [_ (Hd & _ & evs & Htr & Hevs)].
  pose proof (cleanup_task_files_files task_id w) as Hf.
  unfold handle_callback, try_except. rewrite Z.eqb_refl.
  rewrite confirm_delete_task_run, Ht.
  cbn -[cleanup_task_files delete_task delete_task_stmts]. rewrite Hid.
  assert (Hq' : quest_by_id (Task.quest_id t) (delete_task task_id (db w))
                = None) by exact Hq.
  rewrite Hq'. munfold.
  cbn -[cleanup_task_files delete_task delete_task_stmts].
  split; [reflexivity|].
  split; [reflexivity|].
  split; [apply delete_task_no_task|].
  split; [apply delete_task_no_submissions|].
  split; [assumption|].
  exists evs. rewrite Htr, <- !app_assoc. split; [reflexivity | assumption].
Qed.

(** The deletion of the task whose quest is gone. *)
Lemma confirm_delete_task_without_quest_deletes_then_apologises_witness :
  task_by_id 1 (db task_without_quest)
  = Some (Task.mk 1 1 "Park" "Walk in the park" (Some "photos/task_t.jpg") 5 1
            None false)
  /\ quest_by_id 1 (db task_without_quest) = None
  /\ fst (handle_callback ADMIN GIRL ADMIN (ConfirmDeleteTask 1) 130 TODAY
            task_without_quest) = Ok tt
  /\ tasks (db (snd (handle_callback ADMIN GIRL ADMIN (ConfirmDeleteTask 1)
                       130 TODAY task_without_quest))) = []
  /\ submissions_of_task 1
       (db (snd (handle_callback ADMIN GIRL ADMIN (ConfirmDeleteTask 1) 130
                   TODAY task_without_quest))) = [].
Proof.
  assert (T : task_by_id 1 (db task_without_quest)
              = Some (Task.mk 1 1 "Park" "Walk in the park"
                        (Some "photos/task_t.jpg") 5 1 None false)).
  { vm_compute. reflexivity. }
  assert (Q : quest_by_id 1 (db task_without_quest) = None).
  { vm_compute. reflexivity. }
  destruct (confirm_delete_task_without_quest_deletes_then_apologises
              ADMIN GIRL 1 130 TODAY _ task_without_quest T Q)
    as (Hok & Hd & _ & Hns & _).
  split; [exact T|]. split; [exact Q|]. split; [exact Hok|].
  split; [rewrite Hd; vm_compute; reflexivity | exact Hns].
Defined.

(** ** A report on a task that has been deleted *)

Lemma for_each_remove_run (subs : list Submission.t) w :
  exists removals,
    for_each subs
      (fun sub => remove_if_exists (Submission.photo_url sub) pass) w
    = (Ok tt,
       mkWorld (db w)
         (files w ∖ ⋃ map (fun s => artifact (Submission.photo_url s)) subs)
         (trace w ++ removals))
    /\ Forall (fun e => is_fs_remove e = true) removals.
Proof.
  set (body := fun sub : Submission.t =>
                 remove_if_exists (Submission.photo_url sub) pass).
  assert (Hc : forall x, clean (body x))
    by (intros x; apply remove_if_exists_clean).
  pose proof (clean_unit _ w (clean_for_each body subs Hc)) as Hok.
  destruct (clean_for_each body subs Hc w) as [_ (Hd & _ & evs & Ht & Hevs)].
  pose proof (for_each_files body (fun s _ => artifact (Submission.photo_url s))
                subs Hc
                (fun x w0 => proj1 (remove_if_exists_files _ _ w0)) w) as Hf.
  exists evs. split; [|assumption].
  destruct (for_each subs body w) as [r [d1 f1 t1]]. cbn in *. congruence.
Qed.

(** X7.  A report filed for a task whose row is gone (the task was deleted
    after the participant opened it) is stored all the same: the commit
    comes before the handler reads [task.title].  The participant is sent
    the confirmation and then the error message, the downloaded photo is
    removed, and no notice with approve and reject buttons goes to the
    admin; the new unapproved row names a photo that is not in storage. *)
Theorem report_on_deleted_task_is_stored_without_photo
    (girlfriend_id task_id : Z) (dest comment : string) (now : Z)
    (user : User.t) (w : world) :
  user_by_telegram_id girlfriend_id (db w) = Some user ->
  task_by_id task_id (db w) = None ->
  let r := submit_report girlfriend_id task_id dest comment now w in
  let w' := snd r in
  let old := pending_of task_id (User.id user) (db w) in
  let new := new_submission task_id (User.id user) dest comment now (db w) in
  fst r = Ok tt
  /\ submissions (db w')
     = delete_rows Submission.id (map Submission.id old) (submissions (db w))
       ++ [new]
  /\ Submission.photo_url new = Some dest
  /\ (dest ∉ files w')
  /\ exists removals last,
       trace w'
       = trace w ++ [FsCreate dest] ++ removals
         ++ (Sql INSERT Submissions (Submission.id new)
             :: map (fun s => Sql DELETE Submissions (Submission.id s)) old)
         ++ [Send ReportSentMsg; LogError; Send SubmissionErrorMsg] ++ last
       /\ Forall (fun e => is_fs_remove e = true) removals
       /\ Forall (fun e => is_fs_remove e = true) last.
Proof.
  intros Hu Ht r w' old new. subst r w' old new.
  unfold submit_report, bind at 1, download_photo.
  cbn -[process_complete_submission].
  set (w0 := mkWorld (db w) ({[dest]} ∪ files w) (trace w ++ [FsCreate dest])).
  remember (process_complete_submission girlfriend_id task_id dest comment
              now w0) as r eqn:Hr.
  unfold process_complete_submission, try_except at 1, bind at 1,
    query at 1 in Hr.
  cbn in Hr. unfold bind at 1, query at 1 in Hr. cbn in Hr.
  rewrite Hu in Hr. cbn in Hr.
  unfold bind at 1, query at 1 in Hr. cbn in Hr. unfold bind at 1 in Hr.
  destruct (for_each_remove_run (pending_of task_id (User.id user) (db w)) w0)
    as (evs & Hrun & Hevs).
  rewrite Hrun in Hr. munfold. cbn in Hr. rewrite Ht in Hr. cbn in Hr.
  unfold new_submission.
  match type of Hr with
  | context [bool_decide (dest ∈ ?fs)] =>
      destruct (bool_decide (dest ∈ fs)) eqn:E
  end; cbn in Hr.
  - rewrite E in Hr. subst r. cbn.
    split; [reflexivity|]. split; [reflexivity|]. split; [reflexivity|].
    split.
    { intros Hx. apply elem_of_difference in Hx. destruct Hx as [_ Hx].
      apply Hx, elem_of_singleton. reflexivity. }
    exists evs, [FsRemove dest]. rewrite <- ?app_assoc. cbn.
    rewrite <- ?app_assoc. cbn.
    split; [reflexivity|]. split; [assumption|]. repeat constructor.
  - subst r. cbn.
    split; [reflexivity|]. split; [reflexivity|]. split; [reflexivity|].
    split; [apply bool_decide_eq_false in E; exact E|].
    exists evs, []. rewrite <- ?app_assoc. cbn.
    rewrite <- ?app_assoc. cbn.
    split; [reflexivity|]. split; [assumption|]. constructor.
Qed.

(** The report on the deleted task of the quest with pictures. *)
Lemma report_on_deleted_task_is_stored_without_photo_witness :
  user_by_telegram_id GIRL (db after_task_deletion)
  = Some (User.mk 2 GIRL None false)
  /\ task_by_id 1 (db after_task_deletion) = None
  /\ submissions
       (db (snd (submit_report GIRL 1 "photos/submission_c.jpg" "late" 150
                   after_task_deletion)))
     = [Submission.mk 1 1 2 (Some "photos/submission_c.jpg") "late" 150 false
          None]
  /\ ("photos/submission_c.jpg"
      ∉ files (snd (submit_report GIRL 1 "photos/submission_c.jpg" "late" 150
                      after_task_deletion))).
Proof.
  assert (U : user_by_telegram_id GIRL (db after_task_deletion)
              = Some (User.mk 2 GIRL None false)).
  { vm_compute. reflexivity. }
  assert (T : task_by_id 1 (db after_task_deletion) = None).
  { vm_compute. reflexivity. }
  destruct (report_on_deleted_task_is_stored_without_photo GIRL 1
              "photos/submission_c.jpg" "late" 150 _ after_task_deletion U T)
    as (_ & Hs & _ & Hf & _).
  split; [exact U|]. split; [exact T|].
  split; [rewrite Hs; vm_compute; reflexivity | exact Hf].
Defined.

(** ** Task numbering *)

Lemma numbered_S n : numbered (S n) = numbered n ++ [Z.of_nat (S n)].
Proof. unfold numbered. rewrite seq_S, map_app. reflexivity. Qed.

Lemma numbered_bound n x : In x (numbered n) -> 1 <= x <= Z.of_nat n.
Proof.
  unfold numbered. intros H. apply in_map_iff in H.
  destruct H as (k & <- & Hk). apply in_seq in Hk. lia.
Qed.

Lemma numbered_increasing n : increasing (numbered n) = true.
Proof.
  induction n as [|n IH]; [reflexivity|].
  rewrite numbered_S. apply increasing_app; [assumption|].
  intros x Hx. apply numbered_bound in Hx. lia.
Qed.

Lemma order_by_order_sorted l :
  increasing (map Task.order l) = true -> order_by_order l = l.
Proof.
  induction l as [|x rest IH]; intros H; [reflexivity|].
  cbn in H. change (increasing (Task.order x :: map Task.order rest) = true) in H.
  apply increasing_cons in H. destruct H as [Hlt Hrest].
  unfold order_by_order in *. cbn. rewrite (IH Hrest).
  destruct rest as [|y rest']; [reflexivity|]. cbn.
  specialize (Hlt (Task.order y) (or_introl eq_refl)).
  destruct (Task.order x <=? Task.order y) eqn:E; [reflexivity|].
  apply Z.leb_gt in E. lia.
Qed.

Lemma orders_dense_ext d d' : tasks d' = tasks d -> orders_dense d -> orders_dense d'.
Proof. intros Ht H q. unfold tasks_of_quest. rewrite Ht. apply H. Qed.

Lemma apply_edit_keeps e t :
  Task.quest_id (apply_edit e t) = Task.quest_id t
  /\ Task.order (apply_edit e t) = Task.order t.
Proof. destruct e; split; reflexivity. Qed.

Lemma tasks_of_quest_update quest_id ids e l :
  filter_by (fun t => Task.quest_id t =? quest_id)
    (update_rows Task.id ids (apply_edit e) l)
  = map (fun r => if mem (Task.id r) ids then apply_edit e r else r)
      (filter_by (fun t => Task.quest_id t =? quest_id) l).
Proof.
  unfold update_rows. induction l as [|a l IH]; [reflexivity|]. cbn.
  assert (Hq : Task.quest_id (if mem (Task.id a) ids then apply_edit e a else a)
               = Task.quest_id a).
  { destruct (mem _ _); [apply apply_edit_keeps | reflexivity]. }
  rewrite Hq. destruct (Task.quest_id a =? quest_id); cbn; rewrite IH;
    reflexivity.
Qed.

Lemma filter_delete_other {A} (key : A -> Z) (p : A -> bool) ids l :
  (forall x, In x l -> p x = true -> mem (key x) ids = false) ->
  filter_by p (delete_rows key ids l) = filter_by p l.
Proof.
  unfold delete_rows. induction l as [|a l IH]; intros H; [reflexivity|]. cbn.
  destruct (p a) eqn:E.
  - rewrite (H a (or_introl eq_refl) E). cbn. rewrite E. f_equal.
    apply IH. intros x Hx. apply H. right. assumption.
  - destruct (negb _); cbn; rewrite ?E; apply IH; intros x Hx; apply H;
      right; assumption.
Qed.

Lemma tasks_of_other_quest_stay quest_id other d :
  List.NoDup (map Task.id (tasks d)) -> other <> quest_id ->
  tasks_of_quest other (delete_quest quest_id d) = tasks_of_quest other d.
Proof.
  intros Hnd Hne.
  change (filter_by (fun t => Task.quest_id t =? other)
            (delete_rows Task.id (map Task.id (tasks_of_quest quest_id d))
               (tasks d))
          = filter_by (fun t => Task.quest_id t =? other) (tasks d)).
  apply filter_delete_other. intros t Hin Hq.
  apply not_true_iff_false. intros Hm.
  apply mem_In in Hm. apply in_map_iff in Hm.
  destruct Hm as (t' & Hid & Ht'). apply filter_In in Ht'.
  destruct Ht' as [Hin' Hq'].
  rewrite (same_key_same_row Task.id _ t' t Hnd Hin' Hin Hid) in Hq'.
  apply Z.eqb_eq in Hq, Hq'. congruence.
Qed.

Lemma step_db_orders_dense admin_id girlfriend_id o d :
  primary_keys d = true -> orders_dense d ->
  deletes_task admin_id o = false ->
  orders_dense (step_db admin_id girlfriend_id o d).
Proof.
  intros Hpk H Hdel. destruct o; cbn -[next_id] in *.
  - apply (orders_dense_ext d); [|assumption].
    unfold main_init_db, add_user.
    destruct (user_by_telegram_id admin_id d); cbn;
      match goal with
      | |- context [user_by_telegram_id girlfriend_id ?x] =>
          destruct (user_by_telegram_id girlfriend_id x)
      end; destruct (negb _); reflexivity.
  - apply (orders_dense_ext d); [|assumption].
    unfold cmd_start_db, add_user. destruct (_ || _); [|reflexivity].
    destruct (user_by_telegram_id _ _); reflexivity.
  - unfold callback_db. destruct (user_id =? admin_id); [|assumption].
    destruct c; try assumption; try discriminate.
    + apply (orders_dense_ext d); [|assumption].
      unfold approve_db. destruct (submission_by_id _ _); [|reflexivity].
      cbn zeta. destruct (completion_due _ _); reflexivity.
    + apply (orders_dense_ext d); [|assumption].
      unfold reject_db. destruct (submission_by_id _ _); [|reflexivity].
      destruct (task_by_id _ _); reflexivity.
    + unfold confirm_delete_quest_db.
      destruct (quest_by_id quest_id d) as [q|]; [|assumption].
      intros other. destruct (Z.eq_dec other (Quest.id q)) as [->|Hne].
      * rewrite delete_quest_no_tasks. reflexivity.
      * rewrite tasks_of_other_quest_stay; [apply H | | assumption].
        apply primary_keys_iff in Hpk. apply increasing_NoDup. apply Hpk.
  - apply (orders_dense_ext d); [|assumption].
    unfold submit_db. destruct (user_by_telegram_id _ _); reflexivity.
  - apply (orders_dense_ext d); [|assumption].
    unfold quest_required_db. destruct (user_by_telegram_id _ _); reflexivity.
  - unfold task_date_db. destruct (date_accepted _); [|assumption].
    intros other. unfold tasks_of_quest. cbn -[next_id numbered].
    rewrite List.filter_app. cbn -[next_id numbered].
    destruct (quest_id =? other) eqn:E.
    + apply Z.eqb_eq in E. subst other.
      rewrite map_app, List.length_app. cbn [length map].
      rewrite Nat.add_1_r, numbered_S. f_equal; [apply H|].
      cbn [Task.order]. unfold count, tasks_of_quest. f_equal. lia.
    + rewrite app_nil_r. apply H.
  - unfold edit_task_field_db. destruct (task_by_id _ _); [|assumption].
    destruct (edit_accepted _); [|assumption].
    intros other.
    change (tasks_of_quest other
              (set_tasks (update_rows Task.id [Task.id t] (apply_edit e)) d))
      with (filter_by (fun t => Task.quest_id t =? other)
              (update_rows Task.id [Task.id t] (apply_edit e) (tasks d))).
    rewrite tasks_of_quest_update, map_map, length_map.
    fold (tasks_of_quest other d). rewrite <- (H other).
    apply map_ext. intros a.
    match goal with
    | |- context [if ?c then _ else _] => destruct c
    end; [apply apply_edit_keeps | reflexivity].
Qed.

(** X8.  As long as no task is deleted, the tasks of every quest carry the
    orders 1, 2, 3, ... in the order of their creation (whatever else
    happens: reports, approvals, rejections, edits, deletions of whole
    quests), so [order_by(Task.order)] lists them in that order. *)
Theorem tasks_numbered_in_creation_order (admin_id girlfriend_id : Z)
    (ops : list op) (quest_id : Z) :
  forallb (fun o => negb (deletes_task admin_id o)) ops = true ->
  let d := db (run admin_id girlfriend_id ops initial_world) in
  map Task.order (tasks_of_quest quest_id d)
  = numbered (length (tasks_of_quest quest_id d))
  /\ order_by_order (tasks_of_quest quest_id d) = tasks_of_quest quest_id d.
Proof.
  intros Hops d.
  assert (H : primary_keys d = true /\ orders_dense d).
  { subst d. rewrite run_db_correct.
    change (db initial_world) with empty_db.
    assert (H0 : primary_keys empty_db = true /\ orders_dense empty_db).
    { split; [reflexivity | intros q; reflexivity]. }
    revert H0. generalize empty_db.
    induction ops as [|o ops IH]; intros d0 [Hpk Hd]; cbn; [auto|].
    cbn in Hops. apply andb_true_iff in Hops. destruct Hops as [Ho Hops].
    apply negb_true_iff in Ho.
    apply IH; [assumption|]. split.
    - apply step_db_primary_keys. assumption.
    - apply step_db_orders_dense; assumption. }
  destruct H as [_ H]. split; [apply H|].
  apply order_by_order_sorted. rewrite H. apply numbered_increasing.
Qed.

(** The two tasks of the quest of [two_tasks]. *)
Lemma tasks_numbered_in_creation_order_witness :
  forallb (fun o => negb (deletes_task ADMIN o)) two_tasks = true
  /\ map Task.order (tasks_of_quest 1 (db one_task_approved)) = [1; 2]
  /\ order_by_order (tasks_of_quest 1 (db one_task_approved))
     = tasks_of_quest 1 (db one_task_approved).
Proof.
  assert (H : forallb (fun o => negb (deletes_task ADMIN o)) two_tasks = true).
  { vm_compute. reflexivity. }
  destruct (tasks_numbered_in_creation_order ADMIN GIRL two_tasks 1 H)
    as [Ho Hs].
  split; [exact H|]. split; [|exact Hs].
  vm_compute. reflexivity.
Defined.

(** After deletions the count no longer bounds the orders in use: the
    task added last gets order 2 and is listed before the older task of
    order 3. *)
Example deleted_tasks_break_the_numbering :
  let d := db (run ADMIN GIRL renumbering initial_world) in
  map Task.title (tasks_of_quest 1 d) = ["Hill"; "Lake"]
  /\ map Task.order (tasks_of_quest 1 d) = [3; 2]
  /\ map Task.title (order_by_order (tasks_of_quest 1 d)) = ["Lake"; "Hill"].
Proof. vm_compute. repeat split. Qed.

(** ** From the active-quest view to the report dialogue *)

Lemma insert_by_order_In t x l :
  In x (insert_by_order t l) <-> x = t \/ In x l.
Proof.
  induction l as [|y l IH]; cbn.
  - split; [intros [<-|[]]; auto | intros [->|[]]; auto].
  - destruct (Task.order t <=? Task.order y); cbn.
    + split; [intros [<-|H]; auto | intros [->|H]; auto].
    + rewrite IH. split.
      * intros [<-|[->|H]]; auto.
      * intros [->|[<-|H]]; auto.
Qed.

Lemma order_by_order_In x l : In x (order_by_order l) <-> In x l.
Proof.
  unfold order_by_order. induction l as [|y l IH]; cbn; [reflexivity|].
  rewrite insert_by_order_In, IH. split; intros [H|H]; auto.
Qed.

(** [do_<id>] asks for the photo whenever the task exists and the
    participant has no unapproved report on it; it looks at nothing
    else. *)
Lemma do_task_prompts girlfriend_id task_id w user t :
  user_by_telegram_id girlfriend_id (db w) = Some user ->
  task_by_id task_id (db w) = Some t ->
  pending_of task_id (User.id user) (db w) = [] ->
  do_task girlfriend_id task_id w
  = (Ok tt, mkWorld (db w) (files w) (trace w ++ [Send (TaskPromptMsg task_id)])).
Proof.
  intros Hu Ht Hp. unfold do_task. munfold. cbn. rewrite Hu, Ht. cbn.
  rewrite Hp. reflexivity.
Qed.

Lemma show_current_quest_lines girlfriend_id today w v :
  fst (show_current_quest girlfriend_id today w) = Ok (CurrentQuest v) ->
  exists user,
    user_by_telegram_id girlfriend_id (db w) = Some user
    /\ view_lines v
       = map (fun t => (t, classify (User.id user) (db w) today t))
           (order_by_order (tasks_of_quest (Quest.id (view_quest v)) (db w)))
    /\ view_buttons v
       = map (fun l => Task.id (fst l))
           (filter_by (fun l => is_available (snd l)) (view_lines v)).
Proof.
  unfold show_current_quest. munfold. cbn.
  destruct (user_by_telegram_id girlfriend_id (db w)) as [user|]; cbn;
    [|discriminate].
  intros H. exists user. split; [reflexivity|].
  match type of H with
  | context [match ?x with _ :: _ => _ | [] => _ end] => destruct x
  end.
  all: match type of H with
       | context [first ?x] => destruct (first x) as [quest|]
       end; cbn in H; try discriminate.
  all: destruct (0 <? Quest.required_completions quest); cbn in H.
  all: try (destruct (Py.int_truediv _ _); cbn in H; [|discriminate];
            destruct (Py.int_of_float _); cbn in H; [|discriminate]).
  all: injection H as <-; cbn; split; [|reflexivity].
  all: apply map_ext; intros t; f_equal; apply task_state_classify.
Qed.

Lemma classify_available_no_pending user_id d today t :
  classify user_id d today t = Available ->
  pending_of (Task.id t) user_id d = [].
Proof.
  unfold classify. destruct (has_approved user_id d t); [discriminate|].
  destruct (has_pending user_id d t) eqn:E; [discriminate|]. intros _.
  apply filter_nil_iff. intros s Hs.
  destruct ((Submission.task_id s =? Task.id t)
            && (Submission.user_id s =? user_id)
            && negb (Submission.is_approved s)) eqn:Ep; [|reflexivity].
  exfalso. apply not_true_iff_false in E. apply E.
  unfold has_pending. apply existsb_exists. exists s. split; [assumption|].
  apply andb_true_iff in Ep. destruct Ep as [Ep Ha].
  apply andb_true_iff in Ep. destruct Ep as [Et Eu].
  rewrite Eu, Ha, Et. reflexivity.
Qed.

(** X9.  Every button the active-quest view offers can be used: pressing
    [do_<id>] for a task the view has just listed as available finds the
    task, finds no unapproved report of the participant on it, and asks
    for the photo; the database and the files are as before. *)
Theorem offered_task_buttons_open_the_report_dialogue
    (girlfriend_id : Z) (today : string) (w : world) (v : quest_view)
    (task_id : Z) :
  fst (show_current_quest girlfriend_id today w) = Ok (CurrentQuest v) ->
  In task_id (view_buttons v) ->
  do_task girlfriend_id task_id w
  = (Ok tt,
     mkWorld (db w) (files w) (trace w ++ [Send (TaskPromptMsg task_id)])).
Proof.
  intros Hv Hin.
  destruct (show_current_quest_lines _ _ _ _ Hv) as (user & Hu & Hl & Hb).
  rewrite Hb, Hl in Hin. apply in_map_iff in Hin.
  destruct Hin as ([t st] & Hid & Hin). cbn in Hid. subst task_id.
  apply filter_In in Hin. destruct Hin as [Hin Hav]. cbn in Hav.
  apply in_map_iff in Hin. destruct Hin as (t' & [= -> <-] & Hin).
  apply (proj1 (order_by_order_In _ _)) in Hin. apply filter_In in Hin.
  destruct Hin as [Hin _].
  assert (Hst : classify (User.id user) (db w) today t = Available).
  { destruct (classify _ _ _ _); try discriminate. reflexivity. }
  assert (Ht : exists t0, task_by_id (Task.id t) (db w) = Some t0).
  { unfold task_by_id.
    destruct (filter_by (fun r => Task.id r =? Task.id t) (tasks (db w)))
      as [|t0 l] eqn:Ef; [|exists t0; reflexivity].
    exfalso. pose proof (proj1 (filter_nil_iff _ _) Ef t Hin) as Hf.
    cbn in Hf. rewrite Z.eqb_refl in Hf. discriminate. }
  destruct Ht as (t0 & Ht).
  apply (do_task_prompts _ _ _ user t0); [assumption | assumption |].
  apply (classify_available_no_pending _ _ today). assumption.
Qed.


(** The second task of the quest with pictures has no report yet. *)
Lemma offered_task_buttons_open_the_report_dialogue_witness :
  (exists v,
     fst (show_current_quest GIRL TODAY with_open_task) = Ok (CurrentQuest v)
     /\ view_buttons v = [2])
  /\ do_task GIRL 2 with_open_task
     = (Ok tt,
        mkWorld (db with_open_task) (files with_open_task)
          (trace with_open_task ++ [Send (TaskPromptMsg 2)])).
Proof.
  destruct (fst (show_current_quest GIRL TODAY with_open_task))
    as [[|v]|e] eqn:E; try (vm_compute in E; discriminate).
  assert (B : view_buttons v = [2]).
  { vm_compute in E. injection E as <-. reflexivity. }
  split; [exists v; split; [reflexivity | exact B]|].
  apply (offered_task_buttons_open_the_report_dialogue GIRL TODAY
           with_open_task v 2 E).
  rewrite B. left. reflexivity.
Defined.

(** ** Achievements *)

Lemma filter_map_length_ge {A} (p : A -> bool) (f : A -> A) l :
  (forall x, p x = true -> p (f x) = true) ->
  (length (filter_by p l) <= length (filter_by p (map f l)))%nat.
Proof.
  intros H. induction l as [|a l IH]; cbn; [lia|].
  destruct (p a) eqn:E.
  - rewrite (H a E). cbn. lia.
  - destruct (p (f a)); cbn; lia.
Qed.

Lemma approved_total_ext u d d' :
  submissions d' = submissions d -> approved_total u d <= approved_total u d'.
Proof. unfold approved_total. intros ->. lia. Qed.

Lemma approved_total_delete u ids d :
  (forall s, In s (submissions d) -> Submission.is_approved s = true ->
             mem (Submission.id s) ids = false) ->
  approved_total u (set_submissions (delete_rows Submission.id ids) d)
  = approved_total u d.
Proof.
  intros H. unfold approved_total. cbn.
  rewrite filter_delete_other; [reflexivity|]. intros s Hs Hp.
  apply andb_true_iff in Hp. apply H; [assumption | apply Hp].
Qed.

Lemma step_db_approved_total admin_id girlfriend_id o d u :
  List.NoDup (map Submission.id (submissions d)) ->
  deletes_history admin_id o d = false ->
  approved_total u d <= approved_total u (step_db admin_id girlfriend_id o d).
Proof.
  intros Hnd Hok. destruct o; cbn -[next_id].
  - apply approved_total_ext.
    unfold main_init_db, add_user.
    destruct (user_by_telegram_id admin_id d); cbn;
      match goal with
      | |- context [user_by_telegram_id girlfriend_id ?x] =>
          destruct (user_by_telegram_id girlfriend_id x)
      end; destruct (negb _); reflexivity.
  - apply approved_total_ext.
    unfold cmd_start_db, add_user. destruct (_ || _); [|reflexivity].
    destruct (user_by_telegram_id _ _); reflexivity.
  - unfold callback_db. cbn in Hok.
    destruct (user_id =? admin_id); [|lia]. cbn in Hok.
    destruct c; try discriminate; try lia.
    + unfold approved_total, count. rewrite approve_db_submissions.
      apply inj_le. apply filter_map_length_ge. intros s Hs.
      destruct (Submission.id s =? sub_id); [|assumption].
      apply andb_true_iff in Hs. destruct Hs as [Hu _]. cbn.
      rewrite Hu. reflexivity.
    + unfold reject_db.
      destruct (submission_by_id sub_id d) as [sub|] eqn:Es; [|lia].
      destruct (task_by_id _ _); [|lia].
      rewrite approved_total_delete; [lia|].
      intros s Hs Ha. cbn. rewrite orb_false_r.
      apply submission_by_id_id in Es. rewrite Es.
      apply not_true_iff_false. intros Hk.
      unfold approved_with_id in Hok. apply not_true_iff_false in Hok.
      apply Hok. apply existsb_exists. exists s. split; [assumption|].
      rewrite Hk, Ha. reflexivity.
  - unfold submit_db.
    destruct (user_by_telegram_id girlfriend_id d) as [user|]; [|lia].
    unfold approved_total. cbn -[next_id]. rewrite List.filter_app.
    cbn -[next_id]. rewrite andb_false_r, app_nil_r.
    rewrite filter_delete_other; [lia|].
    intros s Hs Hp. apply andb_true_iff in Hp. destruct Hp as [_ Ha].
    apply not_true_iff_false. intros Hm. apply mem_In in Hm.
    apply in_map_iff in Hm. destruct Hm as (s' & Hid & Hs').
    apply filter_In in Hs'. destruct Hs' as [Hin' Hp'].
    rewrite (same_key_same_row Submission.id _ s' s Hnd Hin' Hs Hid) in Hp'.
    rewrite Ha in Hp'. rewrite andb_false_r in Hp'. discriminate.
  - apply approved_total_ext.
    unfold quest_required_db. destruct (user_by_telegram_id _ _); reflexivity.
  - apply approved_total_ext.
    unfold task_date_db. destruct (date_accepted _); reflexivity.
  - apply approved_total_ext.
    unfold edit_task_field_db. destruct (task_by_id _ _); [|reflexivity].
    destruct (edit_accepted _); reflexivity.
Qed.

Lemma completed_quests_ext u d d' :
  quest_completions d' = quest_completions d ->
  completed_quests u d <= completed_quests u d'.
Proof. unfold completed_quests. intros ->. lia. Qed.

(** No operation takes a completion row away from its user. *)
Lemma step_db_completed_quests admin_id girlfriend_id o d u :
  completed_quests u d
  <= completed_quests u (step_db admin_id girlfriend_id o d).
Proof.
  destruct o; cbn -[next_id].
  - apply completed_quests_ext.
    unfold main_init_db, add_user.
    destruct (user_by_telegram_id admin_id d); cbn;
      match goal with
      | |- context [user_by_telegram_id girlfriend_id ?x] =>
          destruct (user_by_telegram_id girlfriend_id x)
      end; destruct (negb _); reflexivity.
  - apply completed_quests_ext.
    unfold cmd_start_db, add_user. destruct (_ || _); [|reflexivity].
    destruct (user_by_telegram_id _ _); reflexivity.
  - unfold callback_db. destruct (user_id =? admin_id); [|lia].
    destruct c; try lia.
    + destruct (approve_db_completions sub_id now d)
        as [E|(sub & quest & _ & _ & _ & E)];
        unfold completed_quests, count; rewrite E; [lia|].
      rewrite List.filter_app, List.length_app. lia.
    + apply completed_quests_ext.
      unfold reject_db. destruct (submission_by_id _ _); [|reflexivity].
      destruct (task_by_id _ _); reflexivity.
    + unfold confirm_delete_quest_db.
      destruct (quest_by_id quest_id d) as [q|]; [|lia].
      unfold completed_quests, count. cbn. unfold update_rows.
      rewrite filter_map_length_eq; [lia|].
      intros c. destruct (mem _ _); reflexivity.
    + apply completed_quests_ext.
      unfold confirm_delete_task_db. destruct (task_by_id _ _); reflexivity.
  - apply completed_quests_ext.
    unfold submit_db. destruct (user_by_telegram_id _ _); reflexivity.
  - apply completed_quests_ext.
    unfold quest_required_db. destruct (user_by_telegram_id _ _); reflexivity.
  - apply completed_quests_ext.
    unfold task_date_db. destruct (date_accepted _); reflexivity.
  - apply completed_quests_ext.
    unfold edit_task_field_db. destruct (task_by_id _ _); [|reflexivity].
    destruct (edit_accepted _); reflexivity.
Qed.

(** A user row, once stored, is the row every later lookup finds. *)
Lemma add_user_lookup tg admin d tg' u :
  user_by_telegram_id tg' d = Some u ->
  user_by_telegram_id tg' (add_user tg admin d) = Some u.
Proof.
  intros H. unfold add_user. destruct (user_by_telegram_id tg d); [assumption|].
  unfold user_by_telegram_id in *. cbn -[next_id]. rewrite List.filter_app.
  destruct (filter_by _ (users d)); [discriminate | exact H].
Qed.

Lemma step_db_user_lookup admin_id girlfriend_id o d tg u :
  user_by_telegram_id tg d = Some u ->
  user_by_telegram_id tg (step_db admin_id girlfriend_id o d) = Some u.
Proof.
  intros H. destruct o; cbn -[next_id].
  - unfold main_init_db. destruct (negb _); repeat apply add_user_lookup;
      assumption.
  - unfold cmd_start_db. destruct (_ || _); [apply add_user_lookup|];
      assumption.
  - unfold callback_db. destruct (_ =? _); [|assumption].
    destruct c; try assumption.
    + unfold approve_db. destruct (submission_by_id _ _); [|assumption].
      cbn zeta. destruct (completion_due _ _); exact H.
    + unfold reject_db. destruct (submission_by_id _ _); [|assumption].
      destruct (task_by_id _ _); exact H.
    + unfold confirm_delete_quest_db. destruct (quest_by_id _ _); exact H.
    + unfold confirm_delete_task_db. destruct (task_by_id _ _); exact H.
  - unfold submit_db. destruct (user_by_telegram_id girlfriend_id d); exact H.
  - unfold quest_required_db. destruct (user_by_telegram_id from_id d); exact H.
  - unfold task_date_db. destruct (date_accepted _); exact H.
  - unfold edit_task_field_db. destruct (task_by_id _ _); [|assumption].
    destruct (edit_accepted _); exact H.
Qed.

Lemma show_achievements_run girlfriend_id w :
  show_achievements girlfriend_id w
  = match user_by_telegram_id girlfriend_id (db w) with
    | Some user =>
        (Ok (achievements (approved_total (User.id user) (db w))
               (completed_quests (User.id user) (db w))), w)
    | None => (Raise AttributeError, w)
    end.
Proof.
  unfold show_achievements. munfold. cbn.
  destruct (user_by_telegram_id girlfriend_id (db w)); reflexivity.
Qed.

Lemma achievements_kept t c t' c' :
  t <= t' -> c <= c' -> kept (achievements t c) (achievements t' c').
Proof.
  intros Ht Hc. unfold kept, achievements.
  repeat (constructor;
          [split; [reflexivity | cbn; rewrite !Z.leb_le; lia]|]).
  constructor.
Qed.

Lemma quest_achievements_kept t c t' c' :
  c <= c' -> kept (skipn 4 (achievements t c)) (skipn 4 (achievements t' c')).
Proof.
  intros Hc. unfold kept, achievements. cbn [skipn].
  repeat (constructor;
          [split; [reflexivity | cbn; rewrite !Z.leb_le; lia]|]).
  constructor.
Qed.

(** X10.  An operation that takes no approved submission out of the
    database (no deletion of a task or quest, no rejection of an approved
    report) loses no achievement: the list [show_achievements] computes
    afterwards has the same six entries, and each one that was earned is
    still earned. *)
Theorem achievements_survive_operations_that_keep_history
    (admin_id girlfriend_id : Z) (o : op) (w : world)
    (l : list (string * string * bool)) :
  List.NoDup (map Submission.id (submissions (db w))) ->
  deletes_history admin_id o (db w) = false ->
  fst (show_achievements girlfriend_id w) = Ok l ->
  exists l',
    fst (show_achievements girlfriend_id (step admin_id girlfriend_id o w))
    = Ok l'
    /\ kept l l'.
Proof.
  intros Hnd Hok. rewrite !show_achievements_run, step_db_correct.
  destruct (user_by_telegram_id girlfriend_id (db w)) as [user|] eqn:Hu;
    [|discriminate].
  rewrite (step_db_user_lookup _ _ _ _ _ _ Hu). cbn. intros [= <-].
  eexists. split; [reflexivity|].
  apply achievements_kept.
  - apply step_db_approved_total; assumption.
  - apply step_db_completed_quests.
Qed.

(** The approval of submission 2. *)
Lemma achievements_survive_operations_that_keep_history_witness :
  List.NoDup (map Submission.id (submissions (db before_second_approval)))
  /\ deletes_history ADMIN (Callback ADMIN (Approve 2) 140 TODAY)
       (db before_second_approval) = false
  /\ fst (show_achievements GIRL before_second_approval)
     = Ok (achievements 1 0)
  /\ exists l',
       fst (show_achievements GIRL after_second_approval) = Ok l'
       /\ kept (achievements 1 0) l'.
Proof.
  assert (H : List.NoDup
                (map Submission.id (submissions (db before_second_approval)))).
  { distinct_ids. }
  assert (K : deletes_history ADMIN (Callback ADMIN (Approve 2) 140 TODAY)
                (db before_second_approval) = false).
  { vm_compute. reflexivity. }
  assert (A : fst (show_achievements GIRL before_second_approval)
              = Ok (achievements 1 0)).
  { vm_compute. reflexivity. }
  split; [exact H|]. split; [exact K|]. split; [exact A|].
  exact (achievements_survive_operations_that_keep_history ADMIN GIRL
           (Callback ADMIN (Approve 2) 140 TODAY) before_second_approval
           _ H K A).
Defined.

Lemma run_completed_quests admin_id girlfriend_id ops w tg u :
  user_by_telegram_id tg (db w) = Some u ->
  user_by_telegram_id tg (db (run admin_id girlfriend_id ops w)) = Some u
  /\ completed_quests (User.id u) (db w)
     <= completed_quests (User.id u) (db (run admin_id girlfriend_id ops w)).
Proof.
  rewrite run_db_correct. generalize (db w). clear w.
  induction ops as [|o ops IH]; intros d Hu; cbn; [split; [assumption | lia]|].
  destruct (IH _ (step_db_user_lookup admin_id girlfriend_id o _ _ _ Hu))
    as [Hu' Hc].
  split; [assumption|].
  pose proof (step_db_completed_quests admin_id girlfriend_id o d (User.id u)).
  lia.
Qed.

(** X11.  The two quest achievements are never lost, whatever the bot does
    afterwards: no operation removes a completion row or takes it from its
    user (deleting a quest keeps the completion rows of the quest), so in
    the list [show_achievements] computes after any sequence of operations
    the fifth and sixth entries are earned if they were before. *)
Theorem quest_achievements_are_never_lost (admin_id girlfriend_id : Z)
    (ops : list op) (w : world) (l : list (string * string * bool)) :
  fst (show_achievements girlfriend_id w) = Ok l ->
  exists l',
    fst (show_achievements girlfriend_id (run admin_id girlfriend_id ops w))
    = Ok l'
    /\ kept (skipn 4 l) (skipn 4 l').
Proof.
  rewrite !show_achievements_run.
  destruct (user_by_telegram_id girlfriend_id (db w)) as [user|] eqn:Hu;
    [|discriminate].
  destruct (run_completed_quests admin_id girlfriend_id ops w _ _ Hu)
    as [Hu' Hc].
  rewrite Hu'. cbn [fst]. intros [= <-].
  eexists. split; [reflexivity|].
  apply quest_achievements_kept. assumption.
Qed.

(** After the completion of quest 2, both quests are deleted. *)
Lemma quest_achievements_are_never_lost_witness :
  fst (show_achievements GIRL after_second_approval) = Ok (achievements 2 1)
  /\ exists l',
       fst (show_achievements GIRL
              (run ADMIN GIRL
                 [Callback ADMIN (ConfirmDeleteQuest 2) 150 TODAY;
                  Callback ADMIN (ConfirmDeleteQuest 1) 160 TODAY]
                 after_second_approval))
       = Ok l'
       /\ kept (skipn 4 (achievements 2 1)) (skipn 4 l').
Proof.
  assert (A : fst (show_achievements GIRL after_second_approval)
              = Ok (achievements 2 1)).
  { vm_compute. reflexivity. }
  split; [exact A|].
  exact (quest_achievements_are_never_lost ADMIN GIRL _ after_second_approval
           _ A).
Defined.

(** ** Dates in ISO form are accepted *)

Lemma digit_digit_char k : digit (digit_char k) = Some (k mod 10).
Proof.
  unfold digit_char. pose proof (Z.mod_pos_bound k 10 ltac:(lia)) as Hr.
  remember (k mod 10) as r eqn:Er. clear Er.
  assert (Hc : r = 0 \/ r = 1 \/ r = 2 \/ r = 3 \/ r = 4 \/ r = 5 \/ r = 6
               \/ r = 7 \/ r = 8 \/ r = 9) by lia.
  repeat (destruct Hc as [->|Hc]; [reflexivity|]). subst r. reflexivity.
Qed.

Lemma match_year_iso y rest :
  0 <= y < 10000 ->
  match_year
    (String (digit_char (y / 1000)) (String (digit_char (y / 100))
       (String (digit_char (y / 10)) (String (digit_char y) rest))))
  = Some (y, rest).
Proof.
  intros Hy. unfold match_year. rewrite !digit_digit_char.
  do 2 f_equal. Z.to_euclidean_division_equations. lia.
Qed.

Lemma match_month_iso m rest :
  1 <= m <= 12 ->
  match_month (String (digit_char (m / 10)) (String (digit_char m) rest))
  = Some (m, rest).
Proof.
  intros Hm.
  assert (Hc : m = 1 \/ m = 2 \/ m = 3 \/ m = 4 \/ m = 5 \/ m = 6 \/ m = 7
               \/ m = 8 \/ m = 9 \/ m = 10 \/ m = 11 \/ m = 12) by lia.
  repeat (destruct Hc as [->|Hc]; [reflexivity|]). subst m. reflexivity.
Qed.

Lemma match_day_iso d rest :
  1 <= d <= 31 ->
  match_day (String (digit_char (d / 10)) (String (digit_char d) rest))
  = Some (d, rest).
Proof.
  intros Hd.
  assert (Hc : d = 1 \/ d = 2 \/ d = 3 \/ d = 4 \/ d = 5 \/ d = 6 \/ d = 7
               \/ d = 8 \/ d = 9 \/ d = 10 \/ d = 11 \/ d = 12 \/ d = 13
               \/ d = 14 \/ d = 15 \/ d = 16 \/ d = 17 \/ d = 18 \/ d = 19
               \/ d = 20 \/ d = 21 \/ d = 22 \/ d = 23 \/ d = 24 \/ d = 25
               \/ d = 26 \/ d = 27 \/ d = 28 \/ d = 29 \/ d = 30 \/ d = 31)
    by lia.
  repeat (destruct Hc as [->|Hc]; [reflexivity|]). subst d. reflexivity.
Qed.

Lemma days_in_month_bound y m : days_in_month y m <= 31.
Proof.
  unfold days_in_month.
  destruct (m =? 2); [destruct (is_leap y); lia|].
  destruct (_ || _); lia.
Qed.

(** X12.  Every calendar date, written as [date.isoformat()] writes it, is
    read back by [strptime(s, '%Y-%m-%d')] as the same date, so
    [validate_date] accepts it: in particular the [today] that the
    active-quest view compares scheduled dates with is a valid scheduled
    date itself. *)
Theorem validate_date_accepts_every_iso_date (y m d : Z) :
  valid_ymd y m d = true ->
  strptime_ymd (isoformat (y, m, d)) = Some (y, m, d)
  /\ validate_date (isoformat (y, m, d)) = true.
Proof.
  intros Hv.
  assert (Hs : strptime_ymd (isoformat (y, m, d)) = Some (y, m, d)).
  { pose proof Hv as Hb. unfold valid_ymd in Hb.
    rewrite !andb_true_iff, !Z.leb_le in Hb.
    destruct Hb as (((((Hy1 & Hy2) & Hm1) & Hm2) & Hd1) & Hd2).
    pose proof (days_in_month_bound y m) as Hdm.
    unfold strptime_ymd, isoformat.
    rewrite match_year_iso by lia. cbn [expect_dash].
    change (Ascii.eqb "-" "-") with true. cbv iota.
    rewrite match_month_iso by lia. cbn [expect_dash].
    change (Ascii.eqb "-" "-") with true. cbv iota.
    rewrite match_day_iso by lia. rewrite Hv. reflexivity. }
  split; [exact Hs|]. unfold validate_date. rewrite Hs. reflexivity.
Qed.

(** The twenty-ninth of February of a leap year. *)
Lemma validate_date_accepts_every_iso_date_witness :
  valid_ymd 2024 2 29 = true
  /\ isoformat (2024, 2, 29) = "2024-02-29"
  /\ validate_date (isoformat (2024, 2, 29)) = true.
Proof.
  assert (H : valid_ymd 2024 2 29 = true) by (vm_compute; reflexivity).
  split; [exact H|]. split; [vm_compute; reflexivity|].
  exact (proj2 (validate_date_accepts_every_iso_date 2024 2 29 H)).
Defined.

(** ** The progress bar on a range of counts *)

Lemma upto_In n x : In x (upto n) <-> 0 <= x <= Z.of_nat n.
Proof.
  unfold upto. rewrite in_map_iff. split.
  - intros (k & <- & Hk). apply in_seq in Hk. lia.
  - intros Hx. exists (Z.to_nat x). split; [lia|]. apply in_seq. lia.
Qed.

Lemma bars_as_expected_spec n :
  bars_as_expected n = true ->
  forall total completed,
    0 < total <= Z.of_nat n -> 0 <= completed <= total ->
    bar_as_expected completed total = true.
Proof.
  unfold bars_as_expected. intros H total completed Ht Hc.
  rewrite forallb_forall in H.
  specialize (H total (proj2 (upto_In n total) ltac:(lia))).
  apply orb_true_iff in H. destruct H as [H|H]; [apply Z.eqb_eq in H; lia|].
  rewrite forallb_forall in H.
  apply H. apply upto_In. lia.
Qed.

Lemma bars_as_expected_100 : bars_as_expected 100 = true.
Proof. vm_compute. reflexivity. Qed.

Lemma ten_cells k :
  0 <= k <= 10 ->
  Py.len (Py.str_mul FULL k ++ Py.str_mul LIGHT (10 - k))%string = 10.
Proof.
  intros Hk.
  assert (Hc : k = 0 \/ k = 1 \/ k = 2 \/ k = 3 \/ k = 4 \/ k = 5 \/ k = 6
               \/ k = 7 \/ k = 8 \/ k = 9 \/ k = 10) by lia.
  repeat (destruct Hc as [->|Hc]; [vm_compute; reflexivity|]).
  subst k. vm_compute. reflexivity.
Qed.

(** X13.  For every required count from 1 to 100 and every completed
    count up to it, [format_progress_bar] (binary64 division, truncation,
    floor division by ten) returns a bar of exactly ten cells of which
    [10 * completed // total] are full: the rounding of the quotient never
    costs a cell on this range. *)
Theorem format_progress_bar_is_proportional (completed total : Z) :
  0 < total <= 100 -> 0 <= completed <= total ->
  let filled := 10 * completed / total in
  format_progress_bar completed total DEFAULT_LENGTH
  = Some (Py.str_mul FULL filled ++ Py.str_mul LIGHT (10 - filled))%string
  /\ 0 <= filled <= 10
  /\ Py.len (Py.str_mul FULL filled ++ Py.str_mul LIGHT (10 - filled))%string
     = 10.
Proof.
  intros Ht Hc filled.
  assert (Hf : 0 <= filled <= 10).
  { subst filled. split.
    - apply Z.div_pos; lia.
    - apply Z.div_le_upper_bound; lia. }
  split; [|split; [exact Hf | apply ten_cells; exact Hf]].
  pose proof (bars_as_expected_spec 100 bars_as_expected_100 total completed
                Ht Hc) as H.
  unfold bar_as_expected in H.
  destruct (format_progress_bar completed total DEFAULT_LENGTH) as [bar|];
    [|discriminate].
  apply String.eqb_eq in H. subst bar. reflexivity.
Qed.

(** Twenty-nine of a hundred: the quotient times 100 rounds below 29. *)
Lemma format_progress_bar_is_proportional_witness :
  0 < 100 <= 100 /\ 0 <= 29 <= 100
  /\ format_progress_bar 29 100 DEFAULT_LENGTH = Some "██░░░░░░░░".
Proof.
  assert (Ht : 0 < 100 <= 100) by lia.
  assert (Hc : 0 <= 29 <= 100) by lia.
  split; [exact Ht|]. split; [exact Hc|].
  exact (proj1 (format_progress_bar_is_proportional 29 100 Ht Hc)).
Defined.

(** Beyond the required count the rounding can cost a cell: 23 of 10 is
    2.3, times 100 is 229.99999999999997, so 22 cells and not 23. *)
Example progress_bar_overflow_loses_a_cell :
  format_progress_bar 23 10 DEFAULT_LENGTH = Some (Py.str_mul FULL 22).
Proof. vm_compute. reflexivity. Qed.

(** ** Callback data: what the keyboards write, [handle_callback] reads *)

Lemma append_cons c s t : (String c s ++ t)%string = String c (s ++ t).
Proof. reflexivity. Qed.

Lemma append_nil_r s : (s ++ "")%string = s.
Proof.
  induction s as [|c s IH]; [reflexivity|]. rewrite append_cons, IH.
  reflexivity.
Qed.

Lemma rev_onto_rev_onto s acc acc' :
  PyStr.rev_onto (PyStr.rev_onto s acc) acc'
  = PyStr.rev_onto acc (s ++ acc')%string.
Proof.
  revert acc acc'. induction s as [|c s IH]; intros acc acc'; cbn;
    [reflexivity|].
  rewrite IH, append_cons. reflexivity.
Qed.

Lemma reverse_involutive s : PyStr.reverse (PyStr.reverse s) = s.
Proof.
  unfold PyStr.reverse. rewrite rev_onto_rev_onto. apply append_nil_r.
Qed.

Lemma all_chars_app p s t :
  all_chars p (s ++ t) = all_chars p s && all_chars p t.
Proof.
  induction s as [|c s IH]; [reflexivity|].
  rewrite append_cons. cbn. rewrite IH, andb_assoc. reflexivity.
Qed.

Lemma all_chars_rev_onto p s acc :
  all_chars p (PyStr.rev_onto s acc) = all_chars p s && all_chars p acc.
Proof.
  revert acc. induction s as [|c s IH]; intros acc; cbn; [reflexivity|].
  rewrite IH. cbn. destruct (p c), (all_chars p s); reflexivity.
Qed.

Lemma all_chars_reverse p s : all_chars p (PyStr.reverse s) = all_chars p s.
Proof.
  unfold PyStr.reverse. rewrite all_chars_rev_onto. cbn. apply andb_true_r.
Qed.

Lemma all_chars_imp (p q : ascii -> bool) s :
  (forall c, p c = true -> q c = true) ->
  all_chars p s = true -> all_chars q s = true.
Proof.
  intros H. induction s as [|c s IH]; cbn; [reflexivity|].
  rewrite !andb_true_iff. intros [Hc Hs]. auto.
Qed.

Lemma lstrip_no_space s :
  all_chars (fun c => negb (PyStr.is_space c)) s = true -> PyStr.lstrip s = s.
Proof.
  destruct s as [|c s]; cbn; [reflexivity|].
  destruct (PyStr.is_space c); [discriminate | reflexivity].
Qed.

Lemma strip_no_space s :
  all_chars (fun c => negb (PyStr.is_space c)) s = true -> PyStr.strip s = s.
Proof.
  intros H. unfold PyStr.strip. rewrite (lstrip_no_space s H).
  rewrite lstrip_no_space by (rewrite all_chars_reverse; exact H).
  apply reverse_involutive.
Qed.

Lemma split_no_sep sep s :
  all_chars (fun c => negb (Ascii.eqb c sep)) s = true ->
  PyStr.split sep s = [s].
Proof.
  induction s as [|c s IH]; cbn; [reflexivity|].
  rewrite andb_true_iff. intros [Hc Hs]. rewrite (IH Hs).
  apply negb_true_iff in Hc. rewrite Hc. reflexivity.
Qed.

Lemma split_cons_sep sep s : exists p ps, PyStr.split sep s = p :: ps.
Proof.
  induction s as [|c s (p & ps & IH)]; cbn; [eauto|].
  rewrite IH. destruct (Ascii.eqb c sep); eauto.
Qed.

(** The parts come back from their concatenation with separators. *)
Lemma split_prefix sep p s :
  all_chars (fun c => negb (Ascii.eqb c sep)) p = true ->
  PyStr.split sep (p ++ String sep s) = p :: PyStr.split sep s.
Proof.
  induction p as [|c p IH].
  - intros _. change ("" ++ String sep s)%string with (String sep s). cbn.
    destruct (split_cons_sep sep s) as (q & qs & ->).
    rewrite Ascii.eqb_refl. reflexivity.
  - rewrite append_cons. cbn. rewrite andb_true_iff. intros [Hc Hp].
    rewrite (IH Hp). apply negb_true_iff in Hc. rewrite Hc. reflexivity.
Qed.

Lemma is_digit_cases c :
  is_digit c = true ->
  PyStr.is_space c = false /\ Ascii.eqb c "_" = false
  /\ Ascii.eqb c "-" = false /\ Ascii.eqb c "+" = false.
Proof.
  destruct c as [[|] [|] [|] [|] [|] [|] [|] [|]]; cbn; intros H;
    try discriminate; repeat split.
Qed.

Lemma string_of_uint_digits u :
  all_chars is_digit (NilEmpty.string_of_uint u) = true.
Proof. induction u; cbn; auto. Qed.

Lemma string_of_uint_nonempty u :
  u <> Decimal.Nil -> NilEmpty.string_of_uint u <> "".
Proof. destruct u; cbn; congruence. Qed.

Lemma digits_unsigned s :
  all_chars is_digit s = true -> s <> "" ->
  forall u, NilEmpty.uint_of_string s = Some u ->
  PyStr.int_of_str s = Some (Z.of_uint u)
  /\ PyStr.int_of_str (String "-" s) = Some (- Z.of_uint u)
  /\ PyStr.split "_" s = [s]
  /\ PyStr.split "_" (String "-" s) = [String "-" s].
Proof.
  intros Hd Hne u Hu.
  assert (Hsp : all_chars (fun c => negb (PyStr.is_space c)) s = true).
  { apply (all_chars_imp is_digit); [|exact Hd].
    intros c Hc. destruct (is_digit_cases c Hc) as (-> & _). reflexivity. }
  assert (Hus : all_chars (fun c => negb (Ascii.eqb c "_")) s = true).
  { apply (all_chars_imp is_digit); [|exact Hd].
    intros c Hc. destruct (is_digit_cases c Hc) as (_ & -> & _). reflexivity. }
  assert (Hsplit : PyStr.split "_" s = [s]) by (apply split_no_sep; exact Hus).
  assert (Hok : forallb (fun g => negb (String.eqb g "")) [s] = true).
  { cbn. rewrite andb_true_r. apply negb_true_iff, String.eqb_neq. exact Hne. }
  assert (Hcat : String.concat "" [s] = s) by reflexivity.
  repeat split.
  - unfold PyStr.int_of_str. rewrite (strip_no_space s Hsp).
    destruct s as [|c s']; [congruence|].
    cbn in Hd. apply andb_true_iff in Hd. destruct Hd as [Hc _].
    destruct (is_digit_cases c Hc) as (_ & _ & -> & ->).
    rewrite Hsplit, Hok, Hcat, Hu. reflexivity.
  - unfold PyStr.int_of_str.
    rewrite (strip_no_space (String "-" s)) by (cbn; exact Hsp).
    change (Ascii.eqb "-" "-") with true. cbv iota.
    rewrite Hsplit, Hok, Hcat, Hu. reflexivity.
  - exact Hsplit.
  - apply split_no_sep. cbn. exact Hus.
Qed.

(** [int(str(n)) == n], and [str(n)] holds no underscore. *)
Lemma int_of_str_of_int n :
  PyStr.int_of_str (PyStr.str_of_int n) = Some n
  /\ PyStr.split "_" (PyStr.str_of_int n) = [PyStr.str_of_int n].
Proof.
  unfold PyStr.str_of_int. pose proof (DecimalZ.of_to n) as Hn.
  destruct (Z.to_int n) as [u|u] eqn:E.
  - assert (Hnil : u <> Decimal.Nil).
    { destruct n; cbn in E; try discriminate; injection E as <-;
        [discriminate | apply Unsigned.to_uint_nonnil]. }
    assert (Hs : NilZero.string_of_uint u = NilEmpty.string_of_uint u)
      by (destruct u; [congruence | reflexivity..]).
    cbn [NilZero.string_of_int]. rewrite Hs.
    destruct (digits_unsigned _ (string_of_uint_digits u)
                (string_of_uint_nonempty u Hnil) u (NilEmpty.usu u))
      as (H1 & _ & H3 & _).
    rewrite H1, H3. cbn in Hn. rewrite Hn. auto.
  - assert (Hnil : u <> Decimal.Nil).
    { destruct n; cbn in E; try discriminate. injection E as <-.
      apply Unsigned.to_uint_nonnil. }
    assert (Hs : NilZero.string_of_uint u = NilEmpty.string_of_uint u)
      by (destruct u; [congruence | reflexivity..]).
    cbn [NilZero.string_of_int]. rewrite Hs.
    destruct (digits_unsigned _ (string_of_uint_digits u)
                (string_of_uint_nonempty u Hnil) u (NilEmpty.usu u))
      as (_ & H2 & _ & H4).
    rewrite H2, H4. cbn in Hn. rewrite Hn. auto.
Qed.

(** The parts come back from their concatenation with underscores. *)
Lemma split_concat words s :
  forallb (all_chars (fun c => negb (Ascii.eqb c "_"))) words = true ->
  PyStr.split "_" s = [s] ->
  PyStr.split "_" (String.concat "_" (words ++ [s])) = words ++ [s].
Proof.
  intros Hw Hs. induction words as [|w words IH]; [exact Hs|].
  cbn in Hw. apply andb_true_iff in Hw. destruct Hw as [Hw Hws].
  specialize (IH Hws). rewrite <- app_comm_cons.
  change (String.concat "_" (w :: (words ++ [s])))
    with (match words ++ [s] with
          | [] => w
          | _ :: _ => (w ++ String "_" (String.concat "_" (words ++ [s])))%string
          end).
  destruct (words ++ [s]) as [|x xs] eqn:E.
  - destruct words; discriminate.
  - rewrite split_prefix by exact Hw. rewrite IH. reflexivity.
Qed.

Lemma admin_button a g words n branch :
  forallb (all_chars (fun c => negb (Ascii.eqb c "_"))) words = true ->
  differs_from
    ["cancel_action"; "main_menu"; "girl_stats"; "refresh_stats";
     "manage_quests"; "create_quest"]
    (String.concat "_" (words ++ [PyStr.str_of_int n])) = true ->
  first_match (words ++ [PyStr.str_of_int n]) admin_branches
    (first_match (words ++ [PyStr.str_of_int n]) late_admin_branches
       Route.Unhandled)
  = with_id (PyStr.str_of_int n) branch ->
  route a g a (String.concat "_" (words ++ [PyStr.str_of_int n])) = branch n.
Proof.
  intros Hw Hd Hm. unfold route.
  rewrite (split_concat words _ Hw (proj2 (int_of_str_of_int n))).
  unfold differs_from in Hd. apply negb_true_iff in Hd. cbn [existsb] in Hd.
  repeat (apply orb_false_iff in Hd; destruct Hd as [?E Hd]).
  rewrite E, E0, E1, E2, E3, E4, Z.eqb_refl. cbn [orb]. cbv zeta.
  rewrite Hm. unfold with_id. rewrite (proj1 (int_of_str_of_int n)).
  reflexivity.
Qed.


Lemma girlfriend_button a g words n branch :
  g <> a ->
  forallb (all_chars (fun c => negb (Ascii.eqb c "_"))) words = true ->
  differs_from
    ["cancel_action"; "main_menu"; "current_quest"; "my_stats"; "achievements"]
    (String.concat "_" (words ++ [PyStr.str_of_int n])) = true ->
  first_match (words ++ [PyStr.str_of_int n]) girlfriend_branches
    Route.Unhandled
  = with_id (PyStr.str_of_int n) branch ->
  route a g g (String.concat "_" (words ++ [PyStr.str_of_int n])) = branch n.
Proof.
  intros Hg Hw Hd Hm. unfold route.
  rewrite (split_concat words _ Hw (proj2 (int_of_str_of_int n))).
  unfold differs_from in Hd. apply negb_true_iff in Hd. cbn [existsb] in Hd.
  repeat (apply orb_false_iff in Hd; destruct Hd as [?E Hd]).
  rewrite E, E0, E1, E2, E3, (proj2 (Z.eqb_neq g a) Hg), Z.eqb_refl.
  cbv zeta. rewrite Hm. unfold with_id. rewrite (proj1 (int_of_str_of_int n)).
  reflexivity.
Qed.

Ltac admin_route :=
  lazymatch goal with
  | |- route ?a ?g ?a (?l ++ PyStr.str_of_int ?n)%string = ?branch ?n =>
      let words := eval vm_compute in (removelast (PyStr.split "_" l)) in
      apply (admin_button a g words n branch); reflexivity
  | |- route ?a ?g ?a _ = _ =>
      unfold route; rewrite Z.eqb_refl; reflexivity
  end.

Ltac girlfriend_route H :=
  lazymatch goal with
  | |- route ?a ?g ?g (?l ++ PyStr.str_of_int ?n)%string = ?branch ?n =>
      let words := eval vm_compute in (removelast (PyStr.split "_" l)) in
      apply (girlfriend_button a g words n branch H); reflexivity
  | |- route ?a ?g ?g _ = _ =>
      unfold route; rewrite (proj2 (Z.eqb_neq g a) H), Z.eqb_refl; reflexivity
  end.

(** X14.  Every button of every keyboard the bot shows to the admin comes
    back, when pressed by the admin, to the branch of [handle_callback] it
    was written for, with the number it was written with: [str] and
    [split('_')] / [int] are inverse on the identifiers, and no button's
    data is caught by an earlier branch of the chain. *)
Theorem admin_buttons_reach_their_branches (ADMIN_ID GIRLFRIEND_ID n : Z)
    (quests : list nav.quest_entry) (tasks : list nav.task_entry) :
  let pressed kb :=
    map (fun b => route ADMIN_ID GIRLFRIEND_ID ADMIN_ID (nav.callback_data b))
      (nav.buttons kb) in
  pressed nav.admin_main_menu
  = [Route.GirlStats; Route.ManageQuests; Route.CreateQuest; Route.MainMenu]
  /\ pressed (nav.quest_management_menu quests)
     = map (fun q => Route.ManageQuest (nav.quest_id q)) quests
       ++ [Route.CreateQuest; Route.MainMenu]
  /\ pressed (nav.quest_actions_menu n)
     = [Route.ManageQuestTasks n; Route.DeleteQuest n; Route.ManageQuests]
  /\ pressed (nav.task_management_menu tasks n)
     = map (fun t => Route.EditTask (nav.task_id t)) tasks
       ++ [Route.AddTask n; Route.QuestActions n]
  /\ pressed (nav.task_edit_menu n)
     = [Route.EditField Route.Title n; Route.EditField Route.Description n;
        Route.EditField Route.Points n; Route.EditField Route.Date n;
        Route.DeleteTask n; Route.BackToTasks n]
  /\ pressed (nav.approve_reject_buttons n) = [Route.Approve n; Route.Reject n]
  /\ pressed (nav.confirm_delete_quest n)
     = [Route.ConfirmDeleteQuest n; Route.QuestActions n]
  /\ pressed (nav.confirm_delete_task n)
     = [Route.ConfirmDeleteTask n; Route.EditTask n]
  /\ pressed girl_stats_keyboard = [Route.GirlStats; Route.MainMenu]
  /\ pressed nav.cancel_button = [Route.CancelAction]
  /\ pressed (nav.back_button "main_menu") = [Route.MainMenu].
Proof.
  intros pressed. subst pressed.
  repeat split; cbn [map nav.buttons nav.callback_data nav.admin_main_menu
                       nav.quest_actions_menu nav.task_edit_menu
                       nav.approve_reject_buttons nav.confirm_delete_quest
                       nav.confirm_delete_task girl_stats_keyboard
                       nav.cancel_button nav.back_button
                       nav.quest_management_menu nav.task_management_menu].
  - repeat (apply (f_equal2 cons); [admin_route|]). reflexivity.
  - rewrite map_app, map_map. f_equal.
    + apply map_ext. intros q. cbn [nav.callback_data]. admin_route.
    + cbn [map nav.callback_data]. repeat (apply (f_equal2 cons); [admin_route|]).
      reflexivity.
  - repeat (apply (f_equal2 cons); [admin_route|]). reflexivity.
  - rewrite map_app, map_map. f_equal.
    + apply map_ext. intros t. cbn [nav.callback_data]. admin_route.
    + cbn [map nav.callback_data]. repeat (apply (f_equal2 cons); [admin_route|]).
      reflexivity.
  - repeat (apply (f_equal2 cons); [admin_route|]). reflexivity.
  - repeat (apply (f_equal2 cons); [admin_route|]). reflexivity.
  - repeat (apply (f_equal2 cons); [admin_route|]). reflexivity.
  - repeat (apply (f_equal2 cons); [admin_route|]). reflexivity.
  - repeat (apply (f_equal2 cons); [admin_route|]). reflexivity.
Qed.

(** X15.  When the two configured accounts differ, every button of every
    keyboard the bot shows to the girlfriend comes back, when she presses
    it, to the branch of the girlfriend panel it was written for; the
    [do_<id>] buttons of the active-quest view come back as [do] with the
    id of the task they were made for. *)
Theorem girlfriend_buttons_reach_their_branches (ADMIN_ID GIRLFRIEND_ID : Z)
    (v : quest_view) :
  GIRLFRIEND_ID <> ADMIN_ID ->
  let pressed kb :=
    map (fun b =>
           route ADMIN_ID GIRLFRIEND_ID GIRLFRIEND_ID (nav.callback_data b))
      (nav.buttons kb) in
  pressed nav.girlfriend_main_menu
  = [Route.CurrentQuest; Route.MyStats; Route.Achievements; Route.MainMenu]
  /\ pressed (current_quest_keyboard v)
     = map (fun l => Route.Do (Task.id (fst l)))
         (filter_by (fun l => is_available (snd l)) (view_lines v))
       ++ [Route.CurrentQuest; Route.MainMenu]
  /\ pressed my_stats_keyboard = [Route.MyStats; Route.MainMenu]
  /\ pressed achievements_keyboard = [Route.Achievements; Route.MainMenu]
  /\ pressed (nav.back_button "current_quest") = [Route.CurrentQuest]
  /\ pressed nav.cancel_button = [Route.CancelAction].
Proof.
  intros Hg pressed. subst pressed.
  split; [|split; [|split; [|split; [|split]]]];
    cbn [map nav.buttons nav.callback_data nav.girlfriend_main_menu
           current_quest_keyboard my_stats_keyboard achievements_keyboard
           nav.cancel_button nav.back_button].
  - repeat (apply (f_equal2 cons); [girlfriend_route Hg|]). reflexivity.
  - rewrite map_app, map_map. f_equal.
    + apply map_ext. intros l. cbn [nav.callback_data]. girlfriend_route Hg.
    + cbn [map nav.callback_data].
      repeat (apply (f_equal2 cons); [girlfriend_route Hg|]). reflexivity.
  - repeat (apply (f_equal2 cons); [girlfriend_route Hg|]). reflexivity.
  - repeat (apply (f_equal2 cons); [girlfriend_route Hg|]). reflexivity.
  - repeat (apply (f_equal2 cons); [girlfriend_route Hg|]). reflexivity.
  - reflexivity.
Qed.

(** The configured accounts of the concrete runs. *)
Lemma girlfriend_buttons_reach_their_branches_witness :
  GIRL <> ADMIN
  /\ map (fun b => route ADMIN GIRL GIRL (nav.callback_data b))
       (nav.buttons nav.girlfriend_main_menu)
     = [Route.CurrentQuest; Route.MyStats; Route.Achievements; Route.MainMenu].
Proof.
  assert (H : GIRL <> ADMIN) by discriminate.
  split; [exact H|].
  exact (proj1 (girlfriend_buttons_reach_their_branches ADMIN GIRL
                  (mkView (Quest.mk 1 "" "" None "" 1 0 true 1) 0 "" 0 [] [])
                  H)).
Defined.

(** With one account configured as both, the admin panel answers first
    and the girlfriend's menu leads nowhere. *)
Example one_account_for_both_roles_loses_the_girlfriend_menu (a : Z) :
  map (fun b => route a a a (nav.callback_data b))
    (nav.buttons nav.girlfriend_main_menu)
  = [Route.Unhandled; Route.Unhandled; Route.Unhandled; Route.MainMenu].
Proof.
  cbn [map nav.buttons nav.callback_data nav.girlfriend_main_menu].
  repeat (apply (f_equal2 cons); [admin_route|]). reflexivity.
Qed.






(** ** Statistics *)

Lemma count_filter_cons {A} (p : A -> bool) a l :
  count (filter_by p (a :: l)) = ind (p a) + count (filter_by p l).
Proof.
  unfold count, ind. cbn [List.filter]. destruct (p a); cbn [length]; lia.
Qed.

Lemma count_filter_nonneg {A} (p : A -> bool) l : 0 <= count (filter_by p l).
Proof. unfold count. lia. Qed.

(** Two adjacent ranges. *)
Lemma adjacent_ranges a b c s :
  a <= b -> b <= c ->
  ind (approved_within a b s) + ind (approved_within b c s)
  = ind (approved_within a c s).
Proof.
  intros Hab Hbc. unfold approved_within, ind.
  destruct (Submission.approved_at s) as [t|]; [|reflexivity].
  destruct (Z.leb_spec a t), (Z.ltb_spec t b), (Z.leb_spec b t),
    (Z.ltb_spec t c); cbn; lia.
Qed.

Lemma seven_days_of ts s :
  ind (approved_within (ts - 0 * DAY) (ts - 0 * DAY + DAY) s)
  + (ind (approved_within (ts - 1 * DAY) (ts - 1 * DAY + DAY) s)
  + (ind (approved_within (ts - 2 * DAY) (ts - 2 * DAY + DAY) s)
  + (ind (approved_within (ts - 3 * DAY) (ts - 3 * DAY + DAY) s)
  + (ind (approved_within (ts - 4 * DAY) (ts - 4 * DAY + DAY) s)
  + (ind (approved_within (ts - 5 * DAY) (ts - 5 * DAY + DAY) s)
  + (ind (approved_within (ts - 6 * DAY) (ts - 6 * DAY + DAY) s)
  + 0))))))
  = ind (approved_within (ts - 6 * DAY) (ts + DAY) s).
Proof.
  assert (HD : 0 < DAY) by reflexivity.
  rewrite <- (adjacent_ranges (ts - 6 * DAY) (ts - 5 * DAY) (ts + DAY)) by lia.
  rewrite <- (adjacent_ranges (ts - 5 * DAY) (ts - 4 * DAY) (ts + DAY)) by lia.
  rewrite <- (adjacent_ranges (ts - 4 * DAY) (ts - 3 * DAY) (ts + DAY)) by lia.
  rewrite <- (adjacent_ranges (ts - 3 * DAY) (ts - 2 * DAY) (ts + DAY)) by lia.
  rewrite <- (adjacent_ranges (ts - 2 * DAY) (ts - 1 * DAY) (ts + DAY)) by lia.
  rewrite <- (adjacent_ranges (ts - 1 * DAY) (ts - 0 * DAY) (ts + DAY)) by lia.
  replace (ts - 6 * DAY + DAY) with (ts - 5 * DAY) by lia.
  replace (ts - 5 * DAY + DAY) with (ts - 4 * DAY) by lia.
  replace (ts - 4 * DAY + DAY) with (ts - 3 * DAY) by lia.
  replace (ts - 3 * DAY + DAY) with (ts - 2 * DAY) by lia.
  replace (ts - 2 * DAY + DAY) with (ts - 1 * DAY) by lia.
  replace (ts - 1 * DAY + DAY) with (ts - 0 * DAY) by lia.
  replace (ts - 0 * DAY + DAY) with (ts + DAY) by lia.
  lia.
Qed.

Lemma len_app s t : Py.len (s ++ t)%string = Py.len s + Py.len t.
Proof.
  induction s as [|c s IH]; [reflexivity|].
  rewrite append_cons. cbn [Py.len]. rewrite IH. lia.
Qed.

Lemma len_str_mul s n : Py.len (Py.str_mul s n) = Z.max 0 n * Py.len s.
Proof.
  unfold Py.str_mul.
  replace (Z.max 0 n) with (Z.of_nat (Z.to_nat n)) by lia.
  induction (Z.to_nat n) as [|k IH]; [reflexivity|].
  cbn [Py.str_repeat]. rewrite len_app, IH. lia.
Qed.

Lemma activity_bar_cells n :
  0 <= n -> Py.len (activity_bar n) = Z.max n 5.
Proof.
  intros Hn. unfold activity_bar. rewrite len_app, !len_str_mul.
  change (Py.len FULL) with 1. change (Py.len LIGHT) with 1. lia.
Qed.

Lemma ind_and a b : ind (a && b) = ind a * ind b.
Proof. destruct a, b; reflexivity. Qed.

Lemma last_7_days_spec user_id today_start d :
  let days := last_7_days user_id today_start d in
  map fst days = map (fun i => today_start - i * DAY) [0; 1; 2; 3; 4; 5; 6]
  /\ total (map snd days)
     = approved_between user_id (today_start - 6 * DAY) (today_start + DAY) d
  /\ Forall (fun e => 0 <= snd e) days.
Proof.
  intros days. subst days. split; [reflexivity|]. split.
  - unfold last_7_days, day_count, approved_between, total.
    cbn [map snd fold_right].
    induction (submissions d) as [|s l IH]; [reflexivity|].
    rewrite !count_filter_cons, <- IH, !ind_and.
    rewrite <- (seven_days_of today_start s). ring.
  - apply List.Forall_forall. intros e He. unfold last_7_days in He.
    apply in_map_iff in He. destruct He as (i & <- & _). cbn [snd].
    apply count_filter_nonneg.
Qed.

Lemma sum_points_reads subs acc w : snd (sum_points subs acc w) = w.
Proof.
  revert acc. induction subs as [|s subs IH]; intros acc; [reflexivity|].
  cbn [sum_points]. munfold. cbn.
  destruct (task_by_id (Submission.task_id s) (db w)); cbn; [apply IH|].
  reflexivity.
Qed.

Lemma quest_lines_reads user_id quests w :
  snd (quest_lines user_id quests w) = w.
Proof.
  induction quests as [|q quests IH]; [reflexivity|].
  cbn [quest_lines]. munfold. cbn.
  destruct (first _); cbn.
  - destruct (quest_lines user_id quests w) as [[l|e] w1]; cbn in *; subst;
      reflexivity.
  - destruct (format_progress_bar _ _ _); cbn; [|reflexivity].
    destruct (quest_lines user_id quests w) as [[l|e] w1]; cbn in *; subst;
      reflexivity.
Qed.

(** What [show_my_stats] returns when it returns. *)
Lemma show_my_stats_ok girlfriend_id today_start w v :
  fst (show_my_stats girlfriend_id today_start w) = Ok v ->
  exists user,
    user_by_telegram_id girlfriend_id (db w) = Some user
    /\ my_total_completed v = approved_total (User.id user) (db w)
    /\ my_total_pending v = pending_total (User.id user) (db w)
    /\ my_activity v
       = activity_table (last_7_days (User.id user) today_start (db w)).
Proof.
  unfold show_my_stats. munfold. cbn.
  destruct (user_by_telegram_id girlfriend_id (db w)) as [user|]; cbn;
    [|discriminate].
  match goal with
  | |- context [sum_points ?l ?a w] =>
      pose proof (sum_points_reads l a w) as Hs;
      destruct (sum_points l a w) as [[points|e] w1]
  end; cbn in *; [subst w1 | discriminate].
  match goal with
  | |- context [quest_lines ?u ?l w] =>
      pose proof (quest_lines_reads u l w) as Hq;
      destruct (quest_lines u l w) as [[lines|e] w1]
  end; cbn in *; [subst w1 | discriminate].
  intros [= <-]. exists user. cbn. repeat split.
Qed.

Lemma total_rev l : total (rev l) = total l.
Proof.
  unfold total. induction l as [|x l IH]; [reflexivity|]. cbn [rev].
  rewrite fold_right_app. cbn [fold_right]. rewrite <- IH.
  generalize (rev l). intros r. induction r as [|y r IHr]; cbn; lia.
Qed.

Lemma activity_table_columns days :
  map (fun e => fst (fst e)) (activity_table days) = rev (map fst days)
  /\ map snd (activity_table days) = rev (map snd days).
Proof.
  unfold activity_table. rewrite !map_map, <- !map_rev. split; reflexivity.
Qed.

(** X17.  The activity table that [show_my_stats] shows covers the seven
    days up to today without gap or overlap, oldest day first: its seven
    counts add up to the number of the participant's approved submissions
    whose [approved_at] lies between the midnight six days ago and the
    coming midnight, which is at most the total shown above it; every
    day's bar is ["█" * count + "░" * (5 - count)] and has
    [max(count, 5)] cells, so a day with more than five approvals
    overflows the five-cell bar. *)
Theorem activity_table_counts_the_last_seven_days (girlfriend_id : Z)
    (today_start : Z) (w : world) (v : my_stats) :
  fst (show_my_stats girlfriend_id today_start w) = Ok v ->
  exists user,
    user_by_telegram_id girlfriend_id (db w) = Some user
    /\ map (fun e => fst (fst e)) (my_activity v)
       = map (fun i => today_start - i * DAY) [6; 5; 4; 3; 2; 1; 0]
    /\ total (map snd (my_activity v))
       = approved_between (User.id user) (today_start - 6 * DAY)
           (today_start + DAY) (db w)
    /\ total (map snd (my_activity v)) <= my_total_completed v
    /\ Forall (fun e => snd (fst e) = activity_bar (snd e)
                        /\ Py.len (snd (fst e)) = Z.max (snd e) 5)
         (my_activity v).
Proof.
  intros Hv. destruct (show_my_stats_ok _ _ _ _ Hv) as (user & Hu & Hc & _ & Ha).
  exists user. split; [exact Hu|].
  destruct (last_7_days_spec (User.id user) today_start (db w))
    as (Hd & Hs & Hn).
  assert (Hsum : total (map snd (my_activity v))
                 = approved_between (User.id user) (today_start - 6 * DAY)
                     (today_start + DAY) (db w)).
  { rewrite Ha, (proj2 (activity_table_columns _)), total_rev. exact Hs. }
  split.
  { rewrite Ha, (proj1 (activity_table_columns _)), Hd. reflexivity. }
  split; [exact Hsum|]. split.
  - rewrite Hsum, Hc. unfold approved_between, approved_total, count.
    apply inj_le. apply filter_imp_length. intros s Hs'.
    apply andb_true_iff in Hs'. apply Hs'.
  - rewrite Ha. unfold activity_table. apply List.Forall_forall.
    intros e He. apply in_map_iff in He. destruct He as (x & <- & Hx).
    cbn [fst snd]. split; [reflexivity|].
    apply activity_bar_cells. apply in_rev in Hx.
    rewrite List.Forall_forall in Hn. apply Hn. exact Hx.
Qed.

(** The midnight before the two approvals of [after_second_approval]. *)
Lemma activity_table_counts_the_last_seven_days_witness :
  exists v,
    fst (show_my_stats GIRL 0 after_second_approval) = Ok v
    /\ map snd (my_activity v) = [0; 0; 0; 0; 0; 0; 2]
    /\ total (map snd (my_activity v)) <= my_total_completed v.
Proof.
  destruct (fst (show_my_stats GIRL 0 after_second_approval)) as [v|e] eqn:E;
    [|vm_compute in E; discriminate].
  exists v. split; [reflexivity|].
  destruct (activity_table_counts_the_last_seven_days GIRL 0
              after_second_approval v E) as (user & _ & _ & _ & Hle & _).
  split; [|exact Hle].
  vm_compute in E. injection E as <-. reflexivity.
Defined.

(** ** Sums of counts *)

Lemma total_app l l' : total (l ++ l') = total l + total l'.
Proof.
  unfold total. induction l as [|x l IH]; cbn; [reflexivity|]. rewrite IH. lia.
Qed.

Lemma total_map_add {A} (f g : A -> Z) l :
  total (map (fun x => f x + g x) l) = total (map f l) + total (map g l).
Proof.
  unfold total. induction l as [|x l IH]; cbn; [reflexivity|]. rewrite IH. lia.
Qed.

Lemma total_map_le {A} (f g : A -> Z) l :
  (forall x, In x l -> f x <= g x) -> total (map f l) <= total (map g l).
Proof.
  unfold total. induction l as [|x l IH]; intros H; cbn; [lia|].
  specialize (IH (fun y Hy => H y (or_intror Hy))).
  specialize (H x (or_introl eq_refl)). lia.
Qed.

Lemma total_map_zero {A} (f : A -> Z) l :
  (forall x, In x l -> f x = 0) -> total (map f l) = 0.
Proof.
  unfold total. induction l as [|x l IH]; intros H; cbn; [reflexivity|].
  rewrite (H x (or_introl eq_refl)), IH; [reflexivity|].
  intros y Hy. apply H. right. exact Hy.
Qed.

Lemma count_filter_total {A} (p : A -> bool) l :
  count (filter_by p l) = total (map (fun x => ind (p x)) l).
Proof.
  induction l as [|x l IH]; [reflexivity|].
  rewrite count_filter_cons, IH. reflexivity.
Qed.

Lemma count_flat_map_total {A B} (g : A -> list B) l :
  count (flat_map g l) = total (map (fun x => count (g x)) l).
Proof.
  unfold count. induction l as [|x l IH]; [reflexivity|].
  cbn [flat_map map]. rewrite List.length_app, Nat2Z.inj_add, IH.
  reflexivity.
Qed.

(** Sums over two lists can be taken in either order. *)
Lemma total_swap {A B} (f : A -> B -> Z) la lb :
  total (map (fun a => total (map (f a) lb)) la)
  = total (map (fun b => total (map (fun a => f a b) la)) lb).
Proof.
  induction lb as [|b lb IH].
  - cbn. apply total_map_zero. reflexivity.
  - cbn [map]. unfold total at 2 3. cbn [fold_right]. fold (total (map (fun b0 => total (map (fun a => f a b0) la)) lb)).
    rewrite <- IH.
    change (fun a => total (f a b :: map (f a) lb))
      with (fun a => f a b + total (map (f a) lb)).
    rewrite (total_map_add (fun a => f a b)). reflexivity.
Qed.

Lemma sum_counts_swap {A B} (p : A -> B -> bool) la lb :
  total (map (fun a => count (filter_by (p a) lb)) la)
  = total (map (fun b => total (map (fun a => ind (p a b)) la)) lb).
Proof.
  rewrite <- (total_swap (fun a b => ind (p a b))). f_equal.
  apply map_ext. intros a. apply count_filter_total.
Qed.

Lemma sum_flat_counts_swap {A B C} (g : A -> B -> list C) la lb :
  total (map (fun a => count (flat_map (g a) lb)) la)
  = total (map (fun b => total (map (fun a => count (g a b)) la)) lb).
Proof.
  rewrite <- (total_swap (fun a b => count (g a b))). f_equal.
  apply map_ext. intros a. apply count_flat_map_total.
Qed.

(** A key that occurs once is found at most once. *)
Lemma total_key_le_one {A} (key : A -> Z) (k : Z) l :
  List.NoDup (map key l) -> total (map (fun x => ind (key x =? k)) l) <= 1.
Proof.
  induction l as [|x l IH]; intros Hnd; cbn; [lia|].
  inversion Hnd as [|? ? Hnotin Hnd']; subst.
  specialize (IH Hnd'). unfold total in *. cbn [fold_right map].
  destruct (key x =? k) eqn:E; cbn [ind]; [|lia].
  apply Z.eqb_eq in E.
  assert (H0 : fold_right Z.add 0 (map (fun y => ind (key y =? k)) l) = 0).
  { apply (total_map_zero (fun y => ind (key y =? k))). intros y Hy.
    destruct (key y =? k) eqn:Ey; [|reflexivity].
    apply Z.eqb_eq in Ey. exfalso. apply Hnotin. rewrite E, <- Ey.
    apply in_map. exact Hy. }
  lia.
Qed.

Lemma ind_nonneg b : 0 <= ind b <= 1.
Proof. destruct b; cbn; lia. Qed.

(** One submission is counted for at most one quest. *)
Lemma joined_once (qs : list Quest.t) (ts : list Task.t) u s :
  List.NoDup (map Quest.id qs) -> List.NoDup (map Task.id ts) ->
  total (map (fun q => count (joined_tasks (Quest.id q) u ts s)) qs)
  <= ind ((Submission.user_id s =? u) && Submission.is_approved s).
Proof.
  intros Hq Ht. unfold joined_tasks.
  rewrite (sum_counts_swap
             (fun q t => (Task.id t =? Submission.task_id s)
                         && (Task.quest_id t =? Quest.id q)
                         && (Submission.user_id s =? u)
                         && Submission.is_approved s) qs ts).
  destruct ((Submission.user_id s =? u) && Submission.is_approved s) eqn:E.
  - apply andb_true_iff in E. destruct E as [Eu Ea]. rewrite Eu, Ea.
    cbn [ind].
    transitivity (total (map (fun t => ind (Task.id t =? Submission.task_id s))
                           ts)).
    + apply total_map_le. intros t _.
      destruct (Task.id t =? Submission.task_id s); cbn [andb ind].
      * erewrite map_ext
          by (intros q; rewrite !andb_true_r, Z.eqb_sym; reflexivity).
        apply (total_key_le_one Quest.id). exact Hq.
      * rewrite total_map_zero; [lia | reflexivity].
    + apply (total_key_le_one Task.id). exact Ht.
  - cbn [ind]. rewrite total_map_zero; [lia|]. intros t _.
    apply total_map_zero. intros q _.
    rewrite <- andb_assoc, E, andb_false_r. reflexivity.
Qed.

Lemma progress_sum_le (qs : list Quest.t) u d :
  List.NoDup (map Quest.id qs) -> List.NoDup (map Task.id (tasks d)) ->
  total (map (fun q => quest_progress (Quest.id q) u d) qs)
  <= approved_total u d.
Proof.
  intros Hq Ht. unfold quest_progress, approved_total.
  rewrite (sum_flat_counts_swap
             (fun q => joined_tasks (Quest.id q) u (tasks d))
             qs (submissions d)).
  rewrite count_filter_total. apply total_map_le. intros s _.
  apply joined_once; assumption.
Qed.

Lemma NoDup_filter_map {A} (key : A -> Z) (p : A -> bool) l :
  List.NoDup (map key l) -> List.NoDup (map key (filter_by p l)).
Proof.
  induction l as [|x l IH]; intros H; [constructor|].
  inversion H as [|? ? Hnotin Hnd]; subst. cbn.
  destruct (p x); [|auto]. cbn. constructor; [|auto].
  intros Hin. apply Hnotin. apply in_map_iff in Hin.
  destruct Hin as (y & Hy & Hin). apply filter_In in Hin.
  rewrite <- Hy. apply in_map. apply Hin.
Qed.

(** X18.  In every state the bot reaches from the empty database, the
    per-quest counts that the statistics show (approved submissions joined
    with the tasks of the quest) add up, over the active quests, to at
    most the total of approved submissions shown beside them: a
    submission is counted for at most one quest, unlike in the approval
    branch and the active-quest view, which count every approved
    submission for every quest. *)
Theorem per_quest_counts_add_up_to_at_most_the_total
    (admin_id girlfriend_id : Z) (ops : list op) (user_id : Z) :
  let d := db (run admin_id girlfriend_id ops initial_world) in
  total (map (fun q => quest_progress (Quest.id q) user_id d)
           (filter_by Quest.is_active (quests d)))
  <= approved_total user_id d.
Proof.
  intros d.
  destruct (reachable_primary_keys admin_id girlfriend_id ops)
    as (Hpk & Ht & _). fold d in Hpk, Ht.
  apply primary_keys_iff in Hpk. destruct Hpk as (_ & Hq & _).
  apply progress_sum_le; [|exact Ht].
  apply NoDup_filter_map. apply increasing_NoDup. exact Hq.
Qed.

(** ** The dialogues *)

Lemma first_match_cases (P : Route.t -> Prop) parts branches otherwise :
  P otherwise ->
  (forall part, P (Route.BadId part)) ->
  (forall prefix branch n, In (prefix, branch) branches -> P (branch n)) ->
  P (first_match parts branches otherwise).
Proof.
  intros Ho Hb Hin. induction branches as [|[prefix branch] rest IH];
    [exact Ho|].
  cbn [first_match]. destruct (parts_after prefix parts) as [part|].
  - unfold with_id. destruct (PyStr.int_of_str part) as [n|]; [|apply Hb].
    apply (Hin prefix). left. reflexivity.
  - apply IH. intros p b n H. apply (Hin p). right. exact H.
Qed.

Lemma route_sender_ok a g u data : route_sender a g u (route a g u data).
Proof.
  unfold route.
  destruct (String.eqb data "cancel_action"); [exact I|].
  destruct (String.eqb data "main_menu"); [exact I|]. cbv zeta.
  destruct (Z.eqb_spec u a) as [->|Ha].
  - destruct (_ || _); [reflexivity|].
    destruct (String.eqb data "manage_quests"); [reflexivity|].
    apply first_match_cases.
    + destruct (String.eqb data "create_quest"); [reflexivity|].
      apply first_match_cases; [exact I | left; reflexivity |].
      intros p b n Hin. cbn in Hin.
      repeat (destruct Hin as [Hin|Hin]; [injection Hin as <- <-; reflexivity|]).
      destruct Hin.
    + left. reflexivity.
    + intros p b n Hin. cbn in Hin.
      repeat (destruct Hin as [Hin|Hin]; [injection Hin as <- <-; reflexivity|]).
      destruct Hin.
  - destruct (Z.eqb_spec u g) as [->|Hg]; [|exact I].
    destruct (String.eqb data "current_quest"); [split; auto|].
    destruct (String.eqb data "my_stats"); [split; auto|].
    destruct (String.eqb data "achievements"); [split; auto|].
    apply first_match_cases; [exact I | right; reflexivity |].
    intros p b n Hin. cbn in Hin.
    destruct Hin as [Hin|[]]. injection Hin as <- <-. split; auto.
Qed.

(** Which handler the dispatcher finds for a message. *)
Lemma handle_message_eq a g e m l :
  Bot.handle_message a g e m l
  = match Bot.command_of m with
    | Some Bot.CmdStart => Bot.cmd_start a g m l
    | Some _ => Bot.cmd_menu a m l
    | None =>
        match Fsm.current (Bot.state l) with
        | Some Fsm.SubmissionStates_waiting_for_photo =>
            if Bot.from_girlfriend g m then
              if Bot.photo m then Bot.handle_photo g e m l
              else if Bot.F_text m then Bot.handle_unexpected_text m l
              else (Bot.Return tt, l)
            else (Bot.Return tt, l)
        | Some Fsm.SubmissionStates_waiting_for_comment =>
            if Bot.from_girlfriend g m then
              if Bot.F_text m then Bot.handle_comment g e m l
              else if Bot.photo m then Bot.handle_unexpected_photo m l
              else (Bot.Return tt, l)
            else (Bot.Return tt, l)
        | Some Fsm.QuestCreation_title => Bot.quest_title m l
        | Some Fsm.QuestCreation_description => Bot.quest_description m l
        | Some Fsm.QuestCreation_image => Bot.quest_image e m l
        | Some Fsm.QuestCreation_reward => Bot.quest_reward m l
        | Some Fsm.QuestCreation_required => Bot.quest_required e m l
        | Some Fsm.TaskCreation_title => Bot.task_title m l
        | Some Fsm.TaskCreation_description => Bot.task_description m l
        | Some Fsm.TaskCreation_image => Bot.task_image e m l
        | Some Fsm.TaskCreation_points => Bot.task_points e m l
        | Some Fsm.TaskCreation_date => Bot.task_date m l
        | Some Fsm.TaskEdit_field => Bot.edit_task_field e m l
        | _ => (Bot.Return tt, l)
        end
    end.
Proof.
  unfold Bot.handle_message, Bot.message_handlers.
  destruct l as [w [st bag] sh].
  destruct (Bot.command_of m) as [[]|] eqn:Ec.
  1-3: cbv [find fst snd existsb andb orb Bot.is_command]; rewrite Ec;
    reflexivity.
  destruct st as [[]|];
    cbv [find fst snd existsb andb orb Bot.is_command Bot.in_state Fsm.eqb
         Fsm.index Z.eqb Pos.eqb Fsm.current Bot.state];
    rewrite Ec; try reflexivity.
  all: destruct (Bot.from_girlfriend g m); try reflexivity;
    destruct (Bot.photo m), (Bot.F_text m); reflexivity.
Qed.

(** *** Kinds of handler code *)

Lemma keeps_state_bind {A B} (m : Bot.H A) (k : A -> Bot.H B) :
  keeps_state m -> (forall a, keeps_state (k a)) ->
  keeps_state (Bot.bindH m k).
Proof.
  intros Hm Hk l. unfold Bot.bindH. specialize (Hm l).
  destruct (m l) as [[x|f] l1]; cbn in *; [rewrite Hk|]; exact Hm.
Qed.

Lemma keeps_db_bind {A B} (m : Bot.H A) (k : A -> Bot.H B) :
  keeps_db m -> (forall a, keeps_db (k a)) -> keeps_db (Bot.bindH m k).
Proof.
  intros Hm Hk l. unfold Bot.bindH. specialize (Hm l).
  destruct (m l) as [[x|f] l1]; cbn in *; [rewrite Hk|]; exact Hm.
Qed.

Lemma no_key_error_bind {A B} (m : Bot.H A) (k : A -> Bot.H B) :
  no_key_error m -> (forall a, no_key_error (k a)) ->
  no_key_error (Bot.bindH m k).
Proof.
  intros Hm Hk l key. unfold Bot.bindH. specialize (Hm l key).
  destruct (m l) as [[x|f] l1]; cbn in *; [apply Hk|].
  intros E. apply Hm. injection E as ->. reflexivity.
Qed.

Lemma keeps_state_lift {A} (m : M A) : keeps_state (Bot.lift m).
Proof.
  intros l. unfold Bot.lift. destruct (m (Bot.outside l)) as [[x|e] w];
    reflexivity.
Qed.

Lemma keeps_db_lift {A} (m : M A) :
  (forall w, db (snd (m w)) = db w) -> keeps_db (Bot.lift m).
Proof.
  intros Hm l. unfold Bot.lift. specialize (Hm (Bot.outside l)).
  destruct (m (Bot.outside l)) as [[x|e] w]; exact Hm.
Qed.

Lemma no_key_error_lift {A} (m : M A) : no_key_error (Bot.lift m).
Proof.
  intros l key. unfold Bot.lift.
  destruct (m (Bot.outside l)) as [[x|e] w]; discriminate.
Qed.

Lemma keeps_state_ret {A} (x : A) : keeps_state (Bot.retH x).
Proof. intros l. reflexivity. Qed.

Lemma keeps_db_ret {A} (x : A) : keeps_db (Bot.retH x).
Proof. intros l. reflexivity. Qed.

Lemma no_key_error_ret {A} (x : A) : no_key_error (Bot.retH x).
Proof. intros l key. discriminate. Qed.

Lemma keeps_state_fail {A} f : keeps_state (@Bot.failH A f).
Proof. intros l. reflexivity. Qed.

Lemma keeps_db_fail {A} f : keeps_db (@Bot.failH A f).
Proof. intros l. reflexivity. Qed.

Lemma keeps_state_answer c t k : keeps_state (Bot.answer c t k).
Proof. intros l. reflexivity. Qed.

Lemma keeps_db_answer c t k : keeps_db (Bot.answer c t k).
Proof. intros l. reflexivity. Qed.

Lemma no_key_error_answer c t k : no_key_error (Bot.answer c t k).
Proof. intros l key. discriminate. Qed.

Lemma keeps_state_get_data : keeps_state Bot.get_data.
Proof. intros l. reflexivity. Qed.

Lemma keeps_db_get_data : keeps_db Bot.get_data.
Proof. intros l. reflexivity. Qed.

Lemma no_key_error_get_data : no_key_error Bot.get_data.
Proof. intros l key. discriminate. Qed.

Lemma keeps_db_update_data f : keeps_db (Bot.update_data f).
Proof. intros l. reflexivity. Qed.

Lemma no_key_error_update_data f : no_key_error (Bot.update_data f).
Proof. intros l key. discriminate. Qed.

Lemma keeps_db_set_state s : keeps_db (Bot.set_state s).
Proof. intros l. reflexivity. Qed.

Lemma no_key_error_set_state s : no_key_error (Bot.set_state s).
Proof. intros l key. discriminate. Qed.

Lemma keeps_db_clear : keeps_db Bot.clear.
Proof. intros l. reflexivity. Qed.

Lemma no_key_error_clear : no_key_error Bot.clear.
Proof. intros l key. discriminate. Qed.

Lemma keeps_state_item {A} key (v : option A) : keeps_state (Bot.item key v).
Proof. intros l. destruct v; reflexivity. Qed.

Lemma keeps_db_item {A} key (v : option A) : keeps_db (Bot.item key v).
Proof. intros l. destruct v; reflexivity. Qed.

Lemma keeps_state_not_null {A} (v : option A) : keeps_state (Bot.not_null v).
Proof. intros l. destruct v; reflexivity. Qed.

Lemma keeps_db_not_null {A} (v : option A) : keeps_db (Bot.not_null v).
Proof. intros l. destruct v; reflexivity. Qed.

Lemma no_key_error_not_null {A} (v : option A) :
  no_key_error (Bot.not_null v).
Proof. intros l key. destruct v; discriminate. Qed.

Lemma keeps_state_except m h :
  keeps_state m -> keeps_state h -> keeps_state (Bot.except_Exception m h).
Proof.
  intros Hm Hh l. unfold Bot.except_Exception. specialize (Hm l).
  destruct (m l) as [[x|[]] l1]; cbn in *; try exact Hm;
    rewrite Hh; exact Hm.
Qed.

Lemma keeps_db_except m h :
  keeps_db m -> keeps_db h -> keeps_db (Bot.except_Exception m h).
Proof.
  intros Hm Hh l. unfold Bot.except_Exception. specialize (Hm l).
  destruct (m l) as [[x|[]] l1]; cbn in *; try exact Hm;
    rewrite Hh; exact Hm.
Qed.

Lemma no_key_error_except m h :
  no_key_error h -> no_key_error (Bot.except_Exception m h).
Proof.
  intros Hh l key. unfold Bot.except_Exception.
  destruct (m l) as [[x|[]] l1]; cbn; try discriminate; apply Hh.
Qed.

Lemma keeps_db_finally m f :
  keeps_db m -> keeps_db f -> keeps_db (Bot.finally m f).
Proof.
  intros Hm Hf l. unfold Bot.finally. specialize (Hm l).
  destruct (m l) as [[x|e] l1]; cbn in *.
  - rewrite Hf. exact Hm.
  - specialize (Hf l1). destruct (f l1) as [[y|e'] l2]; cbn in *;
      rewrite Hf; exact Hm.
Qed.

Lemma no_key_error_finally m f :
  no_key_error m -> no_key_error f -> no_key_error (Bot.finally m f).
Proof.
  intros Hm Hf l key. unfold Bot.finally. specialize (Hm l key).
  destruct (m l) as [[x|e] l1]; cbn in *; [apply Hf|].
  specialize (Hf l1 key). destruct (f l1) as [[y|e'] l2]; cbn in *;
    [|exact Hf].
  intros E. apply Hm. injection E as ->. reflexivity.
Qed.

Create HintDb dialogue.

#[local] Hint Resolve keeps_state_lift keeps_state_ret keeps_state_fail
  keeps_state_answer keeps_state_get_data keeps_state_item
  keeps_state_not_null keeps_db_ret keeps_db_fail keeps_db_answer
  keeps_db_get_data keeps_db_update_data keeps_db_set_state keeps_db_clear
  keeps_db_item keeps_db_not_null no_key_error_lift no_key_error_ret
  no_key_error_answer no_key_error_get_data no_key_error_update_data
  no_key_error_set_state no_key_error_clear no_key_error_not_null
  : dialogue.

(** Code built from the pieces above, piece by piece. *)
Ltac pieces :=
  repeat first
    [ progress intros
    | apply keeps_state_bind | apply keeps_db_bind | apply no_key_error_bind
    | apply keeps_state_except | apply keeps_db_except
    | apply no_key_error_except
    | apply keeps_db_finally | apply no_key_error_finally
    | solve [auto with dialogue]
    | match goal with
      | |- keeps_state (match ?x with _ => _ end) => destruct x
      | |- keeps_db (match ?x with _ => _ end) => destruct x
      | |- no_key_error (match ?x with _ => _ end) => destruct x
      end ].

Lemma no_key_error_fail_other {A} f :
  (forall key, f <> Bot.KeyError key) -> no_key_error (@Bot.failH A f).
Proof. intros Hf l key E. injection E as E. exact (Hf key E). Qed.

Lemma no_key_error_TypeError {A} : no_key_error (@Bot.failH A Bot.TypeError).
Proof. apply no_key_error_fail_other. discriminate. Qed.

Lemma no_key_error_Exn {A} e : no_key_error (@Bot.failH A (Bot.Exn e)).
Proof. apply no_key_error_fail_other. discriminate. Qed.

#[local] Hint Resolve no_key_error_TypeError no_key_error_Exn : dialogue.

(** *** The views read *)

Lemma show_girl_stats_reads girlfriend_id today_start w :
  snd (show_girl_stats girlfriend_id today_start w) = w.
Proof.
  unfold show_girl_stats. munfold. cbn.
  destruct (user_by_telegram_id girlfriend_id (db w)) as [user|]; cbn;
    [|reflexivity].
  match goal with
  | |- context [quest_lines ?u ?l w] =>
      pose proof (quest_lines_reads u l w) as Hq;
      destruct (quest_lines u l w) as [[lines|e] w1]
  end; cbn in *; subst; reflexivity.
Qed.

Lemma show_my_stats_reads girlfriend_id today_start w :
  snd (show_my_stats girlfriend_id today_start w) = w.
Proof.
  unfold show_my_stats. munfold. cbn.
  destruct (user_by_telegram_id girlfriend_id (db w)) as [user|]; cbn;
    [|reflexivity].
  match goal with
  | |- context [sum_points ?l ?a w] =>
      pose proof (sum_points_reads l a w) as Hs;
      destruct (sum_points l a w) as [[points|e] w1]
  end; cbn in *; subst; [|reflexivity].
  match goal with
  | |- context [quest_lines ?u ?l w] =>
      pose proof (quest_lines_reads u l w) as Hq;
      destruct (quest_lines u l w) as [[lines|e] w1]
  end; cbn in *; subst; reflexivity.
Qed.

Lemma show_achievements_reads girlfriend_id w :
  snd (show_achievements girlfriend_id w) = w.
Proof.
  unfold show_achievements. munfold. cbn.
  destruct (user_by_telegram_id girlfriend_id (db w)); reflexivity.
Qed.

Lemma quest_tasks_screen_reads quest_id w :
  snd (Bot.quest_tasks_screen quest_id w) = w.
Proof.
  unfold Bot.quest_tasks_screen. munfold. cbn.
  destruct (quest_by_id quest_id (db w)); reflexivity.
Qed.

Ltac reads_db :=
  intros;
  first
    [ reflexivity
    | rewrite show_girl_stats_reads; reflexivity
    | rewrite show_my_stats_reads; reflexivity
    | rewrite show_achievements_reads; reflexivity
    | rewrite show_current_quest_reads; reflexivity
    | rewrite quest_tasks_screen_reads; reflexivity
    | match goal with |- context [getattr ?o] => destruct o; reflexivity end ].

Ltac code :=
  repeat first
    [ progress intros
    | apply keeps_state_bind | apply keeps_db_bind | apply no_key_error_bind
    | apply keeps_state_except | apply keeps_db_except
    | apply no_key_error_except
    | apply keeps_db_finally | apply no_key_error_finally
    | solve [auto with dialogue]
    | apply keeps_db_lift; solve [reads_db]
    | match goal with
      | |- keeps_state (match ?x with _ => _ end) => destruct x
      | |- keeps_db (match ?x with _ => _ end) => destruct x
      | |- no_key_error (match ?x with _ => _ end) => destruct x
      end ].

(** Conjunctions of tests, taken apart and put together. *)
Ltac conj :=
  repeat match goal with
         | H : _ && _ = true |- _ =>
             apply andb_true_iff in H; destruct H
         end;
  repeat (apply andb_true_iff; split).

Lemma stranger_idle a g u c :
  u <> a -> u <> g -> context_ok a g u c = true -> Fsm.current c = None.
Proof.
  intros Ha Hg. unfold context_ok.
  destruct (Fsm.current c) as [s|]; [|reflexivity].
  rewrite (proj2 (Z.eqb_neq u a) Ha), (proj2 (Z.eqb_neq u g) Hg).
  destruct (admin_state s); rewrite andb_false_r; discriminate.
Qed.

Lemma context_ok_set_task_id a g u c v :
  context_ok a g u c = true ->
  context_ok a g u
    (Fsm.mkContext (Fsm.current c) (Fsm.set_task_id v (Fsm.bag c))) = true.
Proof.
  unfold context_ok. cbn. destruct (Fsm.current c) as [s|]; [|reflexivity].
  intros H. apply andb_true_iff in H. destruct H as [Hk ->].
  rewrite andb_true_r. destruct s; cbn in *; conj; auto.
Qed.

Lemma do_task_keeps_db g task_id : keeps_db (Bot.do_task g task_id).
Proof. unfold Bot.do_task. code. Qed.

Lemma do_task_no_key_error g task_id : no_key_error (Bot.do_task g task_id).
Proof. unfold Bot.do_task. code. Qed.

Lemma log_and_apologise_keeps_state :
  keeps_state (Bot.bindH (Bot.lift log_error)
                 (fun _ => Bot.lift (send GenericErrorMsg))).
Proof. code. Qed.

Lemma log_and_apologise_keeps_db :
  keeps_db (Bot.bindH (Bot.lift log_error)
              (fun _ => Bot.lift (send GenericErrorMsg))).
Proof. code. Qed.

(** The database after a caught step of the handler model. *)
Lemma except_lift_db (m : M unit) h l :
  keeps_db h ->
  db (Bot.outside (snd (Bot.except_Exception (Bot.lift m) h l)))
  = db (snd (m (Bot.outside l))).
Proof.
  intros Hh. unfold Bot.except_Exception, Bot.lift.
  destruct (m (Bot.outside l)) as [[x|e] w]; cbn; [reflexivity|].
  rewrite Hh. reflexivity.
Qed.

Lemma do_task_context a g u task_id l :
  u <> a -> u = g ->
  context_ok a g u (Bot.state l) = true ->
  context_ok a g u (Bot.state (snd (Bot.do_task g task_id l))) = true.
Proof.
  intros Ha Hg Hok. unfold Bot.do_task, Bot.bindH, Bot.lift. cbn.
  destruct (user_by_telegram_id g (db (Bot.outside l))); cbn; [|exact Hok].
  destruct (first _); cbn; [exact Hok|].
  destruct (task_by_id task_id (db (Bot.outside l))); cbn; [|exact Hok].
  unfold context_ok. cbn.
  rewrite (proj2 (Z.eqb_neq u a) Ha), (proj2 (Z.eqb_eq u g) Hg). reflexivity.
Qed.

Lemma except_state m h l :
  keeps_state h ->
  Bot.state (snd (Bot.except_Exception m h l)) = Bot.state (snd (m l)).
Proof.
  intros Hh. unfold Bot.except_Exception.
  destruct (m l) as [[x|[]] l1]; cbn; try reflexivity; apply Hh.
Qed.

(** The database after a branch of the admin panel that writes. *)
Lemma admin_callback_db_step a g c now (today : string) (m : M unit) h l :
  keeps_db h ->
  db (snd (m (Bot.outside l))) = callback_db a a c now (db (Bot.outside l)) ->
  db_step a g (db (Bot.outside l))
    (db (Bot.outside (snd (Bot.except_Exception (Bot.lift m) h l)))).
Proof.
  intros Hh Hm. rewrite except_lift_db by exact Hh. right.
  exists (Callback a c now today). exact Hm.
Qed.

Lemma handle_callback_good a g e u data l :
  good a g u l (fst (Bot.handle_callback a g e u data l))
    (snd (Bot.handle_callback a g e u data l)).
Proof.
  pose proof (route_sender_ok a g u data) as Hr.
  unfold Bot.handle_callback.
  destruct (route a g u data) eqn:E; cbn [route_sender] in Hr.
  all: constructor.
  (* no KeyError *)
  all: try solve [intros _; apply no_key_error_except; code].
  (* strangers *)
  all: try solve [intros Ha Hg _; first [reflexivity | tauto]].
  (* contexts that stay *)
  all: try solve [intros Hok;
                  rewrite keeps_state_except;
                  [exact Hok | unfold Bot.branch; code | code]].
  (* databases that stay *)
  all: try solve [left; apply keeps_db_except;
                  unfold Bot.branch, Bot.do_task; code].
  (* the branches that write, the branches that change the context *)
  all: try (intros Hok;
            rewrite except_state by apply log_and_apologise_keeps_state).
  - reflexivity.
  - reflexivity.
  - apply (admin_callback_db_step a g (ConfirmDeleteQuest quest_id)
             (Bot.now e) (Bot.today e));
      [apply log_and_apologise_keeps_db|].
    unfold callback_db. rewrite Z.eqb_refl.
    apply confirm_delete_quest_db_correct.
  - unfold Bot.branch, Bot.bindH, Bot.lift. cbn.
    destruct (task_by_id task_id (db (Bot.outside l))); cbn;
      apply context_ok_set_task_id; exact Hok.
  - subst u. unfold context_ok. cbn. rewrite Z.eqb_refl. reflexivity.
  - apply (admin_callback_db_step a g (ConfirmDeleteTask task_id)
             (Bot.now e) (Bot.today e));
      [apply log_and_apologise_keeps_db|].
    unfold callback_db. rewrite Z.eqb_refl.
    apply confirm_delete_task_db_correct.
  - subst u. unfold context_ok. cbn. rewrite Z.eqb_refl. reflexivity.
  - subst u. unfold context_ok. cbn. rewrite Z.eqb_refl. reflexivity.
  - apply (admin_callback_db_step a g (Approve sub_id)
             (Bot.now e) (Bot.today e));
      [apply log_and_apologise_keeps_db|].
    unfold callback_db. rewrite Z.eqb_refl. apply approve_effect.
  - apply (admin_callback_db_step a g (Reject sub_id)
             (Bot.now e) (Bot.today e));
      [apply log_and_apologise_keeps_db|].
    unfold callback_db. rewrite Z.eqb_refl. apply reject_db_correct.
  - apply do_task_context; tauto.
Qed.

Lemma good_in_dialogue a g u l r l' s :
  Fsm.current (Bot.state l) = Some s ->
  (context_ok a g u (Bot.state l) = true ->
   context_ok a g u (Bot.state l') = true) ->
  db_step a g (db (Bot.outside l)) (db (Bot.outside l')) ->
  (context_ok a g u (Bot.state l) = true ->
   forall key, r <> Bot.Fail (Bot.KeyError key)) ->
  good a g u l r l'.
Proof.
  intros Hs Hc Hd Hk. constructor; try assumption.
  intros Ha Hg Hok. rewrite (stranger_idle a g u _ Ha Hg Hok) in Hs.
  discriminate.
Qed.

(** What [process_complete_submission] leaves: the database of the handler
    model, no dialogue. *)
Lemma process_complete_submission_filed g e m photo_path c l task_id :
  Fsm.task_id (Fsm.bag (Bot.state l)) = Some task_id ->
  let r := Bot.process_complete_submission g e m photo_path (Some c) l in
  Bot.state (snd r) = Fsm.fresh
  /\ db (Bot.outside (snd r))
     = submit_db g task_id photo_path c (Bot.now e) (db (Bot.outside l))
  /\ Bot.outside (snd r)
     = snd (process_complete_submission g task_id photo_path c (Bot.now e)
              (Bot.outside l))
  /\ fst r <> Bot.Fail Bot.NullColumn.
Proof.
  intros Ht.
  unfold Bot.process_complete_submission, Bot.bindH, Bot.get_data,
    Bot.finally, Bot.not_null, Bot.lift.
  cbn -[process_complete_submission]. rewrite Ht.
  cbn -[process_complete_submission].
  pose proof (process_complete_submission_effect g task_id photo_path c
                (Bot.now e) (Bot.outside l)) as [Hd _].
  destruct (process_complete_submission g task_id photo_path c (Bot.now e)
              (Bot.outside l)) as [[[]|ex] w]; cbn in *;
    repeat split; auto; discriminate.
Qed.

Lemma process_complete_submission_good a g e m photo_path comment l :
  let r := Bot.process_complete_submission g e m photo_path comment l in
  Bot.state (snd r) = Fsm.fresh
  /\ db_step a g (db (Bot.outside l)) (db (Bot.outside (snd r)))
  /\ forall key, fst r <> Bot.Fail (Bot.KeyError key).
Proof.
  destruct (Fsm.task_id (Fsm.bag (Bot.state l))) as [task_id|] eqn:Ht.
  - destruct comment as [c|].
    + destruct (process_complete_submission_filed g e m photo_path c l
                  task_id Ht) as (Hs & Hd & _ & _).
      split; [exact Hs|]. split.
      * right. exists (SubmitReport task_id photo_path c (Bot.now e)).
        exact Hd.
      * apply no_key_error_finally; code.
    + unfold Bot.process_complete_submission, Bot.bindH, Bot.get_data,
        Bot.finally, Bot.not_null. cbn. rewrite Ht. cbn.
      repeat split; [left; reflexivity | discriminate].
  - unfold Bot.process_complete_submission, Bot.bindH, Bot.get_data,
      Bot.finally, Bot.not_null. cbn. rewrite Ht. cbn.
    repeat split; [left; reflexivity | discriminate].
Qed.

Lemma download_run e dest l :
  let r := Bot.download e dest l in
  fst r
  = Bot.Return (fst (download_photo_with_retry (Bot.attempt e)
                       DEFAULT_MAX_RETRIES))
  /\ Bot.state (snd r) = Bot.state l
  /\ Bot.shown (snd r) = Bot.shown l
  /\ db (Bot.outside (snd r)) = db (Bot.outside l)
  /\ (fst (download_photo_with_retry (Bot.attempt e) DEFAULT_MAX_RETRIES)
      = true ->
      Bot.outside (snd r) = snd (download_photo dest (Bot.outside l))).
Proof.
  unfold Bot.download, Bot.bindH, Bot.lift, Bot.retH.
  destruct (fst (download_photo_with_retry _ _)); cbn; [auto 6|].
  destruct (Bot.leaves_file e); cbn; repeat split; discriminate.
Qed.

Lemma ask_comment_good a g u m l l3 :
  Fsm.current (Bot.state l) = Some Fsm.SubmissionStates_waiting_for_photo ->
  db (Bot.outside l3) = db (Bot.outside l) ->
  Fsm.current (Bot.state l3) = Fsm.current (Bot.state l) ->
  Fsm.task_id (Fsm.bag (Bot.state l3)) = Fsm.task_id (Fsm.bag (Bot.state l)) ->
  has (Fsm.photo_path (Fsm.bag (Bot.state l3))) = true ->
  let r :=
    Bot.bindH (Bot.answer (Bot.from_user m) Bot.AskComment
                 (Some nav.cancel_button))
      (fun _ => Bot.set_state Fsm.SubmissionStates_waiting_for_comment) l3 in
  good a g u l (fst r) (snd r).
Proof.
  intros Hs Hd Hc Ht Hp. apply (good_in_dialogue _ _ _ _ _ _ _ Hs); cbn.
  - unfold context_ok. rewrite Hs. cbn. rewrite Ht, Hp.
    intros H. conj; auto.
  - left. exact Hd.
  - discriminate.
Qed.

Lemma handle_photo_good a g u e m l :
  Fsm.current (Bot.state l) = Some Fsm.SubmissionStates_waiting_for_photo ->
  good a g u l (fst (Bot.handle_photo g e m l)) (snd (Bot.handle_photo g e m l)).
Proof.
  intros Hs. destruct (Bot.handle_photo g e m l) as [r l'] eqn:E.
  cbn [fst snd]. unfold Bot.handle_photo in E.
  unfold Bot.bindH at 1 in E. unfold Bot.get_data at 1 in E.
  cbv beta iota in E.
  destruct (Bot.no_id _) eqn:Hid.
  { injection E as <- <-.
    apply (good_in_dialogue _ _ _ _ _ _ _ Hs); cbn;
      [reflexivity | left; reflexivity | discriminate]. }
  unfold Bot.bindH at 1 in E. unfold Bot.answer at 1 in E.
  cbv beta iota in E.
  set (l1 := Bot.mkLocal _ _ _) in E.
  unfold Bot.bindH at 1 in E.
  destruct (download_run e ("photos/submission_" ++ Bot.uuid e ++ ".jpg") l1)
    as (Hr & Hst & _ & Hdb & _).
  destruct (Bot.download e _ l1) as [r1 l2]. cbn [fst snd] in *. subst r1.
  destruct (fst (download_photo_with_retry _ _)); cbn [negb] in E.
  2:{ injection E as <- <-.
      apply (good_in_dialogue _ _ _ _ _ _ _ Hs); cbn.
      - rewrite Hst. auto.
      - left. rewrite Hdb. reflexivity.
      - discriminate. }
  unfold Bot.bindH at 1 in E. unfold Bot.update_data at 1 in E.
  cbv beta iota in E.
  set (l3 := Bot.mkLocal _ _ _) in E.
  assert (Hd3 : db (Bot.outside l3) = db (Bot.outside l))
    by (subst l3; cbn; rewrite Hdb; reflexivity).
  assert (Hask :
    let r :=
      Bot.bindH (Bot.answer (Bot.from_user m) Bot.AskComment
                   (Some nav.cancel_button))
        (fun _ => Bot.set_state Fsm.SubmissionStates_waiting_for_comment) l3 in
    good a g u l (fst r) (snd r)).
  { apply ask_comment_good; subst l3; cbn; rewrite ?Hst; auto. }
  assert (Hfile : forall c,
    good a g u l
      (fst (Bot.process_complete_submission g e m
              ("photos/submission_" ++ Bot.uuid e ++ ".jpg") c l3))
      (snd (Bot.process_complete_submission g e m
              ("photos/submission_" ++ Bot.uuid e ++ ".jpg") c l3))).
  { intros c.
    destruct (process_complete_submission_good a g e m
                ("photos/submission_" ++ Bot.uuid e ++ ".jpg") c l3)
      as (Hf & Hd & Hk).
    apply (good_in_dialogue _ _ _ _ _ _ _ Hs).
    - intros _. rewrite Hf. reflexivity.
    - rewrite <- Hd3. exact Hd.
    - intros _. exact Hk. }
  destruct (Bot.caption m) as [c|].
  - destruct (Py.truthy c).
    + specialize (Hfile (Some c)). rewrite E in Hfile. exact Hfile.
    + cbv zeta in Hask. rewrite E in Hask. exact Hask.
  - cbv zeta in Hask. rewrite E in Hask. exact Hask.
Qed.

Lemma handle_comment_good a g u e m l :
  Fsm.current (Bot.state l) = Some Fsm.SubmissionStates_waiting_for_comment ->
  good a g u l (fst (Bot.handle_comment g e m l))
    (snd (Bot.handle_comment g e m l)).
Proof.
  intros Hs. destruct (Bot.handle_comment g e m l) as [r l'] eqn:E.
  cbn [fst snd]. unfold Bot.handle_comment in E.
  unfold Bot.bindH at 1 in E. unfold Bot.get_data at 1 in E.
  cbv beta iota in E.
  assert (Hclear : good a g u l (fst (Bot.clear l)) (snd (Bot.clear l))).
  { apply (good_in_dialogue _ _ _ _ _ _ _ Hs); cbn;
      [reflexivity | left; reflexivity | discriminate]. }
  destruct (_ || _); [rewrite E in Hclear; exact Hclear|].
  destruct (Fsm.photo_path _) as [p|]; [|rewrite E in Hclear; exact Hclear].
  destruct (process_complete_submission_good a g e m p (Bot.text m) l)
    as (Hf & Hd & Hk).
  rewrite E in Hf, Hd, Hk. cbn [fst snd] in *.
  apply (good_in_dialogue _ _ _ _ _ _ _ Hs).
  - intros _. rewrite Hf. reflexivity.
  - exact Hd.
  - intros _. exact Hk.
Qed.

(** A handler that only asks the next question. *)
Ltac asks Hs :=
  apply (good_in_dialogue _ _ _ _ _ _ _ Hs); cbn;
  [ unfold context_ok; rewrite Hs; cbn; intros; conj; auto
  | left; reflexivity
  | discriminate ].

Lemma quest_title_good a g u m l :
  Fsm.current (Bot.state l) = Some Fsm.QuestCreation_title ->
  good a g u l (fst (Bot.quest_title m l)) (snd (Bot.quest_title m l)).
Proof. intros Hs. unfold Bot.quest_title. asks Hs. Qed.

Lemma quest_description_good a g u m l :
  Fsm.current (Bot.state l) = Some Fsm.QuestCreation_description ->
  good a g u l (fst (Bot.quest_description m l))
    (snd (Bot.quest_description m l)).
Proof. intros Hs. unfold Bot.quest_description. asks Hs. Qed.

Lemma quest_reward_good a g u m l :
  Fsm.current (Bot.state l) = Some Fsm.QuestCreation_reward ->
  good a g u l (fst (Bot.quest_reward m l)) (snd (Bot.quest_reward m l)).
Proof. intros Hs. unfold Bot.quest_reward. asks Hs. Qed.

Lemma task_title_good a g u m l :
  Fsm.current (Bot.state l) = Some Fsm.TaskCreation_title ->
  good a g u l (fst (Bot.task_title m l)) (snd (Bot.task_title m l)).
Proof. intros Hs. unfold Bot.task_title. asks Hs. Qed.

Lemma task_description_good a g u m l :
  Fsm.current (Bot.state l) = Some Fsm.TaskCreation_description ->
  good a g u l (fst (Bot.task_description m l))
    (snd (Bot.task_description m l)).
Proof. intros Hs. unfold Bot.task_description. asks Hs. Qed.

Lemma task_points_good a g u e m l :
  Fsm.current (Bot.state l) = Some Fsm.TaskCreation_points ->
  good a g u l (fst (Bot.task_points e m l)) (snd (Bot.task_points e m l)).
Proof.
  intros Hs. unfold Bot.task_points.
  destruct (Bot.text m) as [s|]; [|asks Hs].
  destruct (Bot.int e s); asks Hs.
Qed.

Lemma handle_unexpected_text_good a g u m l s :
  Fsm.current (Bot.state l) = Some s ->
  good a g u l (fst (Bot.handle_unexpected_text m l))
    (snd (Bot.handle_unexpected_text m l)).
Proof.
  intros Hs. apply (good_in_dialogue _ _ _ _ _ _ _ Hs); cbn;
    [auto | left; reflexivity | discriminate].
Qed.

Lemma handle_unexpected_photo_good a g u m l s :
  Fsm.current (Bot.state l) = Some s ->
  good a g u l (fst (Bot.handle_unexpected_photo m l))
    (snd (Bot.handle_unexpected_photo m l)).
Proof.
  intros Hs. apply (good_in_dialogue _ _ _ _ _ _ _ Hs); cbn;
    [auto | left; reflexivity | discriminate].
Qed.

Lemma unhandled_good a g u l : good a g u l (Bot.Return tt) l.
Proof.
  constructor; [auto | left; reflexivity | discriminate | reflexivity].
Qed.

(** What [quest_image] and [task_image] do with the picture. *)
Lemma receive_image_run e m kind failed l :
  let r := Bot.receive_image e m kind failed l in
  fst r = Bot.Return tt
  /\ db (Bot.outside (snd r)) = db (Bot.outside l)
  /\ exists v,
       Bot.state (snd r)
       = Fsm.mkContext (Fsm.current (Bot.state l))
           (Fsm.set_image v (Fsm.bag (Bot.state l)))
       /\ (v = None
           \/ v = Some ("photos/" ++ kind ++ "_" ++ Bot.uuid e ++ ".jpg")%string
              /\ Bot.photo m = true
              /\ fst (download_photo_with_retry (Bot.attempt e)
                        DEFAULT_MAX_RETRIES) = true).
Proof.
  destruct (Bot.receive_image e m kind failed l) as [r l'] eqn:E.
  cbn [fst snd]. unfold Bot.receive_image in E.
  destruct (Bot.photo m); [|injection E as <- <-; cbn; eauto 6].
  unfold Bot.bindH at 1 in E.
  destruct (download_run e ("photos/" ++ kind ++ "_" ++ Bot.uuid e ++ ".jpg") l)
    as (Hr & Hst & _ & Hdb & _).
  destruct (Bot.download e _ l) as [r1 l1]. cbn [fst snd] in *. subst r1.
  destruct (fst (download_photo_with_retry _ _)); injection E as <- <-; cbn;
    rewrite Hst; eauto 8.
Qed.

Lemma quest_image_good a g u e m l :
  Fsm.current (Bot.state l) = Some Fsm.QuestCreation_image ->
  good a g u l (fst (Bot.quest_image e m l)) (snd (Bot.quest_image e m l)).
Proof.
  intros Hs. destruct (Bot.quest_image e m l) as [r l'] eqn:E.
  cbn [fst snd]. unfold Bot.quest_image in E. unfold Bot.bindH at 1 in E.
  destruct (receive_image_run e m "quest" Bot.QuestImageFailed l)
    as (Hr & Hdb & v & Hst & _).
  destruct (Bot.receive_image e m _ _ l) as [r1 l1]. cbn [fst snd] in *.
  subst r1. cbn in E. injection E as <- <-.
  apply (good_in_dialogue _ _ _ _ _ _ _ Hs); cbn.
  - rewrite Hst. unfold context_ok. rewrite Hs. cbn. intros; conj; auto.
  - left. exact Hdb.
  - discriminate.
Qed.

Lemma task_image_good a g u e m l :
  Fsm.current (Bot.state l) = Some Fsm.TaskCreation_image ->
  good a g u l (fst (Bot.task_image e m l)) (snd (Bot.task_image e m l)).
Proof.
  intros Hs. destruct (Bot.task_image e m l) as [r l'] eqn:E.
  cbn [fst snd]. unfold Bot.task_image in E. unfold Bot.bindH at 1 in E.
  destruct (receive_image_run e m "task" Bot.TaskImageFailed l)
    as (Hr & Hdb & v & Hst & _).
  destruct (Bot.receive_image e m _ _ l) as [r1 l1]. cbn [fst snd] in *.
  subst r1. cbn in E. injection E as <- <-.
  apply (good_in_dialogue _ _ _ _ _ _ _ Hs); cbn.
  - rewrite Hst. unfold context_ok. rewrite Hs. cbn. intros; conj; auto.
  - left. exact Hdb.
  - discriminate.
Qed.

Lemma cmd_menu_good a g u m l :
  good a g u l (fst (Bot.cmd_menu a m l)) (snd (Bot.cmd_menu a m l)).
Proof.
  constructor; cbn; [reflexivity | left; reflexivity | discriminate |
                     reflexivity].
Qed.

Lemma cmd_start_good a g m l :
  good a g (Bot.from_user m) l (fst (Bot.cmd_start a g m l))
    (snd (Bot.cmd_start a g m l)).
Proof.
  unfold Bot.cmd_start.
  destruct (_ || _) eqn:Hc; cbn [negb].
  - unfold Bot.bindH, Bot.lift.
    pose proof (get_user_db a (Bot.from_user m) (Bot.outside l)) as Hd.
    destruct (get_user a (Bot.from_user m) (Bot.outside l)) as [[x|ex] w];
      cbn in *.
    all: constructor; cbn; [auto | | discriminate |].
    all: try (right; exists (Start (Bot.from_user m)); cbn;
              unfold cmd_start_db; rewrite Hc; exact Hd).
    all: intros Ha Hg; apply Z.eqb_neq in Ha, Hg; rewrite Ha, Hg in Hc;
      discriminate.
  - constructor; cbn; [auto | left; reflexivity | discriminate | reflexivity].
Qed.

Lemma quest_required_good a g e m l :
  Fsm.current (Bot.state l) = Some Fsm.QuestCreation_required ->
  good a g (Bot.from_user m) l (fst (Bot.quest_required e m l))
    (snd (Bot.quest_required e m l)).
Proof.
  intros Hs. unfold Bot.quest_required.
  destruct (Bot.text m) as [s|]; [|asks Hs].
  destruct (Bot.int e s) as [required|]; [|asks Hs].
  destruct l as [w [st [tid pp qid ti de im re po fi]] sh].
  cbn in Hs. subst st.
  unfold Bot.bindH, Bot.lift, Bot.get_data, Bot.item, Bot.not_null,
    Bot.get_image.
  cbn -[next_id].
  destruct ti as [ti|], de as [de|], re as [re|];
    cbn -[next_id];
    try (apply (good_in_dialogue _ _ _ _ _ _ Fsm.QuestCreation_required);
         cbn;
         [ reflexivity | auto | left; reflexivity
         | unfold context_ok; cbn; rewrite ?andb_false_r; discriminate ];
         fail).
  destruct (user_by_telegram_id (Bot.from_user m) (db w)) as [user|] eqn:Hu;
    cbn -[next_id].
  2:{ apply (good_in_dialogue _ _ _ _ _ _ Fsm.QuestCreation_required); cbn;
        [reflexivity | auto | left; reflexivity | discriminate]. }
  destruct ti as [ti|], de as [de|], re as [re|]; cbn -[next_id];
    try (apply (good_in_dialogue _ _ _ _ _ _ Fsm.QuestCreation_required);
         cbn; [reflexivity | auto | left; reflexivity | discriminate]; fail).
  apply (good_in_dialogue _ _ _ _ _ _ Fsm.QuestCreation_required);
    cbn -[next_id]; [reflexivity | reflexivity | | discriminate].
  right.
  exists (CreateQuest (Bot.from_user m) ti de
            match im with Some v => v | None => None end
            re required (Bot.now e)).
  cbn. unfold quest_required_db. rewrite Hu. reflexivity.
Qed.

Lemma add_task_good a g u scheduled_date l :
  Fsm.current (Bot.state l) = Some Fsm.TaskCreation_date ->
  date_accepted scheduled_date = true ->
  good a g u l (fst (Bot.add_task scheduled_date l))
    (snd (Bot.add_task scheduled_date l)).
Proof.
  intros Hs Hacc. unfold Bot.add_task.
  destruct l as [w [st [tid pp qid ti de im re po fi]] sh].
  cbn in Hs. subst st.
  unfold Bot.bindH, Bot.lift, Bot.get_data, Bot.item, Bot.not_null,
    Bot.get_image.
  cbn -[next_id].
  destruct qid as [qid|], ti as [ti|], de as [de|], po as [po|];
    cbn -[next_id];
    try (apply (good_in_dialogue _ _ _ _ _ _ Fsm.TaskCreation_date);
         cbn;
         [ reflexivity | auto | left; reflexivity
         | unfold context_ok; cbn; rewrite ?andb_false_r; discriminate ];
         fail).
  destruct ti as [ti|], de as [de|]; cbn -[next_id];
    try (apply (good_in_dialogue _ _ _ _ _ _ Fsm.TaskCreation_date);
         cbn; [reflexivity | auto | left; reflexivity | discriminate]; fail).
  apply (good_in_dialogue _ _ _ _ _ _ Fsm.TaskCreation_date);
    cbn -[next_id]; [reflexivity | reflexivity | | discriminate].
  right.
  exists (CreateTask qid ti de match im with Some v => v | None => None end
            po scheduled_date).
  cbn. unfold task_date_db. rewrite Hacc. reflexivity.
Qed.

Lemma task_date_good a g u m l :
  Fsm.current (Bot.state l) = Some Fsm.TaskCreation_date ->
  good a g u l (fst (Bot.task_date m l)) (snd (Bot.task_date m l)).
Proof.
  intros Hs. unfold Bot.task_date.
  destruct (Bot.text m) as [s|]; [|asks Hs].
  destruct (Bot.lower_is_net s); cbn [negb].
  - apply add_task_good; [exact Hs | reflexivity].
  - destruct (validate_date s) eqn:Hv; cbn [negb].
    + apply add_task_good; [exact Hs | exact Hv].
    + apply (good_in_dialogue _ _ _ _ _ _ _ Hs); cbn;
        [auto | left; reflexivity | discriminate].
Qed.

(** What the chain of tests of [edit_task_field] decides. *)
Lemma decide_edit_run e m field l :
  let r := Bot.decide_edit e m field l in
  Bot.state (snd r) = Bot.state l
  /\ db (Bot.outside (snd r)) = db (Bot.outside l)
  /\ (forall key, fst r <> Bot.Fail (Bot.KeyError key))
  /\ forall ed, fst r = Bot.Return (Bot.Assign ed) -> edit_accepted ed = true.
Proof.
  unfold Bot.decide_edit.
  assert (Hany : forall (r : Bot.outcome Bot.edit_decision) l',
            Bot.state l' = Bot.state l ->
            db (Bot.outside l') = db (Bot.outside l) ->
            (forall key, r <> Bot.Fail (Bot.KeyError key)) ->
            (forall ed, r = Bot.Return (Bot.Assign ed) ->
                        edit_accepted ed = true) ->
            Bot.state (snd (r, l')) = Bot.state l
            /\ db (Bot.outside (snd (r, l'))) = db (Bot.outside l)
            /\ (forall key, fst (r, l') <> Bot.Fail (Bot.KeyError key))
            /\ forall ed, fst (r, l') = Bot.Return (Bot.Assign ed) ->
                          edit_accepted ed = true) by auto.
  destruct field as [[]|]; destruct (Bot.text m) as [s|];
    cbn -[Bot.lower_is_net Bot.int validate_date];
    try (apply Hany; [reflexivity | reflexivity | discriminate |];
         first [discriminate | intros ed [= <-]; reflexivity]).
  - destruct (Bot.int e s); cbn;
      (apply Hany; [reflexivity | reflexivity | discriminate |];
       first [discriminate | intros ed [= <-]; reflexivity]).
  - destruct (Bot.lower_is_net s); cbn;
      [apply Hany; [reflexivity | reflexivity | discriminate |];
       intros ed [= <-]; reflexivity|].
    destruct (validate_date s) eqn:Hv; cbn;
      (apply Hany; [reflexivity | reflexivity | discriminate |];
       first [discriminate | intros ed [= <-]; exact Hv]).
Qed.

Lemma edit_task_field_good a g u e m l :
  Fsm.current (Bot.state l) = Some Fsm.TaskEdit_field ->
  good a g u l (fst (Bot.edit_task_field e m l))
    (snd (Bot.edit_task_field e m l)).
Proof.
  intros Hs. destruct (Bot.edit_task_field e m l) as [r l'] eqn:E.
  cbn [fst snd]. unfold Bot.edit_task_field in E.
  unfold Bot.bindH at 1 in E. unfold Bot.get_data at 1 in E.
  cbv beta iota in E.
  unfold Bot.bindH at 1 in E. unfold Bot.lift at 1 in E.
  unfold query at 1 in E. cbv beta iota in E.
  set (l1 := Bot.mkLocal _ _ _) in E.
  assert (Hl1 : l1 = l) by (subst l1; destruct l; reflexivity).
  rewrite Hl1 in E. clear l1 Hl1.
  destruct (match Fsm.task_id (Fsm.bag (Bot.state l)) with
            | Some task_id => task_by_id task_id (db (Bot.outside l))
            | None => None
            end) as [t|] eqn:Ht.
  2:{ injection E as <- <-.
      apply (good_in_dialogue _ _ _ _ _ _ _ Hs); cbn;
        [reflexivity | left; reflexivity | discriminate]. }
  destruct (Fsm.task_id (Fsm.bag (Bot.state l))) as [task_id|] eqn:Hid;
    [|discriminate].
  unfold Bot.bindH at 1 in E.
  destruct (decide_edit_run e m (Fsm.field (Fsm.bag (Bot.state l))) l)
    as (Hst & Hdb & Hk & Hacc).
  destruct (Bot.decide_edit e m _ l) as [[decision|f] l1];
    cbn [fst snd] in *.
  2:{ injection E as <- <-.
      apply (good_in_dialogue _ _ _ _ _ _ _ Hs);
        [rewrite Hst; auto | left; exact Hdb |].
      intros _ key [= ->]. exact (Hk key eq_refl). }
  destruct decision as [ed| |]; cbn in E; injection E as <- <-.
  - apply (good_in_dialogue _ _ _ _ _ _ _ Hs); cbn;
      [reflexivity | | discriminate].
    right. exists (EditTask task_id ed). cbn. unfold edit_task_field_db.
    rewrite Ht, (Hacc ed eq_refl), Hdb. reflexivity.
  - apply (good_in_dialogue _ _ _ _ _ _ _ Hs); cbn;
      [reflexivity | left; exact Hdb | discriminate].
  - apply (good_in_dialogue _ _ _ _ _ _ _ Hs); cbn;
      [rewrite Hst; auto | left; exact Hdb | discriminate].
Qed.

(** Every handler run keeps the contexts well formed, changes the database
    by at most one operation of the handler model, finds the keys it reads,
    and leaves the world alone when a stranger sent the update. *)
Lemma handle_good a g e u l :
  good a g (Bot.sender u) l (fst (Bot.handle a g e u l))
    (snd (Bot.handle a g e u l)).
Proof.
  destruct u as [m|user_id data]; cbn [Bot.handle Bot.sender];
    [|apply handle_callback_good].
  rewrite handle_message_eq.
  destruct (Bot.command_of m) as [[]|];
    [apply cmd_start_good | apply cmd_menu_good | apply cmd_menu_good |].
  destruct (Fsm.current (Bot.state l)) as [[]|] eqn:Hs;
    try apply unhandled_good.
  - apply quest_title_good; exact Hs.
  - apply quest_description_good; exact Hs.
  - apply quest_image_good; exact Hs.
  - apply quest_reward_good; exact Hs.
  - apply quest_required_good; exact Hs.
  - apply task_title_good; exact Hs.
  - apply task_description_good; exact Hs.
  - apply task_image_good; exact Hs.
  - apply task_points_good; exact Hs.
  - apply task_date_good; exact Hs.
  - apply edit_task_field_good; exact Hs.
  - destruct (Bot.from_girlfriend g m); [|apply unhandled_good].
    destruct (Bot.photo m); [apply handle_photo_good; exact Hs|].
    destruct (Bot.F_text m); [|apply unhandled_good].
    apply (handle_unexpected_text_good _ _ _ _ _ _ Hs).
  - destruct (Bot.from_girlfriend g m); [|apply unhandled_good].
    destruct (Bot.F_text m); [apply handle_comment_good; exact Hs|].
    destruct (Bot.photo m); [|apply unhandled_good].
    apply (handle_unexpected_photo_good _ _ _ _ _ _ Hs).
Qed.

(** *** The bot with its storage *)

Lemma step_eq a g e u b :
  Bot.step a g e u b
  = match Bot.handle a g e u (local_of (Bot.sender u) b) with
    | (Bot.Fail Bot.NullColumn, _) => None
    | (_, l) =>
        Some (Bot.mkBot (Bot.outside l)
                (<[Bot.sender u := Bot.state l]> (Bot.storage b))
                (Bot.shown l))
    end.
Proof. reflexivity. Qed.

Lemma context_of_insert user_id v c b w sh :
  Bot.context_of user_id (Bot.mkBot w (<[v := c]> (Bot.storage b)) sh)
  = if user_id =? v then c else Bot.context_of user_id b.
Proof.
  unfold Bot.context_of. cbn. destruct (Z.eqb_spec user_id v) as [->|Hne].
  - rewrite lookup_insert_eq. reflexivity.
  - rewrite lookup_insert_ne by congruence. reflexivity.
Qed.

Lemma step_good a g e u b b' :
  Bot.step a g e u b = Some b' ->
  let l := local_of (Bot.sender u) b in
  b' = Bot.mkBot (Bot.outside (snd (Bot.handle a g e u l)))
         (<[Bot.sender u := Bot.state (snd (Bot.handle a g e u l))]>
            (Bot.storage b))
         (Bot.shown (snd (Bot.handle a g e u l)))
  /\ fst (Bot.handle a g e u l) <> Bot.Fail Bot.NullColumn.
Proof.
  rewrite step_eq. intros H l. fold l in H.
  destruct (Bot.handle a g e u l) as [[x|[]] l1]; cbn [fst snd];
    try discriminate; injection H as <-; split; auto; discriminate.
Qed.

Lemma step_storage_ok a g e u b b' :
  Bot.step a g e u b = Some b' ->
  storage_ok a g b ->
  storage_ok a g b'
  /\ db_step a g (db (Bot.the_world b)) (db (Bot.the_world b')).
Proof.
  intros Hstep Hok. destruct (step_good _ _ _ _ _ _ Hstep) as [-> _].
  pose proof (handle_good a g e u (local_of (Bot.sender u) b)) as Hg.
  split.
  - intros v. rewrite context_of_insert.
    destruct (Z.eqb_spec v (Bot.sender u)) as [->|Hne]; [|apply Hok].
    apply (good_context _ _ _ _ _ _ Hg). apply Hok.
  - apply (good_db _ _ _ _ _ _ Hg).
Qed.

Lemma started_ok a g : storage_ok a g (Bot.started a g).
Proof. intros v. reflexivity. Qed.


(** The databases of the bot are databases of the handler model. *)
Lemma run_refines a g us b b' ops :
  Bot.run a g us b = Some b' -> storage_ok a g b ->
  db (Bot.the_world b) = db (run a g ops initial_world) ->
  exists ops', db (Bot.the_world b') = db (run a g (ops ++ ops') initial_world).
Proof.
  revert b ops. induction us as [|[e u] us IH]; intros b ops Hrun Hok Hdb;
    cbn in Hrun.
  - injection Hrun as <-. exists []. rewrite app_nil_r. exact Hdb.
  - destruct (Bot.step a g e u b) as [b1|] eqn:Hstep; [|discriminate].
    destruct (step_storage_ok _ _ _ _ _ _ Hstep Hok) as [Hok1 [Hsame|[o Ho]]].
    + apply (IH b1 ops Hrun Hok1). rewrite Hsame. exact Hdb.
    + destruct (IH b1 (ops ++ [o]) Hrun Hok1) as [ops' Hops'].
      * rewrite Ho, Hdb. unfold run at 2. rewrite fold_left_app. cbn.
        fold (run a g ops initial_world). symmetry. apply step_db_correct.
      * exists (o :: ops'). rewrite <- app_assoc in Hops'. exact Hops'.
Qed.






(** X21.  Whatever updates arrive, in whatever order, the database of the
    bot is one that the handler model reaches by a sequence of its
    operations after [main]: every handler run changes the database by at
    most one such operation.  So what holds of the handler model holds of
    the bot driven by messages and button presses: primary keys are
    unique and in rowid order, a quest is completed at most once per
    user, a task has at most one pending report per user. *)
Theorem updates_reach_only_databases_of_the_handler_model
    (ADMIN_ID GIRLFRIEND_ID : Z) (us : list (Bot.env * Bot.update))
    (b : Bot.bot) :
  Bot.run ADMIN_ID GIRLFRIEND_ID us (Bot.started ADMIN_ID GIRLFRIEND_ID)
  = Some b ->
  (exists ops,
     db (Bot.the_world b)
     = db (run ADMIN_ID GIRLFRIEND_ID (Boot :: ops) initial_world))
  /\ primary_keys (db (Bot.the_world b)) = true
  /\ completions_unique (db (Bot.the_world b))
  /\ pending_unique (db (Bot.the_world b)).
Proof.
  intros Hrun.
  destruct (run_refines ADMIN_ID GIRLFRIEND_ID us _ b [Boot] Hrun
              (started_ok _ _) eq_refl) as [ops Hops].
  split; [exists ops; exact Hops|]. rewrite Hops.
  split; [apply reachable_primary_keys|].
  split; [apply reachable_completions_unique|apply reachable_pending_unique].
Qed.

(** A quest and a task are created through the dialogues. *)
Lemma updates_reach_only_databases_of_the_handler_model_witness :
  exists b,
    Bot.run ADMIN GIRL quest_and_task_dialogues (Bot.started ADMIN GIRL)
    = Some b
    /\ map Quest.title (quests (db (Bot.the_world b))) = ["Week one"]
    /\ map Task.title (tasks (db (Bot.the_world b))) = ["Park"]
    /\ primary_keys (db (Bot.the_world b)) = true.
Proof.
  destruct (Bot.run ADMIN GIRL quest_and_task_dialogues
              (Bot.started ADMIN GIRL))
    as [b|] eqn:E; [|vm_compute in E; discriminate].
  exists b. split; [reflexivity|].
  pose proof (proj1 (proj2 (updates_reach_only_databases_of_the_handler_model
                              ADMIN GIRL quest_and_task_dialogues b E)))
    as Hpk.
  vm_compute in E. injection E as <-.
  split; [reflexivity|]. split; [reflexivity | exact Hpk].
Defined.

(** *** The report dialogue, step by step *)

Lemma step_of_handle a g e u b r l :
  Bot.handle a g e u (local_of (Bot.sender u) b) = (r, l) ->
  r <> Bot.Fail Bot.NullColumn ->
  Bot.step a g e u b
  = Some (Bot.mkBot (Bot.outside l)
            (<[Bot.sender u := Bot.state l]> (Bot.storage b)) (Bot.shown l)).
Proof.
  intros Hh Hr. rewrite step_eq, Hh. destruct r as [x|[]]; try reflexivity.
  contradiction.
Qed.


Lemma press_do a g e task_id l user t :
  g <> a ->
  user_by_telegram_id g (db (Bot.outside l)) = Some user ->
  task_by_id task_id (db (Bot.outside l)) = Some t ->
  pending_of task_id (User.id user) (db (Bot.outside l)) = [] ->
  let r :=
    Bot.handle_callback a g e g ("do_" ++ PyStr.str_of_int task_id) l in
  fst r = Bot.Return tt
  /\ db (Bot.outside (snd r)) = db (Bot.outside l)
  /\ files (Bot.outside (snd r)) = files (Bot.outside l)
  /\ Bot.state (snd r)
     = Fsm.mkContext (Some Fsm.SubmissionStates_waiting_for_photo)
         (Fsm.set_task_id task_id (Fsm.bag (Bot.state l))).
Proof.
  intros Hg Hu Ht Hp. unfold Bot.handle_callback.
  assert (Hroute : route a g g ("do_" ++ PyStr.str_of_int task_id)%string
                   = Route.Do task_id) by girlfriend_route Hg.
  rewrite Hroute. unfold Bot.branch, Bot.do_task, Bot.except_Exception,
    Bot.bindH, Bot.lift. cbn. rewrite Hu. cbn. rewrite Hp. cbn. rewrite Ht.
  cbn. auto.
Qed.

Lemma eqb_self_girlfriend g m :
  Bot.from_user m = g -> Bot.from_girlfriend g m = true.
Proof. intros <-. apply Z.eqb_refl. Qed.

(** A photo in the state [waiting_for_photo], downloaded: what is left to
    do on it. *)
Lemma handle_photo_downloaded g e m l task_id :
  Fsm.task_id (Fsm.bag (Bot.state l)) = Some task_id ->
  task_id <> 0 ->
  fst (download_photo_with_retry (Bot.attempt e) DEFAULT_MAX_RETRIES) = true ->
  let dest := ("photos/submission_" ++ Bot.uuid e ++ ".jpg")%string in
  let l3 :=
    Bot.mkLocal (snd (download_photo dest (Bot.outside l)))
      (Fsm.mkContext (Fsm.current (Bot.state l))
         (Fsm.set_photo_path dest (Fsm.bag (Bot.state l))))
      (Bot.shown l ++ [Bot.mkScreen (Bot.from_user m) Bot.Loading None]) in
  Bot.handle_photo g e m l
  = match Bot.caption m with
    | Some c =>
        if Py.truthy c
        then Bot.process_complete_submission g e m dest (Some c) l3
        else
          (Bot.Return tt,
           Bot.mkLocal (Bot.outside l3)
             (Fsm.mkContext (Some Fsm.SubmissionStates_waiting_for_comment)
                (Fsm.bag (Bot.state l3)))
             (Bot.shown l3
              ++ [Bot.mkScreen (Bot.from_user m) Bot.AskComment
                    (Some nav.cancel_button)]))
    | None =>
        (Bot.Return tt,
         Bot.mkLocal (Bot.outside l3)
           (Fsm.mkContext (Some Fsm.SubmissionStates_waiting_for_comment)
              (Fsm.bag (Bot.state l3)))
           (Bot.shown l3
            ++ [Bot.mkScreen (Bot.from_user m) Bot.AskComment
                  (Some nav.cancel_button)]))
    end.
Proof.
  intros Ht Hne Hok dest l3. unfold Bot.handle_photo.
  unfold Bot.bindH at 1. unfold Bot.get_data at 1. cbv beta iota.
  rewrite Ht. unfold Bot.no_id. rewrite (proj2 (Z.eqb_neq _ _) Hne).
  unfold Bot.bindH at 1. unfold Bot.answer at 1. cbv beta iota.
  unfold Bot.bindH at 1. unfold Bot.download. rewrite Hok.
  cbn -[Bot.process_complete_submission download_photo].
  unfold Bot.lift at 1. cbn -[Bot.process_complete_submission].
  unfold Bot.bindH at 1. cbn -[Bot.process_complete_submission].
  destruct (Bot.caption m) as [c|]; [destruct (Py.truthy c)|]; reflexivity.
Qed.


Lemma photo_without_caption a g e l task_id :
  Fsm.current (Bot.state l) = Some Fsm.SubmissionStates_waiting_for_photo ->
  Fsm.task_id (Fsm.bag (Bot.state l)) = Some task_id ->
  task_id <> 0 ->
  fst (download_photo_with_retry (Bot.attempt e) DEFAULT_MAX_RETRIES) = true ->
  let dest := ("photos/submission_" ++ Bot.uuid e ++ ".jpg")%string in
  let r := Bot.handle_message a g e (Bot.mkMessage g None (Bot.Photo None)) l in
  fst r = Bot.Return tt
  /\ Bot.state (snd r)
     = Fsm.mkContext (Some Fsm.SubmissionStates_waiting_for_comment)
         (Fsm.set_photo_path dest (Fsm.bag (Bot.state l)))
  /\ Bot.outside (snd r) = snd (download_photo dest (Bot.outside l)).
Proof.
  intros Hs Ht Hne Hok dest r. subst r. rewrite handle_message_eq.
  cbn [Bot.command_of]. rewrite Hs.
  rewrite eqb_self_girlfriend by reflexivity.
  cbn [Bot.photo Bot.content_of].
  rewrite (handle_photo_downloaded g e _ l task_id Ht Hne Hok).
  cbn. auto.
Qed.



Lemma local_of_step u l st :
  local_of u (Bot.mkBot (Bot.outside l) (<[u := Bot.state l]> st) (Bot.shown l))
  = l.
Proof.
  unfold local_of, Bot.context_of. cbn. rewrite lookup_insert_eq.
  destruct l; reflexivity.
Qed.

Lemma run_cons_handle a g e u us b r l :
  Bot.handle a g e u (local_of (Bot.sender u) b) = (r, l) ->
  r <> Bot.Fail Bot.NullColumn ->
  Bot.run a g ((e, u) :: us) b
  = Bot.run a g us
      (Bot.mkBot (Bot.outside l)
         (<[Bot.sender u := Bot.state l]> (Bot.storage b)) (Bot.shown l)).
Proof.
  intros Hh Hr. cbn [Bot.run]. rewrite (step_of_handle _ _ _ _ _ _ _ Hh Hr).
  reflexivity.
Qed.





Lemma way_out_handle a g e u l way :
  In way (ways_out u) ->
  Bot.handle a g e way l
  = (Bot.Return tt,
     Bot.mkLocal (Bot.outside l) Fsm.fresh (Bot.shown (snd (Bot.handle a g e way l))))
  /\ Bot.sender way = u.
Proof.
  intros Hin. cbn in Hin.
  destruct Hin as [<-|[<-|[<-|[<-|[]]]]]; split; reflexivity.
Qed.

(** X23.  A report that is given up after its photo leaves the photo
    behind.  When the girlfriend presses [do_<id>], sends a photo without
    a caption, which is downloaded, and then leaves the dialogue by the
    cancel button, the menu button, [/cancel] or [/menu], the database is
    as it was before the button, the dialogue is over with an empty
    dictionary, and the downloaded file is still in the photo directory:
    no row and no dictionary holds its path any more for a later cleanup
    to find. *)
Theorem cancelled_report_leaves_its_photo (ADMIN_ID GIRLFRIEND_ID : Z)
    (b : Bot.bot) (e1 e2 e3 : Bot.env) (task_id : Z) (t : Task.t)
    (user : User.t) (way : Bot.update) :
  GIRLFRIEND_ID <> ADMIN_ID ->
  task_id <> 0 ->
  user_by_telegram_id GIRLFRIEND_ID (db (Bot.the_world b)) = Some user ->
  task_by_id task_id (db (Bot.the_world b)) = Some t ->
  pending_of task_id (User.id user) (db (Bot.the_world b)) = [] ->
  fst (download_photo_with_retry (Bot.attempt e2) DEFAULT_MAX_RETRIES) = true ->
  In way (ways_out GIRLFRIEND_ID) ->
  exists b',
    Bot.run ADMIN_ID GIRLFRIEND_ID
      [ (e1, press_do_button GIRLFRIEND_ID task_id);
        (e2, photo_from GIRLFRIEND_ID None);
        (e3, way) ] b = Some b'
    /\ db (Bot.the_world b') = db (Bot.the_world b)
    /\ files (Bot.the_world b')
       = {[submission_dest e2]} ∪ files (Bot.the_world b)
    /\ Bot.context_of GIRLFRIEND_ID b' = Fsm.fresh.
Proof.
  intros Hg Hne Hu Ht Hp Hok Hway.
  set (a := ADMIN_ID). set (g := GIRLFRIEND_ID).
  destruct (press_do a g e1 task_id (local_of g b) user t Hg Hu Ht Hp)
    as (Hr1 & Hd1 & Hf1 & Hs1).
  destruct (Bot.handle_callback a g e1 g
              ("do_" ++ PyStr.str_of_int task_id) (local_of g b))
    as [r1 l1] eqn:E1.
  cbn [fst snd] in Hr1, Hd1, Hf1, Hs1.
  assert (Hn1 : r1 <> Bot.Fail Bot.NullColumn) by (rewrite Hr1; discriminate).
  assert (Hcur1 : Fsm.current (Bot.state l1)
                  = Some Fsm.SubmissionStates_waiting_for_photo)
    by (rewrite Hs1; reflexivity).
  assert (Hid1 : Fsm.task_id (Fsm.bag (Bot.state l1)) = Some task_id)
    by (rewrite Hs1; reflexivity).
  unfold press_do_button.
  rewrite (run_cons_handle a g e1 (Bot.OnCallback g _) _ b r1 l1 E1 Hn1).
  destruct (photo_without_caption a g e2 l1 task_id Hcur1 Hid1 Hne Hok)
    as (Hr2 & Hs2 & Hw2).
  destruct (Bot.handle_message a g e2
              (Bot.mkMessage g None (Bot.Photo None)) l1)
    as [r2 l2] eqn:E2.
  cbn [fst snd] in Hr2, Hs2, Hw2.
  assert (Hn2 : r2 <> Bot.Fail Bot.NullColumn) by (rewrite Hr2; discriminate).
  unfold photo_from.
  erewrite run_cons_handle;
    [ | cbn [Bot.sender Bot.from_user Bot.handle]; rewrite local_of_step;
        exact E2 | exact Hn2 ].
  cbn [Bot.sender Bot.from_user].
  destruct (way_out_handle a g e3 g l2 way Hway) as [E3 Hsender].
  erewrite run_cons_handle;
    [ | rewrite Hsender, local_of_step; exact E3 | discriminate ].
  eexists. split; [reflexivity|].
  cbn [Bot.the_world Bot.outside]. rewrite Hw2. cbn [db files download_photo snd].
  split; [exact Hd1|]. split.
  - f_equal. exact Hf1.
  - rewrite Hsender, context_of_insert, Z.eqb_refl. reflexivity.
Qed.

Lemma cancelled_report_leaves_its_photo_witness :
  exists b',
    Bot.run ADMIN GIRL
      [ (sample_env, press_do_button GIRL 2);
        (sample_env, photo_from GIRL None);
        (sample_env, Bot.OnCallback GIRL "cancel_action") ] bot_with_open_task
    = Some b'
    /\ db (Bot.the_world b') = db with_open_task
    /\ files (Bot.the_world b')
       = {[submission_dest sample_env]} ∪ files with_open_task.
Proof.
  destruct (user_by_telegram_id GIRL (db (Bot.the_world bot_with_open_task)))
    as [user|] eqn:Hu; [|vm_compute in Hu; discriminate].
  destruct (task_by_id 2 (db (Bot.the_world bot_with_open_task)))
    as [t|] eqn:Ht; [|vm_compute in Ht; discriminate].
  assert (Hp : pending_of 2 (User.id user)
                 (db (Bot.the_world bot_with_open_task)) = []).
  { vm_compute in Hu. injection Hu as <-. reflexivity. }
  destruct (cancelled_report_leaves_its_photo ADMIN GIRL bot_with_open_task
              sample_env sample_env sample_env 2 t user
              (Bot.OnCallback GIRL "cancel_action")
              ltac:(discriminate) ltac:(discriminate) Hu Ht Hp eq_refl
              (or_introl eq_refl))
    as (b' & Hrun & Hd & Hf & _).
  exists b'. auto.
Defined.

(** *** The dialogues of the admin, step by step *)








(** The title of the open task is changed; a date that is no date is
    refused and asked for again. *)
Example edit_dialogue_sample :
  (exists b',
     Bot.run ADMIN GIRL
       [ (sample_env, Bot.OnCallback ADMIN (edit_button Route.Title 2));
         (sample_env, plain ADMIN (Bot.Text "Riverside")) ]
       bot_with_open_task = Some b'
     /\ map Task.title (tasks (db (Bot.the_world b'))) = ["Park"; "Riverside"])
  /\ (exists b',
        Bot.run ADMIN GIRL
          [ (sample_env, Bot.OnCallback ADMIN (edit_button Route.Date 2));
            (sample_env, plain ADMIN (Bot.Text "tomorrow")) ]
          bot_with_open_task = Some b'
        /\ Fsm.current (Bot.context_of ADMIN b') = Some Fsm.TaskEdit_field).
Proof.
  split; eexists; split; vm_compute; reflexivity.
Qed.
